(** * FxxkLc data scripts: a shallow embedding and its properties

    The repository is a set of stand-alone Python scripts that fetch problem
    metadata, derive synthetic interview metrics from a frequency score with
    the ambient [random] module, and emit batched SQL, either into a file or
    through a [mysql] client subprocess.

    Layout of this file:
    - [Py]: the fragments of Python the scripts rely on (numbers, rounding,
      string formatting, slices);
    - the interfaces of the outside world: the [random] module, the database
      client, the HTTP endpoint, the ISO-8601 parser;
    - one module per script, with the functions of that script;
    - concrete test doubles for the interfaces;
    - the properties. *)

From Stdlib Require Import ZArith List String Ascii QArith Qround Lia Bool.
From Stdlib Require Import DecimalString.
From Stdlib Require Import Sorting.Permutation Sorting.Sorted.
From stdpp Require Import base option list gmap strings.
Import ListNotations.

Local Open Scope Z_scope.

(** ** Python fragments *)

Module Py.

(** Numbers.  A Python [int] is a [Z].  A [float] is read as the rational
    it stands for, and float arithmetic as exact arithmetic.  The scripts
    scale counts by short decimals, round to one or two digits and compare
    with short decimals; for the counts that occur, [int(n / 5)],
    [int(n * 0.5)], [int(n * 0.6)] and [int(n * 0.4)] truncate to the same
    integer in binary floating point and in exact arithmetic, and
    [round(x, 1)] rounds the exact value of [x], ties to even. *)

(** [int(x)] on a number: truncation toward zero. *)
Definition py_int (x : Q) : Z :=
  if Qle_bool 0 x then Qfloor x else Qceiling x.

(** Rounding to the nearest integer, ties to even: what [round] does on
    the exact value of its argument. *)
Definition round_half_even (x : Q) : Z :=
  let f := Qfloor x in
  match Qcompare (x - inject_Z f) (1 # 2) with
  | Lt => f
  | Gt => f + 1
  | Eq => if Z.even f then f else f + 1
  end.

Definition pow10 (n : nat) : Z := 10 ^ Z.of_nat n.

(** [round(x, ndigits)] on a float, as an exact rational in lowest terms.
    Floats are read as the rationals they denote; the result of [round]
    is the decimal with [ndigits] digits that Python prints for it. *)
Definition py_round (x : Q) (ndigits : nat) : Q :=
  Qred (inject_Z (round_half_even (x * inject_Z (pow10 ndigits)))
        / inject_Z (pow10 ndigits)).

(** A Python number that remembers whether it is an [int] or a [float]:
    [max(1.0, 100)] is the int [100], [max(1.0, 0)] is the float [1.0],
    and the two print differently. *)
Inductive pynum : Type :=
| PyInt (z : Z)
| PyFloat (q : Q).

Definition pynum_value (n : pynum) : Q :=
  match n with
  | PyInt z => inject_Z z
  | PyFloat q => q
  end.

(** [max(a, b)]: the first argument unless the second is strictly larger. *)
Definition py_max (a b : pynum) : pynum :=
  if Qlt_le_dec (pynum_value a) (pynum_value b) then b else a.

(** [round(n, ndigits)] with [ndigits >= 0]: an int is returned as it is. *)
Definition py_round_num (n : pynum) (ndigits : nat) : pynum :=
  match n with
  | PyInt z => PyInt z
  | PyFloat q => PyFloat (py_round q ndigits)
  end.

(** [str(n)] for an int. *)
Definition str_int (z : Z) : string := NilZero.string_of_int (Z.to_int z).

(** [str(x)] for a float that carries at most one decimal digit, such as
    the results of [round(_, 1)]: ["3.0"], ["72.5"]. *)
Definition str_float1 (x : Q) : string :=
  let t := round_half_even (x * 10) in
  let sign : string := if t <? 0 then "-"%string else ""%string in
  (sign ++ str_int (Z.abs t / 10) ++ "." ++ str_int (Z.abs t mod 10))%string.

Definition str_num (n : pynum) : string :=
  match n with
  | PyInt z => str_int z
  | PyFloat q => str_float1 q
  end.

(** [sep.join(parts)]. *)
Fixpoint join (sep : string) (parts : list string) : string :=
  match parts with
  | [] => ""
  | [p] => p
  | p :: rest => (p ++ sep ++ join sep rest)%string
  end.

(** [s.replace(c, by)] for a one-character pattern. *)
Fixpoint replace_char (c : ascii) (by_ : string) (s : string) : string :=
  match s with
  | EmptyString => EmptyString
  | String a rest =>
      if Ascii.eqb a c then (by_ ++ replace_char c by_ rest)%string
      else String a (replace_char c by_ rest)
  end.

(** [needle in s]. *)
Fixpoint contains (needle s : string) : bool :=
  String.prefix needle s
  || match s with
     | EmptyString => false
     | String _ rest => contains needle rest
     end.

(** [s.lower()], on the ASCII letters. *)
Definition lower_ascii (a : ascii) : ascii :=
  let n := nat_of_ascii a in
  if (65 <=? n)%nat && (n <=? 90)%nat then ascii_of_nat (n + 32) else a.

Fixpoint lower (s : string) : string :=
  match s with
  | EmptyString => EmptyString
  | String a rest => String (lower_ascii a) (lower rest)
  end.

(** [s.split(c)] for a one-character separator: never the empty list. *)
Fixpoint split_char (c : ascii) (s : string) : list string :=
  match s with
  | EmptyString => [EmptyString]
  | String a rest =>
      if Ascii.eqb a c then EmptyString :: split_char c rest
      else match split_char c rest with
           | [] => [String a EmptyString]
           | p :: ps => String a p :: ps
           end
  end.

(** [s.strip()]: leading and trailing ASCII white space removed. *)
Definition is_space (a : ascii) : bool :=
  let n := nat_of_ascii a in
  (n =? 32)%nat || ((9 <=? n)%nat && (n <=? 13)%nat).

Fixpoint lstrip (s : string) : string :=
  match s with
  | EmptyString => EmptyString
  | String a rest => if is_space a then lstrip rest else s
  end.

Fixpoint rstrip (s : string) : string :=
  match s with
  | EmptyString => EmptyString
  | String a rest =>
      match rstrip rest with
      | EmptyString => if is_space a then EmptyString
                       else String a EmptyString
      | kept => String a kept
      end
  end.

Definition strip (s : string) : string := rstrip (lstrip s).

(** [int(s)] on a string: white space around an optional sign and ASCII
    decimal digits; [None] stands for [ValueError].  (Digit separators
    and non-ASCII digits, which [int] also accepts, are left out.) *)
Definition digit_of (a : ascii) : option Z :=
  let n := nat_of_ascii a in
  if (48 <=? n)%nat && (n <=? 57)%nat then Some (Z.of_nat (n - 48))
  else None.

Fixpoint parse_digits (acc : Z) (s : string) : option Z :=
  match s with
  | EmptyString => Some acc
  | String a rest =>
      match digit_of a with
      | Some d => parse_digits (acc * 10 + d) rest
      | None => None
      end
  end.

Definition parse_nonempty_digits (s : string) : option Z :=
  match s with
  | EmptyString => None
  | _ => parse_digits 0 s
  end.

Definition parse_int (s : string) : option Z :=
  match strip s with
  | String "-" rest => option_map Z.opp (parse_nonempty_digits rest)
  | String "+" rest => parse_nonempty_digits rest
  | digits => parse_nonempty_digits digits
  end.

(** [xs.sort(key=..., reverse=True)]: descending by key, and stable, so
    that elements with equal keys keep their order. *)
Fixpoint insert_desc {A} (key : A -> Z) (x : A) (sorted : list A) : list A :=
  match sorted with
  | [] => [x]
  | y :: rest =>
      if key x <? key y then y :: insert_desc key x rest
      else x :: sorted
  end.

Definition sort_desc {A} (key : A -> Z) (xs : list A) : list A :=
  foldr (insert_desc key) [] xs.

(** [enumerate(xs, start)]. *)
Fixpoint enumerate {A} (start : Z) (xs : list A) : list (Z * A) :=
  match xs with
  | [] => []
  | x :: rest => (start, x) :: enumerate (start + 1) rest
  end.

(** [range(start, stop, step)] for [step > 0] (Python rejects a zero
    step; the scripts use the constants 10 and 100).  At most [stop]
    indices below [stop] exist, which bounds the recursion. *)
Fixpoint range_from (fuel : nat) (i stop step : nat) : list nat :=
  match fuel with
  | O => []
  | S fuel' =>
      if (i <? stop)%nat then i :: range_from fuel' (i + step) stop step
      else []
  end.

Definition py_range (start stop step : nat) : list nat :=
  range_from stop start stop step.

(** [xs[i:j]] for [0 <= i <= j]; a slice never fails, it stops at the end
    of the list. *)
Definition slice {A} (xs : list A) (i j : nat) : list A :=
  take (j - i) (drop i xs).

(** The batching idiom shared by the emitters:
    [for i in range(0, len(xs), batch_size): batch = xs[i:i+batch_size]],
    as the list of the pairs [(i, batch)] the loop body sees. *)
Definition batches {A} (batch_size : nat) (xs : list A)
  : list (nat * list A) :=
  map (fun i => (i, slice xs i (i + batch_size)))
      (py_range 0 (length xs) batch_size).

End Py.
Import Py.

(** ** The outside world *)

(** State-passing computations: the scripts thread the state of the
    [random] module, of the database and of the console through every
    call. *)
Definition State (S A : Type) : Type := S -> A * S.

Definition ret {S A} (a : A) : State S A := fun s => (a, s).

Definition bind {S A B} (c : State S A) (k : A -> State S B) : State S B :=
  fun s => let (a, s') := c s in k a s'.

Notation "'let*' x ':=' c 'in' k" := (bind c (fun x => k))
  (at level 10, x pattern, c at level 100, k at level 200).

Definition eval {S A} (c : State S A) (s : S) : A := fst (c s).

(** A loop [for x in xs: body(x)] that collects one result per element. *)
Fixpoint for_each {S A B} (body : A -> State S B) (xs : list A)
  : State S (list B) :=
  match xs with
  | [] => ret []
  | x :: rest =>
      let* y := body x in
      let* ys := for_each body rest in
      ret (y :: ys)
  end.

(** The [random] module.  [random.seed(a)] installs a generator state that
    depends on [a] alone; [random.randint(a, b)] and [random.uniform(a, b)]
    draw from the current state and advance it.  The Mersenne Twister
    itself is not part of the repository. *)
Class Random (rng : Type) : Type := {
  random_seed : Z -> rng;
  randint : Z -> Z -> State rng Z;
  uniform : Q -> Q -> State rng Q
}.

(** What the library documents about the two draws: they fall in the closed
    interval they are given; a [uniform] draw is read up to [Qeq]. *)
Class RandomLaws (rng : Type) `{Random rng} : Prop := {
  randint_range : forall a b s, a <= b -> a <= fst (randint a b s) <= b;
  uniform_range : forall a b s,
      (a <= b)%Q -> (a <= fst (uniform a b s) <= b)%Q
}.

(** The database client behind [execute_mysql_command]:
    [subprocess.run([... 'mysql' ... '-e', command], check=True)] either
    exits with status zero, and the call returns [(True, stdout)], or it
    exits nonzero, [CalledProcessError] is caught and the call returns
    [(False, stderr)]. *)
Class MySql (db : Type) : Type := {
  mysql_run : string -> State db (bool * string)
}.

(** The generated metrics: the dict every generator returns. *)
Record MetricBundle : Type := {
  interview_count : Z;
  unique_interviewers : Z;
  percentile : pynum;
  avg_difficulty_rating : Q;
  success_rate : Q;
  avg_solve_time_minutes : Z
}.

Inductive Scope : Type := GLOBAL | COMPANY | DEPARTMENT.

(** What a script does to its surroundings: the generator state, the
    database, the lines printed, and the commands handed to the client, the
    latest first. *)
Record world (rng db : Type) : Type := World {
  w_rng : rng;
  w_db : db;
  w_stdout : list string;
  w_commands : list string
}.
Arguments World {rng db}.
Arguments w_rng {rng db}.
Arguments w_db {rng db}.
Arguments w_stdout {rng db}.
Arguments w_commands {rng db}.

Section Effects.
Context {rng db : Type} `{Random rng} `{MySql db}.

(** A draw inside a script. *)
Definition draw {A} (c : State rng A) : State (world rng db) A :=
  fun w =>
    let (a, g) := c (w_rng w) in
    (a, World g (w_db w) (w_stdout w) (w_commands w)).

(** [random.seed(a)]. *)
Definition seed (a : Z) : State (world rng db) unit :=
  fun w => (tt, World (random_seed a) (w_db w) (w_stdout w) (w_commands w)).

(** [print(line)]. *)
Definition print (line : string) : State (world rng db) unit :=
  fun w => (tt, World (w_rng w) (w_db w) (w_stdout w ++ [line])
                      (w_commands w)).

(** One client subprocess for [command]. *)
Definition run_client (command : string)
  : State (world rng db) (bool * string) :=
  fun w =>
    let (r, d) := mysql_run command (w_db w) in
    (r, World (w_rng w) d (w_stdout w) (command :: w_commands w)).
End Effects.

Definition nl : string := String (ascii_of_nat 10) EmptyString.

(** The hundred (problem id, frequency score) pairs that three of the
    scripts carry as a literal. *)
Definition PROBLEM_FREQUENCIES : list (Z * Z) :=
  [ (1, 976); (2, 790); (3, 694); (4, 545); (5, 454); (6, 426); (7, 349);
    (8, 316); (9, 304); (10, 296);
    (11, 285); (12, 285); (13, 281); (14, 276); (15, 270); (16, 263);
    (17, 262); (18, 252); (19, 247); (20, 246);
    (21, 243); (22, 239); (23, 230); (24, 229); (25, 219); (26, 218);
    (27, 209); (28, 208); (29, 207); (30, 202);
    (31, 199); (32, 198); (33, 195); (34, 190); (35, 189); (36, 188);
    (37, 186); (38, 185); (39, 182); (40, 180);
    (41, 178); (42, 177); (43, 175); (44, 173); (45, 171); (46, 170);
    (47, 168); (48, 166); (49, 165); (50, 163);
    (51, 161); (52, 160); (53, 158); (54, 156); (55, 155); (56, 153);
    (57, 151); (58, 150); (59, 148); (60, 146);
    (61, 145); (62, 143); (63, 141); (64, 140); (65, 138); (66, 136);
    (67, 135); (68, 133); (69, 131); (70, 130);
    (71, 128); (72, 126); (73, 125); (74, 123); (75, 121); (76, 120);
    (77, 118); (78, 116); (79, 115); (80, 113);
    (81, 111); (82, 110); (83, 108); (84, 106); (85, 105); (86, 103);
    (87, 101); (88, 100); (89, 98); (90, 96);
    (91, 95); (92, 93); (93, 91); (94, 90); (95, 88); (96, 86); (97, 85);
    (98, 83); (99, 81); (100, 79) ].

(** Calendar values, as [datetime] objects carry them. *)
Record date_time : Type := {
  year : Z; month : Z; day : Z;
  hour : Z; minute : Z; second : Z
}.

Definition valid_date (dt : date_time) : Prop :=
  1 <= year dt <= 9999 /\ 1 <= month dt <= 12 /\ 1 <= day dt <= 31.

(** The [width] low decimal digits of a number: what the zero-padded
    directives [%Y], [%m], [%d], [%H], [%M] and [%S] print for the fields
    of a [datetime], none of which needs more digits than its width. *)
Definition digit_char (d : Z) : ascii := ascii_of_nat (48 + Z.to_nat d).

Fixpoint pad_digits (width : nat) (z : Z) (suffix : string) : string :=
  match width with
  | O => suffix
  | S w => pad_digits w (z / 10) (String (digit_char (z mod 10)) suffix)
  end.

Definition zero_pad (width : nat) (z : Z) : string :=
  pad_digits width z EmptyString.

(** [dt.strftime('%Y-%m-%d')] and [dt.strftime('%Y-%m-%d %H:%M:%S')]. *)
Definition strftime_date (dt : date_time) : string :=
  (zero_pad 4 (year dt) ++ "-" ++ zero_pad 2 (month dt) ++ "-"
     ++ zero_pad 2 (day dt))%string.

Definition strftime_datetime (dt : date_time) : string :=
  (strftime_date dt ++ " " ++ zero_pad 2 (hour dt) ++ ":"
     ++ zero_pad 2 (minute dt) ++ ":" ++ zero_pad 2 (second dt))%string.

(** [datetime.fromisoformat]: the parser of the standard library, which
    answers with a calendar value or raises [ValueError] ([None]). *)
Class IsoParser : Type := {
  fromisoformat : string -> option date_time
}.

Class IsoParserLaws `{IsoParser} : Prop := {
  fromisoformat_valid : forall s dt, fromisoformat s = Some dt -> valid_date dt
}.

(** A key of a JSON object, seen through the shape the endpoint documents:
    the key is absent, it holds [null], or it holds a value of the expected
    type. *)
Inductive field (A : Type) : Type :=
| Missing
| Null
| Present (a : A).
Arguments Missing {A}.
Arguments Null {A}.
Arguments Present {A} a.

Record leetcode_info : Type := {
  frontend_question_id : field Z;
  title : field string;
  level : field Z;
  slug_title : field string
}.

Record item : Type := {
  leetcode : field leetcode_info;
  value : field Z;
  time : field string
}.

(** The JSON envelope: the keys ["count"] and ["list"], and whether the
    object has any further key (an empty dict is falsy). *)
Record payload : Type := {
  p_count : field Z;
  p_list : option (list item);
  p_other_keys : bool
}.

Definition empty_dict : payload :=
  {| p_count := Missing; p_list := None; p_other_keys := false |}.

(** One [requests.get(url, headers=..., timeout=...)]. *)
Record request : Type := {
  req_url : string;
  req_headers : list (string * string);
  req_timeout : Z
}.

(** What the [requests] library reports, in the order in which
    [fetch_all_problems] asks: the call itself may raise a
    [RequestException] (no connection, time-out); [raise_for_status] may
    raise an [HTTPError] for the status of the answer; [json] may raise a
    [JSONDecodeError] or yield the decoded envelope. *)
Inductive json_result : Type :=
| JsonError (cause : string)
| JsonValue (data : payload).

Record response : Type := {
  raise_for_status : option string;
  json : json_result
}.

Inductive get_result : Type :=
| GetRaised (cause : string)
| GetReturned (r : response).

(** The surroundings of the fetch script: the network, the clock and the
    file system.  [open_write] tells whether the file could be written. *)
Class Outside (env : Type) : Type := {
  requests_get : request -> State env get_result;
  datetime_now : State env date_time;
  open_write : string -> string -> State env bool
}.

Record fetch_world (env : Type) : Type := FetchWorld {
  fw_env : env;
  fw_stdout : list string;
  fw_requests : list request;
  fw_files : list (string * string)
}.
Arguments FetchWorld {env}.
Arguments fw_env {env}.
Arguments fw_stdout {env}.
Arguments fw_requests {env}.
Arguments fw_files {env}.

(** ** generate_frequency_inserts.py *)

Module GenerateFrequencyInserts.
Section Script.
Context {rng db : Type} `{Random rng} `{MySql db}.

Definition frequency_data : list (Z * Z) := PROBLEM_FREQUENCIES.

Definition generate_interview_metrics (frequency_score rank : Z)
  : State rng MetricBundle :=
  let base_interviews := Z.max 1 (py_int (inject_Z frequency_score / 5)) in
  let* r := randint (-5) 5 in
  let interview_count := base_interviews + r in
  let interview_count := Z.max 1 interview_count in
  let* r := randint (-2) 2 in
  let unique_interviewers :=
    Z.max 1 (py_int (inject_Z interview_count * 0.5) + r) in
  let unique_interviewers :=
    Z.max 1 (Z.min unique_interviewers interview_count) in
  let percentile := py_round_num (PyInt (101 - rank)) 2 in
  let* avg_difficulty :=
    if rank <=? 20 then
      let* x := uniform 2.0 3.5 in ret (py_round x 1)
    else if rank <=? 50 then
      let* x := uniform 2.5 4.0 in ret (py_round x 1)
    else
      let* x := uniform 3.0 4.5 in ret (py_round x 1) in
  let* success_rate :=
    if Qle_bool avg_difficulty 2.5 then
      let* x := uniform 70 90 in ret (py_round x 1)
    else if Qle_bool avg_difficulty 3.5 then
      let* x := uniform 50 75 in ret (py_round x 1)
    else
      let* x := uniform 30 60 in ret (py_round x 1) in
  let* solve_time :=
    if Qle_bool avg_difficulty 2.5 then randint 10 20
    else if Qle_bool avg_difficulty 3.5 then randint 20 35
    else randint 35 50 in
  ret {| interview_count := interview_count;
         unique_interviewers := unique_interviewers;
         percentile := percentile;
         avg_difficulty_rating := avg_difficulty;
         success_rate := success_rate;
         avg_solve_time_minutes := solve_time |}.

Definition execute_mysql_command (command : string)
  : State (world rng db) (bool * string) :=
  run_client command.

(** What one iteration of the inner loop computes before it formats its
    value tuple. *)
Record row : Type := {
  row_problem_id : Z;
  row_frequency_score : Z;
  row_rank : Z;
  row_metrics : MetricBundle;
  row_days_ago : Z
}.

Definition make_row (record : Z * Z) : State rng row :=
  let '(problem_id, frequency_score) := record in
  let rank := problem_id in
  let* metrics := generate_interview_metrics frequency_score rank in
  let* days_ago := randint 1 7 in
  ret {| row_problem_id := problem_id;
         row_frequency_score := frequency_score;
         row_rank := rank;
         row_metrics := metrics;
         row_days_ago := days_ago |}.

Definition cont : string :=
  (", " ++ nl ++ "                       ")%string.

Definition value_text (r : row) : string :=
  let m := row_metrics r in
  let last_asked :=
    ("DATE_SUB(CURDATE(), INTERVAL " ++ str_int (row_days_ago r)
       ++ " DAY)")%string in
  ("(" ++ str_int (row_problem_id r) ++ ", "
     ++ str_int (row_frequency_score r) ++ ", "
     ++ str_int (interview_count m) ++ cont
     ++ str_int (unique_interviewers m) ++ ", " ++ last_asked ++ ", "
     ++ str_int (row_rank r) ++ cont
     ++ str_num (percentile m) ++ ", 'GLOBAL', "
     ++ str_float1 (avg_difficulty_rating m) ++ cont
     ++ str_float1 (success_rate m) ++ ", "
     ++ str_int (avg_solve_time_minutes m) ++ ")")%string.

Definition insert_cmd (values : list string) : string :=
  ("INSERT INTO problem_frequency_stats (" ++ nl
     ++ "            problem_id, total_frequency_score, interview_count, unique_interviewers," ++ nl
     ++ "            last_asked_date, frequency_rank, percentile, stats_scope," ++ nl
     ++ "            avg_difficulty_rating, success_rate, avg_solve_time_minutes" ++ nl
     ++ "        ) VALUES " ++ join ", " values ++ ";")%string.

Definition clear_cmd : string :=
  "DELETE FROM problem_frequency_stats WHERE problem_id BETWEEN 1 AND 100;".
Definition count_cmd : string :=
  "SELECT COUNT(*) as total FROM problem_frequency_stats WHERE stats_scope = 'GLOBAL';".
Definition top_cmd : string :=
  ("SELECT pfs.frequency_rank, p.title, pfs.total_frequency_score, pfs.percentile " ++ nl
     ++ "                 FROM problem_frequency_stats pfs " ++ nl
     ++ "                 JOIN problems p ON pfs.problem_id = p.id " ++ nl
     ++ "                 WHERE pfs.stats_scope = 'GLOBAL' " ++ nl
     ++ "                 ORDER BY pfs.frequency_rank LIMIT 10;")%string.

(** The values of one batch: the inner [for] loop. *)
Definition batch_values (batch : list (Z * Z)) : State rng (list string) :=
  for_each (fun record => let* r := make_row record in ret (value_text r))
           batch.

(** The outer [for] loop over the batches; a failed batch takes the
    [else] branch, whose [break] leaves the loop. *)
Fixpoint insert_loop (batch_size : nat) (todo : list (nat * list (Z * Z)))
         (total_inserted : Z) : State (world rng db) Z :=
  match todo with
  | [] => ret total_inserted
  | (i, batch) :: rest =>
      let* values := draw (batch_values batch) in
      let* (success, output) := execute_mysql_command (insert_cmd values) in
      if success : bool then
        let total_inserted := total_inserted + Z.of_nat (length batch) in
        let* _ := print
          ("✓ Inserted batch " ++ str_int (Z.of_nat (i / batch_size) + 1)
             ++ ": Problems " ++ str_int (fst (hd (0, 0) batch)) ++ "-"
             ++ str_int (fst (List.last batch (0, 0))) ++ " ("
             ++ str_int total_inserted ++ "/100)") in
        insert_loop batch_size rest total_inserted
      else
        let* _ := print
          ("✗ Failed to insert batch "
             ++ str_int (Z.of_nat (i / batch_size) + 1) ++ ": " ++ output) in
        ret total_inserted
  end.

(** [main], with the data literal and the batch size as parameters. *)
Definition main_on (data : list (Z * Z)) (batch_size : nat)
  : State (world rng db) unit :=
  let* _ := print "Generating frequency statistics for 100 problems..." in
  let* (success, output) := execute_mysql_command clear_cmd in
  if success : bool then
    let* _ := print "✓ Cleared existing frequency stats" in
    let* _ := insert_loop batch_size (batches batch_size data) 0 in
    let* (success, output) := execute_mysql_command count_cmd in
    let* _ := if success : bool
              then print (nl ++ "✓ Verification: " ++ strip output)
              else ret tt in
    let* (success, output) := execute_mysql_command top_cmd in
    if success : bool then
      let* _ := print (nl ++ "✓ Top 10 Problems by Frequency:") in
      print output
    else ret tt
  else
    print ("✗ Failed to clear data: " ++ output).

Definition main : State (world rng db) unit := main_on frequency_data 10.

(** The script: [random.seed(42)], then [main()]. *)
Definition script : State (world rng db) unit :=
  let* _ := seed 42 in main.
End Script.
End GenerateFrequencyInserts.

(** ** restore_global_frequency_stats.py *)

Module RestoreGlobal.
Section Script.
Context {rng db : Type} `{Random rng} `{MySql db}.

(** The command is sent behind a character-set directive. *)
Definition execute_mysql_command (command : string)
  : State (world rng db) (bool * string) :=
  run_client ("SET NAMES utf8mb4; " ++ command).

Definition generate_global_metrics (frequency_score rank : Z)
  : State rng MetricBundle :=
  let base_interviews := Z.max 1 (py_int (inject_Z frequency_score / 5)) in
  let* r := randint (-5) 5 in
  let interview_count := base_interviews + r in
  let interview_count := Z.max 1 interview_count in
  let* r := randint (-3) 3 in
  let unique_interviewers :=
    Z.max 1 (py_int (inject_Z interview_count * 0.6) + r) in
  let unique_interviewers :=
    Z.max 1 (Z.min unique_interviewers interview_count) in
  let percentile := py_round_num (PyInt (101 - rank)) 2 in
  let* avg_difficulty :=
    if rank <=? 20 then
      let* x := uniform 2.5 3.8 in ret (py_round x 1)
    else if rank <=? 50 then
      let* x := uniform 2.8 4.2 in ret (py_round x 1)
    else
      let* x := uniform 3.2 4.5 in ret (py_round x 1) in
  let* success_rate :=
    if Qle_bool avg_difficulty 2.5 then
      let* x := uniform 75 92 in ret (py_round x 1)
    else if Qle_bool avg_difficulty 3.5 then
      let* x := uniform 50 78 in ret (py_round x 1)
    else
      let* x := uniform 28 58 in ret (py_round x 1) in
  let* solve_time :=
    if Qle_bool avg_difficulty 2.5 then randint 10 22
    else if Qle_bool avg_difficulty 3.5 then randint 18 38
    else randint 32 55 in
  ret {| interview_count := interview_count;
         unique_interviewers := unique_interviewers;
         percentile := percentile;
         avg_difficulty_rating := avg_difficulty;
         success_rate := success_rate;
         avg_solve_time_minutes := solve_time |}.

Record row : Type := {
  row_problem_id : Z;
  row_frequency_score : Z;
  row_rank : Z;
  row_metrics : MetricBundle;
  row_days_ago : Z;
  row_first_days_ago : Z
}.

Definition make_row (record : Z * Z) : State rng row :=
  let '(problem_id, frequency_score) := record in
  let rank := problem_id in
  let* metrics := generate_global_metrics frequency_score rank in
  let* days_ago := randint 1 30 in
  let* first_days_ago := randint 90 365 in
  ret {| row_problem_id := problem_id;
         row_frequency_score := frequency_score;
         row_rank := rank;
         row_metrics := metrics;
         row_days_ago := days_ago;
         row_first_days_ago := first_days_ago |}.

Definition cont : string :=
  (", " ++ nl ++ "                       ")%string.

Definition date_sub (days : Z) : string :=
  ("DATE_SUB(CURDATE(), INTERVAL " ++ str_int days ++ " DAY)")%string.

Definition value_text (r : row) : string :=
  let m := row_metrics r in
  ("(" ++ str_int (row_problem_id r) ++ ", NULL, NULL, NULL, "
     ++ str_int (row_frequency_score r) ++ cont
     ++ str_int (interview_count m) ++ ", "
     ++ str_int (unique_interviewers m) ++ cont
     ++ date_sub (row_days_ago r) ++ ", "
     ++ date_sub (row_first_days_ago r) ++ ", 'STABLE'" ++ cont
     ++ str_float1 (avg_difficulty_rating m) ++ ", "
     ++ str_float1 (success_rate m) ++ cont
     ++ str_int (avg_solve_time_minutes m) ++ ", "
     ++ str_int (row_rank r) ++ ", " ++ str_num (percentile m) ++ cont
     ++ "'GLOBAL', CURDATE())")%string.

Definition insert_cmd (values : list string) : string :=
  ("INSERT INTO problem_frequency_stats (" ++ nl
     ++ "            problem_id, company_id, department_id, position_id, total_frequency_score, " ++ nl
     ++ "            interview_count, unique_interviewers, last_asked_date, first_asked_date, " ++ nl
     ++ "            frequency_trend, avg_difficulty_rating, success_rate, avg_solve_time_minutes, " ++ nl
     ++ "            frequency_rank, percentile, stats_scope, calculation_date" ++ nl
     ++ "        ) VALUES " ++ join ", " values ++ ";")%string.

Definition clear_cmd : string :=
  "DELETE FROM problem_frequency_stats WHERE stats_scope = 'GLOBAL';".

Definition verify_cmd : string :=
  (nl ++ "    SELECT " ++ nl
     ++ "        stats_scope as '统计维度'," ++ nl
     ++ "        COUNT(*) as '记录数量'," ++ nl
     ++ "        COUNT(DISTINCT problem_id) as '问题数量'," ++ nl
     ++ "        ROUND(AVG(total_frequency_score), 2) as '平均频率'," ++ nl
     ++ "        MIN(total_frequency_score) as '最低频率'," ++ nl
     ++ "        MAX(total_frequency_score) as '最高频率'" ++ nl
     ++ "    FROM problem_frequency_stats " ++ nl
     ++ "    GROUP BY stats_scope" ++ nl
     ++ "    ORDER BY " ++ nl
     ++ "        CASE stats_scope " ++ nl
     ++ "            WHEN 'GLOBAL' THEN 1 " ++ nl
     ++ "            WHEN 'COMPANY' THEN 2 " ++ nl
     ++ "            WHEN 'DEPARTMENT' THEN 3 " ++ nl
     ++ "        END;" ++ nl ++ "    ")%string.

Definition top_problems_cmd : string :=
  (nl ++ "    SELECT " ++ nl
     ++ "        pfs.frequency_rank as '全局排名'," ++ nl
     ++ "        p.title as '题目名称'," ++ nl
     ++ "        pfs.total_frequency_score as '频率分数'," ++ nl
     ++ "        pfs.percentile as '百分位数'," ++ nl
     ++ "        ROUND(pfs.success_rate, 1) as '通过率%'" ++ nl
     ++ "    FROM problem_frequency_stats pfs" ++ nl
     ++ "    JOIN problems p ON pfs.problem_id = p.id" ++ nl
     ++ "    WHERE pfs.stats_scope = 'GLOBAL'" ++ nl
     ++ "    ORDER BY pfs.frequency_rank" ++ nl
     ++ "    LIMIT 10;" ++ nl ++ "    ")%string.

Definition final_count_cmd : string :=
  "SELECT COUNT(*) as total FROM problem_frequency_stats WHERE stats_scope = 'GLOBAL';".

Definition batch_values (batch : list (Z * Z)) : State rng (list string) :=
  for_each (fun record => let* r := make_row record in ret (value_text r))
           batch.

(** The batch loop.  Its result tells whether the loop ran to its end:
    on a failed batch the [else] branch returns from [main]. *)
Fixpoint insert_loop (batch_size : nat) (todo : list (nat * list (Z * Z)))
         (total_inserted : Z) : State (world rng db) bool :=
  match todo with
  | [] => ret true
  | (i, batch) :: rest =>
      let* values := draw (batch_values batch) in
      let* (success, output) := execute_mysql_command (insert_cmd values) in
      if success : bool then
        let total_inserted := total_inserted + Z.of_nat (length batch) in
        let batch_start := fst (hd (0, 0) batch) in
        let batch_end := fst (List.last batch (0, 0)) in
        let* _ := print
          ("✓ 插入批次 " ++ str_int (Z.of_nat (i / batch_size) + 1)
             ++ ": 问题 " ++ str_int batch_start ++ "-" ++ str_int batch_end
             ++ " (" ++ str_int total_inserted ++ "/100)") in
        insert_loop batch_size rest total_inserted
      else
        let* _ := print ("✗ 插入批次失败: " ++ output) in
        ret false
  end.

Definition bar : string :=
  "============================================================".

(** The third step of [main]: the checks after the inserts. *)
Definition verify : State (world rng db) unit :=
  let* _ := print (nl ++ "第3步: 验证GLOBAL数据恢复结果...") in
  let* (success, output) := execute_mysql_command verify_cmd in
  let* _ := if success : bool
            then let* _ := print "✓ 统计数据验证:" in print output
            else ret tt in
  let* (success, output) := execute_mysql_command top_problems_cmd in
  let* _ := if success : bool
            then let* _ := print (nl ++ "✓ Top 10 全局热门题目验证:") in
                 print output
            else ret tt in
  let* (success, output) := execute_mysql_command final_count_cmd in
  let* _ :=
    if success : bool then
      let count_line :=
        List.last (split_char (ascii_of_nat 10) (strip output)) "" in
      if contains "100" count_line then
        let* _ := print (nl ++ "🎉 GLOBAL频率统计数据恢复成功！") in
        let* _ := print "📊 恢复统计:" in
        let* _ := print "   - 全局统计记录: 100条" in
        let* _ := print "   - 频率范围: 976-79" in
        let* _ := print "   - 排名范围: 1-100" in
        let* _ := print "   - 百分位数: 100%-1%" in
        print (nl ++ "✅ 现在所有三个统计维度(GLOBAL/COMPANY/DEPARTMENT)的数据都完整了！")
      else
        print ("⚠️ 数据恢复可能不完整，当前记录数: " ++ count_line)
    else ret tt in
  let* _ := print (nl ++ bar) in
  print "🔧 GLOBAL频率统计数据恢复完成!".

Definition main_on (data : list (Z * Z)) (batch_size : nat)
  : State (world rng db) unit :=
  let* _ := print "🔧 开始恢复GLOBAL频率统计数据..." in
  let* _ := print bar in
  let* _ := seed 42 in
  let* _ := print "第1步: 清理现有GLOBAL数据..." in
  let* (success, output) := execute_mysql_command clear_cmd in
  if success : bool then
    let* _ := print "✓ 清理完成" in
    let* _ := print (nl ++ "第2步: 恢复100个问题的GLOBAL频率统计...") in
    let* finished := insert_loop batch_size (batches batch_size data) 0 in
    if finished : bool then verify else ret tt
  else
    print ("✗ 清理失败: " ++ output).

Definition main : State (world rng db) unit :=
  main_on PROBLEM_FREQUENCIES 10.
End Script.
End RestoreGlobal.

(** ** generate_company_frequency_stats.py *)

Module CompanyStats.

Definition COMPANIES : list (string * string * string) :=
  [ ("bytedance", "字节跳动", "Technology");
    ("microsoft", "微软", "Technology");
    ("meituan", "美团", "Technology");
    ("alibaba", "阿里巴巴", "Technology");
    ("kuaishou", "快手", "Technology");
    ("tencent", "腾讯", "Technology");
    ("yuanfudao", "猿辅导", "Education");
    ("baidu", "百度", "Technology");
    ("didi", "滴滴", "Transportation");
    ("jd", "京东", "E-commerce");
    ("huawei", "华为", "Technology");
    ("pdd", "拼多多", "E-commerce");
    ("netease", "网易", "Technology");
    ("xiaomi", "小米", "Technology");
    ("shangtang", "商汤", "AI");
    ("megvii", "旷视", "AI");
    ("amazon", "亚马逊", "Technology");
    ("shopee", "虾皮", "E-commerce");
    ("tusimple", "图森", "Autonomous Driving");
    ("ctrip", "携程", "Travel");
    ("bilibili", "bilibili", "Entertainment");
    ("xiaohongshu", "小红书", "Social Media") ]%string.

Definition DEPARTMENTS : list (string * string * string) :=
  [ ("backend", "后端", "Backend development");
    ("frontend", "前端", "Frontend development");
    ("client", "客户端", "Mobile/Desktop client development");
    ("algorithm", "算法", "Algorithm and data science");
    ("data", "数据研发", "Data engineering and analytics");
    ("qa", "测试", "Quality assurance and testing");
    ("swe", "Software Engineer", "General software engineering") ]%string.

Definition company_multipliers : gmap string Q :=
  list_to_map
    [ ("bytedance", 1.2); ("alibaba", 1.1); ("tencent", 1.15);
      ("microsoft", 0.9); ("amazon", 0.8); ("meituan", 1.05);
      ("kuaishou", 1.0); ("baidu", 0.95); ("huawei", 1.0); ("jd", 0.9);
      ("didi", 0.85); ("pdd", 1.1); ("xiaomi", 0.9); ("netease", 0.85);
      ("shopee", 0.8); ("bilibili", 0.75); ("xiaohongshu", 0.7) ]%string%Q.

Definition dept_multipliers : gmap string Q :=
  list_to_map
    [ ("backend", 1.0); ("frontend", 0.7); ("client", 0.8);
      ("algorithm", 1.3); ("data", 1.1); ("qa", 0.6);
      ("swe", 0.9) ]%string%Q.

(** How a function of the script ends: it returns, or an exception that
    nothing catches ends the run. *)
Inductive outcome : Type := Returned | Raised.

Section Script.
Context {rng db : Type} `{Random rng} `{MySql db}.

Definition execute_mysql_command (command : string)
  : State (world rng db) (bool * string) :=
  run_client command.

Definition get_company_frequency_variation (global_freq : Z)
           (company_name : string) : State rng Z :=
  let multiplier := default 0.8%Q (company_multipliers !! company_name) in
  let* variation := uniform 0.8 1.2 in
  let company_freq :=
    py_int (inject_Z global_freq * multiplier * variation) in
  ret (Z.max 1 company_freq).

Definition get_department_frequency_variation (company_freq : Z)
           (dept_name : string) : State rng Z :=
  let multiplier := default 0.8%Q (dept_multipliers !! dept_name) in
  let* variation := uniform 0.85 1.15 in
  let dept_freq :=
    py_int (inject_Z company_freq * multiplier * variation) in
  ret (Z.max 1 dept_freq).

(** [scope_type] is compared with ['COMPANY'] only; every other scope
    takes the department branch. *)
Definition is_company (scope_type : Scope) : bool :=
  match scope_type with COMPANY => true | _ => false end.

Definition generate_realistic_metrics (frequency_score : Z)
           (scope_type : Scope) (rank_within_scope : Z)
  : State rng MetricBundle :=
  let base_interviews := Z.max 1 (py_int (inject_Z frequency_score / 8)) in
  let* r := randint (-3) 3 in
  let interview_count := base_interviews + r in
  let interview_count := Z.max 1 interview_count in
  let unique_ratio := if is_company scope_type then 0.6%Q else 0.4%Q in
  let* r := randint (-1) 1 in
  let unique_interviewers :=
    Z.max 1 (py_int (inject_Z interview_count * unique_ratio) + r) in
  let unique_interviewers :=
    Z.max 1 (Z.min unique_interviewers interview_count) in
  let percentile :=
    py_round_num (py_max (PyFloat 1.0) (PyInt (101 - rank_within_scope))) 2 in
  let* avg_difficulty :=
    if is_company scope_type then
      let* x := uniform 2.2 4.0 in ret (py_round x 1)
    else
      let* x := uniform 2.5 4.2 in ret (py_round x 1) in
  let* success_rate :=
    if Qle_bool avg_difficulty 2.5 then
      let* x := uniform 65 85 in ret (py_round x 1)
    else if Qle_bool avg_difficulty 3.5 then
      let* x := uniform 45 70 in ret (py_round x 1)
    else
      let* x := uniform 25 55 in ret (py_round x 1) in
  let* solve_time :=
    if Qle_bool avg_difficulty 2.5 then randint 12 22
    else if Qle_bool avg_difficulty 3.5 then randint 22 38
    else randint 35 55 in
  ret {| interview_count := interview_count;
         unique_interviewers := unique_interviewers;
         percentile := percentile;
         avg_difficulty_rating := avg_difficulty;
         success_rate := success_rate;
         avg_solve_time_minutes := solve_time |}.

Definition setup_companies_and_departments : State (world rng db) unit :=
  let* _ := print "Setting up companies and departments..." in
  let* _ := for_each
    (fun '(company_code, company_name, industry) =>
       let cmd :=
         (nl ++ "        INSERT INTO companies (name, display_name, description, industry, is_active) " ++ nl
            ++ "        VALUES ('" ++ company_code ++ "', '" ++ company_name
            ++ "', '" ++ industry ++ " company', '" ++ industry ++ "', true)" ++ nl
            ++ "        ON DUPLICATE KEY UPDATE " ++ nl
            ++ "        display_name = VALUES(display_name)," ++ nl
            ++ "        description = VALUES(description)," ++ nl
            ++ "        industry = VALUES(industry)," ++ nl
            ++ "        updated_at = CURRENT_TIMESTAMP;" ++ nl
            ++ "        ")%string in
       let* (success, output) := execute_mysql_command cmd in
       if success : bool then ret tt
       else print ("✗ Failed to insert company " ++ company_name ++ ": "
                     ++ output))
    COMPANIES in
  let* _ := for_each
    (fun '(dept_code, dept_name, description) =>
       let cmd :=
         (nl ++ "        INSERT INTO departments (name, display_name, description, is_active) " ++ nl
            ++ "        VALUES ('" ++ dept_code ++ "', '" ++ dept_name
            ++ "', '" ++ description ++ "', true)" ++ nl
            ++ "        ON DUPLICATE KEY UPDATE " ++ nl
            ++ "        display_name = VALUES(display_name)," ++ nl
            ++ "        description = VALUES(description)," ++ nl
            ++ "        updated_at = CURRENT_TIMESTAMP;" ++ nl
            ++ "        ")%string in
       let* (success, output) := execute_mysql_command cmd in
       if success : bool then ret tt
       else print ("✗ Failed to insert department " ++ dept_name ++ ": "
                     ++ output))
    DEPARTMENTS in
  print "✓ Companies and departments setup completed".

(** The rows of a client answer: the header line is dropped, blank lines
    and lines with fewer than [width] tab-separated fields are skipped,
    and the first field goes through [int], which may raise. *)
Fixpoint parse_lines (width : nat) (lines : list string)
  : option (list (Z * list string)) :=
  match lines with
  | [] => Some []
  | line :: rest =>
      let parts := split_char (ascii_of_nat 9) (strip line) in
      if negb (String.eqb (strip line) "") && (width <=? length parts)%nat
      then
        match parse_int (hd ""%string parts), parse_lines width rest with
        | Some id, Some rows => Some ((id, tl parts) :: rows)
        | Some id, None => None
        | None, _ => None
        end
      else parse_lines width rest
  end.

Definition parse_answer (width : nat) (output : string)
  : option (list (Z * list string)) :=
  parse_lines width (tl (split_char (ascii_of_nat 10) (strip output))).

Definition cont : string :=
  (", " ++ nl ++ "                       ")%string.

Definition date_sub (days : Z) : string :=
  ("DATE_SUB(CURDATE(), INTERVAL " ++ str_int days ++ " DAY)")%string.

(** What the loop over the ranked problems of one company computes before
    it formats its value tuple; [row_department] is [None] in company
    scope. *)
Record row : Type := {
  row_problem_id : Z;
  row_company_id : Z;
  row_department : option Z;
  row_frequency_score : Z;
  row_rank : Z;
  row_metrics : MetricBundle;
  row_days_ago : Z
}.

Definition make_row (scope_type : Scope) (company_id : Z)
           (department : option Z) (max_days : Z) (ranked : Z * (Z * Z))
  : State rng row :=
  let '(rank, (problem_id, frequency_score)) := ranked in
  let* metrics := generate_realistic_metrics frequency_score scope_type rank in
  let* days_ago := randint 1 max_days in
  ret {| row_problem_id := problem_id;
         row_company_id := company_id;
         row_department := department;
         row_frequency_score := frequency_score;
         row_rank := rank;
         row_metrics := metrics;
         row_days_ago := days_ago |}.

Definition company_value_text (r : row) : string :=
  let m := row_metrics r in
  ("(" ++ str_int (row_problem_id r) ++ ", " ++ str_int (row_company_id r)
     ++ ", NULL, NULL, " ++ str_int (row_frequency_score r) ++ cont
     ++ str_int (interview_count m) ++ ", "
     ++ str_int (unique_interviewers m) ++ cont
     ++ date_sub (row_days_ago r)
     ++ ", DATE_SUB(CURDATE(), INTERVAL 120 DAY), 'STABLE'" ++ cont
     ++ str_float1 (avg_difficulty_rating m) ++ ", "
     ++ str_float1 (success_rate m) ++ cont
     ++ str_int (avg_solve_time_minutes m) ++ ", "
     ++ str_int (row_rank r) ++ ", " ++ str_num (percentile m) ++ cont
     ++ "'COMPANY')")%string.

Definition insert_cmd (indent : string) (values : list string) : string :=
  ("INSERT INTO problem_frequency_stats (" ++ nl
     ++ indent ++ "    problem_id, company_id, department_id, position_id, total_frequency_score, " ++ nl
     ++ indent ++ "    interview_count, unique_interviewers, last_asked_date, first_asked_date, " ++ nl
     ++ indent ++ "    frequency_trend, avg_difficulty_rating, success_rate, avg_solve_time_minutes, " ++ nl
     ++ indent ++ "    frequency_rank, percentile, stats_scope" ++ nl
     ++ indent ++ ") VALUES " ++ join ", " values ++ ";")%string.

Definition company_insert_cmd : list string -> string :=
  insert_cmd "            ".

(** [for i in range(0, len(values), 10)]: every batch is sent; a failed
    one is reported and the loop goes on. *)
Fixpoint insert_batches (company_name : string)
         (todo : list (nat * list string)) (total_generated : Z)
  : State (world rng db) Z :=
  match todo with
  | [] => ret total_generated
  | (i, batch) :: rest =>
      let* (success, output) :=
        execute_mysql_command (company_insert_cmd batch) in
      if success : bool then
        let total_generated := total_generated + Z.of_nat (length batch) in
        let* _ := print
          ("  ✓ Inserted batch for " ++ company_name ++ ": "
             ++ str_int (Z.of_nat (length batch)) ++ " records") in
        insert_batches company_name rest total_generated
      else
        let* _ := print
          ("  ✗ Failed batch for " ++ company_name ++ ": " ++ output) in
        insert_batches company_name rest total_generated
  end.

(** The frequencies of the first [top] problems for one company, and for
    one of its departments when [dept_code] is given. *)
Definition scoped_problems (top : nat) (company_code : string)
           (dept_code : option string) : State rng (list (Z * Z)) :=
  for_each
    (fun '(problem_id, global_freq) =>
       let* company_freq :=
         get_company_frequency_variation global_freq company_code in
       match dept_code with
       | None => ret (problem_id, company_freq)
       | Some code =>
           let* dept_freq :=
             get_department_frequency_variation company_freq code in
           ret (problem_id, dept_freq)
       end)
    (take top PROBLEM_FREQUENCIES).

(** The values of one company: frequencies, ranks, rows, tuples. *)
Definition company_values (company_id : Z) (company_code : string)
  : State rng (list string) :=
  let* company_problems := scoped_problems 20 company_code None in
  let company_problems := sort_desc snd company_problems in
  for_each
    (fun ranked =>
       let* r := make_row COMPANY company_id None 30 ranked in
       ret (company_value_text r))
    (enumerate 1 company_problems).

Fixpoint company_loop (batch_size : nat)
         (companies : list (Z * list string)) (total_generated : Z)
  : State (world rng db) Z :=
  match companies with
  | [] => ret total_generated
  | (company_id, fields) :: rest =>
      let company_code := nth 0 fields ""%string in
      let company_name := nth 1 fields ""%string in
      let* _ := print ("Processing company: " ++ company_name) in
      let* values := draw (company_values company_id company_code) in
      let* total_generated :=
        insert_batches company_name (batches batch_size values)
                       total_generated in
      company_loop batch_size rest total_generated
  end.

Definition generate_company_frequency_stats : State (world rng db) outcome :=
  let* _ := print "Generating company-level frequency statistics..." in
  let cmd :=
    "SELECT id, name, display_name FROM companies WHERE is_active = true;"
    %string in
  let* (success, output) := execute_mysql_command cmd in
  if success : bool then
    match parse_answer 3 output with
    | None => ret Raised
    | Some companies =>
        let* _ := print
          ("Found " ++ str_int (Z.of_nat (length companies))
             ++ " companies") in
        let* total_generated := company_loop 10 (take 10 companies) 0 in
        let* _ := print
          ("✓ Generated " ++ str_int total_generated
             ++ " company-level frequency statistics") in
        ret Returned
    end
  else
    let* _ := print ("✗ Failed to get companies: " ++ output) in
    ret Returned.

Definition department_value_text (r : row) : string :=
  let m := row_metrics r in
  let cont := (", " ++ nl ++ "                           ")%string in
  ("(" ++ str_int (row_problem_id r) ++ ", " ++ str_int (row_company_id r)
     ++ ", " ++ str_int (default 0 (row_department r)) ++ ", NULL, "
     ++ str_int (row_frequency_score r) ++ cont
     ++ str_int (interview_count m) ++ ", "
     ++ str_int (unique_interviewers m) ++ cont
     ++ date_sub (row_days_ago r)
     ++ ", DATE_SUB(CURDATE(), INTERVAL 90 DAY), 'STABLE'" ++ cont
     ++ str_float1 (avg_difficulty_rating m) ++ ", "
     ++ str_float1 (success_rate m) ++ cont
     ++ str_int (avg_solve_time_minutes m) ++ ", "
     ++ str_int (row_rank r) ++ ", " ++ str_num (percentile m) ++ cont
     ++ "'DEPARTMENT')")%string.

Definition department_values (company_id : Z) (company_code : string)
           (dept_id : Z) (dept_code : string) : State rng (list string) :=
  let* dept_problems := scoped_problems 10 company_code (Some dept_code) in
  let dept_problems := sort_desc snd dept_problems in
  for_each
    (fun ranked =>
       let* r := make_row DEPARTMENT company_id (Some dept_id) 60 ranked in
       ret (department_value_text r))
    (enumerate 1 dept_problems).

(** One company-department pair: one statement with all its values. *)
Definition department_step (company : Z * list string)
           (dept : Z * list string) (total_generated : Z)
  : State (world rng db) Z :=
  let '(company_id, cfields) := company in
  let '(dept_id, dfields) := dept in
  let company_code := nth 0 cfields ""%string in
  let dept_code := nth 0 dfields ""%string in
  let* _ := print ("Processing company " ++ company_code
                     ++ " - department " ++ dept_code) in
  let* values :=
    draw (department_values company_id company_code dept_id dept_code) in
  let* (success, output) :=
    execute_mysql_command (insert_cmd "            " values) in
  if success : bool then
    let total_generated := total_generated + Z.of_nat (length values) in
    let* _ := print
      ("  ✓ Inserted " ++ str_int (Z.of_nat (length values))
         ++ " records for " ++ company_code ++ "-" ++ dept_code) in
    ret total_generated
  else
    let* _ := print
      ("  ✗ Failed for " ++ company_code ++ "-" ++ dept_code ++ ": "
         ++ output) in
    ret total_generated.

Fixpoint department_loop (pairs : list ((Z * list string) * (Z * list string)))
         (total_generated : Z) : State (world rng db) Z :=
  match pairs with
  | [] => ret total_generated
  | (company, dept) :: rest =>
      let* total_generated := department_step company dept total_generated in
      department_loop rest total_generated
  end.

Definition generate_department_frequency_stats
  : State (world rng db) outcome :=
  let* _ := print "Generating department-level frequency statistics..." in
  let cmd_companies :=
    "SELECT id, name FROM companies WHERE is_active = true LIMIT 5;"%string in
  let* (success, output) := execute_mysql_command cmd_companies in
  if success : bool then
    match parse_answer 2 output with
    | None => ret Raised
    | Some companies =>
        let cmd_departments :=
          "SELECT id, name FROM departments WHERE is_active = true;"%string in
        let* (success, output) := execute_mysql_command cmd_departments in
        if success : bool then
          match parse_answer 2 output with
          | None => ret Raised
          | Some departments =>
              let* _ := print
                ("Found " ++ str_int (Z.of_nat (length companies))
                   ++ " companies and "
                   ++ str_int (Z.of_nat (length departments))
                   ++ " departments") in
              let pairs :=
                company ← companies;
                dept ← take 3 departments;
                [(company, dept)] in
              let* total_generated := department_loop pairs 0 in
              let* _ := print
                ("✓ Generated " ++ str_int total_generated
                   ++ " department-level frequency statistics") in
              ret Returned
          end
        else
          let* _ := print ("✗ Failed to get departments: " ++ output) in
          ret Returned
    end
  else
    let* _ := print ("✗ Failed to get companies: " ++ output) in
    ret Returned.

Definition bar : string :=
  "============================================================".

Definition verify_cmd : string :=
  (nl ++ "    SELECT " ++ nl
     ++ "        stats_scope," ++ nl
     ++ "        COUNT(*) as total_records," ++ nl
     ++ "        COUNT(DISTINCT company_id) as unique_companies," ++ nl
     ++ "        COUNT(DISTINCT department_id) as unique_departments," ++ nl
     ++ "        ROUND(AVG(total_frequency_score), 2) as avg_frequency," ++ nl
     ++ "        MIN(total_frequency_score) as min_frequency," ++ nl
     ++ "        MAX(total_frequency_score) as max_frequency" ++ nl
     ++ "    FROM problem_frequency_stats " ++ nl
     ++ "    WHERE stats_scope IN ('GLOBAL', 'COMPANY', 'DEPARTMENT')" ++ nl
     ++ "    GROUP BY stats_scope" ++ nl
     ++ "    ORDER BY " ++ nl
     ++ "        CASE stats_scope " ++ nl
     ++ "            WHEN 'GLOBAL' THEN 1 " ++ nl
     ++ "            WHEN 'COMPANY' THEN 2 " ++ nl
     ++ "            WHEN 'DEPARTMENT' THEN 3 " ++ nl
     ++ "        END;" ++ nl ++ "    ")%string.

Definition sample_cmd : string :=
  (nl ++ "    SELECT " ++ nl
     ++ "        c.display_name as company_name," ++ nl
     ++ "        COUNT(pfs.id) as problem_count," ++ nl
     ++ "        ROUND(AVG(pfs.total_frequency_score), 2) as avg_frequency," ++ nl
     ++ "        MAX(pfs.total_frequency_score) as max_frequency" ++ nl
     ++ "    FROM problem_frequency_stats pfs" ++ nl
     ++ "    JOIN companies c ON pfs.company_id = c.id" ++ nl
     ++ "    WHERE pfs.stats_scope = 'COMPANY'" ++ nl
     ++ "    GROUP BY c.id, c.display_name" ++ nl
     ++ "    ORDER BY avg_frequency DESC" ++ nl
     ++ "    LIMIT 5;" ++ nl ++ "    ")%string.

Definition clear_cmd : string :=
  "DELETE FROM problem_frequency_stats WHERE stats_scope IN ('COMPANY', 'DEPARTMENT', 'POSITION');".

Definition verification : State (world rng db) unit :=
  let* _ := print (nl ++ bar) in
  let* _ := print "VERIFICATION RESULTS:" in
  let* (success, output) := execute_mysql_command verify_cmd in
  let* _ := if success : bool then print output else ret tt in
  let* (success, output) := execute_mysql_command sample_cmd in
  let* _ := if success : bool
            then let* _ := print (nl ++ "Top 5 companies by average frequency:") in
                 print output
            else ret tt in
  print (nl ++ "✓ Comprehensive frequency statistics generation completed!").

Definition main : State (world rng db) outcome :=
  let* _ := print "Starting comprehensive frequency statistics generation..." in
  let* _ := print bar in
  let* _ := seed 42 in
  let* _ := setup_companies_and_departments in
  let* _ := print (nl ++ "Clearing existing company/department frequency stats...") in
  let* (success, output) := execute_mysql_command clear_cmd in
  if success : bool then
    let* _ := print "✓ Cleared existing company/department stats" in
    let* o := generate_company_frequency_stats in
    match o with
    | Raised => ret Raised
    | Returned =>
        let* o := generate_department_frequency_stats in
        match o with
        | Raised => ret Raised
        | Returned => let* _ := verification in ret Returned
        end
    end
  else
    let* _ := print ("✗ Failed to clear existing stats: " ++ output) in
    ret Returned.
End Script.
End CompanyStats.

(** ** fetch_codetop_data.py *)

Module FetchCodetop.

Inductive difficulty : Type := EASY | MEDIUM | HARD.

#[global] Instance difficulty_eq_dec : EqDecision difficulty.
Proof. solve_decision. Defined.

Definition difficulty_name (d : difficulty) : string :=
  match d with
  | EASY => "EASY"
  | MEDIUM => "MEDIUM"
  | HARD => "HARD"
  end.

(** How a function of the script ends: it returns, or an exception that
    nothing catches ends the run. *)
Inductive outcome : Type := Returned | Raised.

Definition mapping : gmap Z difficulty :=
  {[ 1 := EASY; 2 := MEDIUM; 3 := HARD ]}.

Definition map_difficulty (level : Z) : difficulty :=
  default MEDIUM (mapping !! level).

(** [map_difficulty(leetcode_info.get('level', 2))]: an absent key
    becomes level 2, and [None] is no key of the mapping. *)
Definition difficulty_of (level : field Z) : difficulty :=
  match level with
  | Missing => map_difficulty 2
  | Null => MEDIUM
  | Present l => map_difficulty l
  end.

Definition fallback_date : string := "2025-08-01".

(** [format_date]; its argument is a string or [None].  Whatever the
    [try] block raises, [AttributeError] on [None] or [ValueError] from
    the parser, the bare [except] answers with the fallback. *)
Definition format_date `{IsoParser} (date_str : option string) : string :=
  match date_str with
  | None => fallback_date
  | Some text =>
      match fromisoformat (replace_char "Z" "+00:00" text) with
      | Some dt => strftime_date dt
      | None => fallback_date
      end
  end.

Definition any_in (words : list string) (text : string) : bool :=
  existsb (fun word => contains word text) words.

Definition classify_tags (title : string) (d : difficulty) : list string :=
  let rule (words : list string) (tag : string) : list string :=
    if any_in words title then [tag] else [] in
  let tags :=
    (rule ["数组"; "最大"; "最小"; "第K个"; "合并"; "排序"] "数组"
     ++ rule ["字符串"; "子串"; "回文"] "字符串"
     ++ rule ["链表"; "反转"; "合并"] "链表"
     ++ rule ["二叉树"; "树"; "遍历"] "树"
     ++ rule ["哈希"; "LRU"; "缓存"] "哈希表"
     ++ rule ["搜索"; "查找"; "旋转"] "二分查找"
     ++ rule ["岛屿"; "图"] "深度优先搜索"
     ++ rule ["层序"; "层次"] "广度优先搜索"
     ++ rule ["排列"; "组合"] "回溯算法"
     ++ rule ["动态"; "最优"; "最长"; "最大和"] "动态规划"
     ++ rule ["栈"; "括号"] "栈"
     ++ rule ["快速排序"; "排序"] "排序"
     ++ rule ["双指针"; "三数之和"; "两数之和"] "双指针")%list%string in
  match tags with
  | [] =>
      match d with
      | EASY => ["基础算法"%string]
      | HARD => ["高级算法"%string]
      | MEDIUM => ["算法"%string]
      end
  | _ => tags
  end.

Definition get_frequency_level (frequency : Z) : string :=
  if 600 <=? frequency then "VERY_HIGH"
  else if 400 <=? frequency then "HIGH"
  else if 200 <=? frequency then "MEDIUM"
  else "LOW".

(** [str] of a key read with [get(key, default)]. *)
Definition str_field (default : string) (f : field Z) : string :=
  match f with
  | Missing => default
  | Null => "None"
  | Present z => str_int z
  end.

Definition no_info : leetcode_info :=
  {| frontend_question_id := Missing; title := Missing;
     level := Missing; slug_title := Missing |}.

(** The [try] block of the loop of [generate_problem_sql] for the item at
    index [i]: the value tuple, or the message of the exception. *)
Definition render_problem (i : nat) (it : item) : string + string :=
  match leetcode it with
  | Null => inr "'NoneType' object has no attribute 'get'"%string
  | other =>
      let info := match other with Present info => info | _ => no_info end in
      match title info with
      | Null => inr "'NoneType' object has no attribute 'replace'"%string
      | raw =>
          let title :=
            replace_char "'" "''"
              (match raw with Present t => t | _ => ""%string end) in
          let leetcode_id :=
            str_field (str_int (Z.of_nat i + 1)) (frontend_question_id info) in
          let d := difficulty_of (level info) in
          let problem_url :=
            match slug_title info with
            | Present (String a rest) =>
                ("https://leetcode.cn/problems/" ++ String a rest)%string
            | _ =>
                ("https://leetcode.cn/problems/problem-" ++ leetcode_id)%string
            end in
          let tags := classify_tags title d in
          let tags_json :=
            ("JSON_ARRAY("
               ++ join ", " (map (fun tag => "'" ++ tag ++ "'") tags)
               ++ ")")%string in
          let is_premium : string :=
            if contains "premium" (lower title) || contains "付费" title
            then "true"%string else "false"%string in
          inl ("('" ++ title ++ "', '" ++ difficulty_name d ++ "', '"
                 ++ problem_url ++ "', '" ++ leetcode_id ++ "', "
                 ++ tags_json ++ ", " ++ is_premium ++ ", true)")%string
      end
  end.

Definition insert_header : string :=
  "INSERT INTO problems (title, difficulty, problem_url, leetcode_id, tags, is_premium, is_active) VALUES".

Definition upsert_clause : list string :=
  [ "ON DUPLICATE KEY UPDATE";
    "title = VALUES(title),";
    "difficulty = VALUES(difficulty),";
    "problem_url = VALUES(problem_url),";
    "tags = VALUES(tags),";
    "updated_at = CURRENT_TIMESTAMP;";
    "" ]%string.

(** The lines of one batch: every value but the last is followed by a
    comma. *)
Fixpoint value_lines (batch : list string) : list string :=
  match batch with
  | [] => []
  | [v] => [v]
  | v :: rest => (v ++ ",")%string :: value_lines rest
  end.

(** The lines the batch loop appends for the batch that starts at index
    [i]: every batch but the first repeats the header, behind a blank
    line. *)
Definition batch_lines (i : nat) (batch : list string) : list string :=
  ((if (0 <? i)%nat then [(nl ++ insert_header)%string] else [])
     ++ value_lines batch ++ upsert_clause)%list.

Definition batch_size : nat := 100.

Definition emit_batches (size : nat) (problem_values : list string)
  : list string :=
  concat (map (fun '(i, batch) => batch_lines i batch)
              (batches size problem_values)).

Section Script.
Context {env : Type} `{Outside env} `{IsoParser}.

Definition print (line : string) : State (fetch_world env) unit :=
  fun w => (tt, FetchWorld (fw_env w) (fw_stdout w ++ [line])
                           (fw_requests w) (fw_files w)).

Definition get (r : request) : State (fetch_world env) get_result :=
  fun w =>
    let (a, e) := requests_get r (fw_env w) in
    (a, FetchWorld e (fw_stdout w) (r :: fw_requests w) (fw_files w)).

Definition now : State (fetch_world env) date_time :=
  fun w =>
    let (a, e) := datetime_now (fw_env w) in
    (a, FetchWorld e (fw_stdout w) (fw_requests w) (fw_files w)).

(** [with open(path, 'w') as f: f.write(text)]. *)
Definition write_file (path text : string) : State (fetch_world env) bool :=
  fun w =>
    let (ok, e) := open_write path text (fw_env w) in
    (ok, FetchWorld e (fw_stdout w) (fw_requests w)
                    (if ok then (path, text) :: fw_files w else fw_files w)).

Definition url : string := "https://codetop.cc/api/questions".

Definition headers : list (string * string) :=
  [ ("Accept", "application/json");
    ("User-Agent", "Mozilla/5.0 (compatible; CodeTopDataFetcher/1.0)");
    ("Referer", "https://codetop.cc/home") ]%string.

Definition fetch_all_problems : State (fetch_world env) payload :=
  let* _ := print ("正在获取数据: " ++ url) in
  let* answer :=
    get {| req_url := url; req_headers := headers; req_timeout := 30 |} in
  match answer with
  | GetRaised e =>
      let* _ := print ("请求失败: " ++ e) in ret empty_dict
  | GetReturned r =>
      match raise_for_status r with
      | Some e =>
          let* _ := print ("请求失败: " ++ e) in ret empty_dict
      | None =>
          match json r with
          | JsonError e =>
              let* _ := print ("JSON解析失败: " ++ e) in ret empty_dict
          | JsonValue data =>
              let* _ := print ("成功获取数据: 总共"
                                 ++ str_field "0" (p_count data)
                                 ++ "道题目") in
              ret data
          end
      end
  end.

(** The first loop of [generate_problem_sql]: the value tuples of the
    items that could be rendered; the others are reported and skipped. *)
Fixpoint problem_values (i : nat) (problems : list item)
  : State (fetch_world env) (list string) :=
  match problems with
  | [] => ret []
  | it :: rest =>
      match render_problem i it with
      | inl problem_value =>
          let* values := problem_values (S i) rest in
          ret (problem_value :: values)
      | inr e =>
          let* _ := print ("处理第" ++ str_int (Z.of_nat i + 1)
                             ++ "个题目时出错: " ++ e) in
          problem_values (S i) rest
      end
  end.

Definition generate_problem_sql_lines (problems : list item)
  : State (fetch_world env) (list string) :=
  let* t := now in
  let sql_lines :=
    [ "-- CodeTop完整题目数据 (基于API真实数据)";
      "-- 生成时间: " ++ strftime_datetime t;
      "-- 总题目数量: " ++ str_int (Z.of_nat (length problems));
      "";
      insert_header ]%string in
  let* values := problem_values 0 problems in
  ret (sql_lines ++ emit_batches batch_size values)%list.

Definition generate_problem_sql (problems : list item)
  : State (fetch_world env) string :=
  let* sql_lines := generate_problem_sql_lines problems in
  ret (join nl sql_lines).

(** [item.get('leetcode', {})]: [None] raises at the next [.get]. *)
Definition info_of (it : item) : option leetcode_info :=
  match leetcode it with
  | Null => None
  | Missing => Some no_info
  | Present info => Some info
  end.

(** [item.get('time', '')]. *)
Definition time_of (it : item) : option string :=
  match time it with
  | Missing => Some ""%string
  | Null => None
  | Present t => Some t
  end.

(** The three loops over [problems[:50]]; an item whose [try] block
    raises contributes no line. *)
Definition frequency_case (it : item) : list string :=
  match info_of it, value it with
  | None, _ => []
  | Some _, Null => []
  | Some info, v =>
      let frequency := match v with Present z => z | _ => 0 end in
      [ ("        WHEN p.leetcode_id = '"
           ++ str_field "" (frontend_question_id info) ++ "' THEN '"
           ++ get_frequency_level frequency ++ "'")%string ]
  end.

Definition times_asked_case (it : item) : list string :=
  match info_of it with
  | None => []
  | Some info =>
      [ ("        WHEN p.leetcode_id = '"
           ++ str_field "" (frontend_question_id info) ++ "' THEN "
           ++ str_field "0" (value it))%string ]
  end.

Definition last_asked_case (it : item) : list string :=
  match info_of it with
  | None => []
  | Some info =>
      [ ("        WHEN p.leetcode_id = '"
           ++ str_field "" (frontend_question_id info) ++ "' THEN '"
           ++ format_date (time_of it) ++ "'")%string ]
  end.

Definition generate_frequency_sql (problems : list item) : string :=
  let top := take 50 problems in
  join nl
    ([ "-- 题目-公司关联数据 (基于真实频度)";
       "INSERT INTO problem_companies (problem_id, company_id, frequency, times_asked, last_asked_date)";
       "SELECT";
       "    p.id as problem_id,";
       "    c.id as company_id,";
       "    CASE" ]%string
     ++ concat (map frequency_case top)
     ++ [ "        ELSE 'LOW'";
          "    END as frequency,";
          "    CASE" ]%string
     ++ concat (map times_asked_case top)
     ++ [ "        ELSE 50";
          "    END as times_asked,";
          "    CASE" ]%string
     ++ concat (map last_asked_case top)
     ++ [ "        ELSE '2025-01-01'";
          "    END as last_asked_date";
          "FROM problems p";
          "CROSS JOIN companies c";
          "WHERE c.name IN ('bytedance', 'alibaba', 'tencent', 'baidu', 'microsoft', 'meituan')";
          "ON DUPLICATE KEY UPDATE";
          "frequency = VALUES(frequency),";
          "times_asked = VALUES(times_asked),";
          "last_asked_date = VALUES(last_asked_date),";
          "updated_at = CURRENT_TIMESTAMP;" ]%string)%list.

(** The text of the output file around the two generated parts: the
    f-string of [main]. *)
Definition complete_sql (problems : list item) (now problems_sql
                         frequency_sql : string) : string :=
  ("-- CodeTop完整数据库导入文件"
     ++ nl
     ++ "-- 数据来源: https://codetop.cc/api/questions"
     ++ nl
     ++ "-- 总题目数量: "
     ++ str_int (Z.of_nat (length problems))
     ++ nl
     ++ "-- 生成时间: "
     ++ now
     ++ nl
     ++ nl
     ++ "-- ==================================="
     ++ nl
     ++ "-- 1. 插入公司数据"
     ++ nl
     ++ "-- ==================================="
     ++ nl
     ++ nl
     ++ "INSERT INTO companies (name, display_name, description, industry, is_active) VALUES"
     ++ nl
     ++ "('bytedance', '字节跳动', 'Chinese multinational internet technology company', 'Technology', true),"
     ++ nl
     ++ "('microsoft', '微软', 'American multinational technology corporation', 'Technology', true),"
     ++ nl
     ++ "('meituan', '美团', 'Chinese food delivery and lifestyle platform', 'Technology', true),"
     ++ nl
     ++ "('alibaba', '阿里巴巴', 'Chinese multinational technology conglomerate', 'Technology', true),"
     ++ nl
     ++ "('kuaishou', '快手', 'Chinese video sharing mobile app', 'Technology', true),"
     ++ nl
     ++ "('tencent', '腾讯', 'Chinese multinational technology conglomerate', 'Technology', true),"
     ++ nl
     ++ "('yuanfudao', '猿辅导', 'Chinese online education platform', 'Education', true),"
     ++ nl
     ++ "('baidu', '百度', 'Chinese multinational technology company', 'Technology', true),"
     ++ nl
     ++ "('didi', '滴滴', 'Chinese vehicle for hire company', 'Transportation', true),"
     ++ nl
     ++ "('jd', '京东', 'Chinese e-commerce company', 'E-commerce', true),"
     ++ nl
     ++ "('huawei', '华为', 'Chinese multinational technology corporation', 'Technology', true),"
     ++ nl
     ++ "('pdd', '拼多多', 'Chinese e-commerce platform', 'E-commerce', true),"
     ++ nl
     ++ "('netease', '网易', 'Chinese technology company', 'Technology', true),"
     ++ nl
     ++ "('xiaomi', '小米', 'Chinese electronics company', 'Technology', true),"
     ++ nl
     ++ "('amazon', '亚马逊', 'American multinational technology company', 'Technology', true),"
     ++ nl
     ++ "('shopee', '虾皮', 'Singaporean e-commerce platform', 'E-commerce', true),"
     ++ nl
     ++ "('ctrip', '携程', 'Chinese travel services company', 'Travel', true),"
     ++ nl
     ++ "('bilibili', 'bilibili', 'Chinese video sharing website', 'Entertainment', true)"
     ++ nl
     ++ "ON DUPLICATE KEY UPDATE "
     ++ nl
     ++ "display_name = VALUES(display_name),"
     ++ nl
     ++ "description = VALUES(description),"
     ++ nl
     ++ "industry = VALUES(industry),"
     ++ nl
     ++ "is_active = VALUES(is_active),"
     ++ nl
     ++ "updated_at = CURRENT_TIMESTAMP;"
     ++ nl
     ++ nl
     ++ "-- ==================================="
     ++ nl
     ++ "-- 2. 插入题目数据 (共"
     ++ str_int (Z.of_nat (length problems))
     ++ "道题目)"
     ++ nl
     ++ "-- ==================================="
     ++ nl
     ++ nl
     ++ problems_sql
     ++ nl
     ++ nl
     ++ "-- ==================================="
     ++ nl
     ++ "-- 3. 插入题目-公司关联数据"
     ++ nl
     ++ "-- ==================================="
     ++ nl
     ++ nl
     ++ frequency_sql
     ++ nl
     ++ nl
     ++ "-- ==================================="
     ++ nl
     ++ "-- 4. 创建统计视图"
     ++ nl
     ++ "-- ==================================="
     ++ nl
     ++ nl
     ++ "CREATE OR REPLACE VIEW problem_frequency_stats AS"
     ++ nl
     ++ "SELECT "
     ++ nl
     ++ "    p.leetcode_id,"
     ++ nl
     ++ "    p.title,"
     ++ nl
     ++ "    p.difficulty,"
     ++ nl
     ++ "    p.problem_url,"
     ++ nl
     ++ "    AVG(pc.times_asked) as avg_frequency,"
     ++ nl
     ++ "    MAX(pc.times_asked) as max_frequency,"
     ++ nl
     ++ "    COUNT(DISTINCT pc.company_id) as company_count,"
     ++ nl
     ++ "    MAX(pc.last_asked_date) as latest_exam_date"
     ++ nl
     ++ "FROM problems p"
     ++ nl
     ++ "LEFT JOIN problem_companies pc ON p.id = pc.problem_id"
     ++ nl
     ++ "WHERE p.deleted = 0 AND p.is_active = 1"
     ++ nl
     ++ "GROUP BY p.id, p.leetcode_id, p.title, p.difficulty, p.problem_url"
     ++ nl
     ++ "ORDER BY avg_frequency DESC;"
     ++ nl
     ++ nl
     ++ "-- ==================================="
     ++ nl
     ++ "-- 5. 数据统计验证"
     ++ nl
     ++ "-- ==================================="
     ++ nl
     ++ nl
     ++ "SELECT "
     ++ nl
     ++ "    '总题目数量' as metric,"
     ++ nl
     ++ "    COUNT(*) as count"
     ++ nl
     ++ "FROM problems "
     ++ nl
     ++ "WHERE deleted = 0 AND is_active = 1;"
     ++ nl
     ++ nl
     ++ "SELECT "
     ++ nl
     ++ "    difficulty,"
     ++ nl
     ++ "    COUNT(*) as count"
     ++ nl
     ++ "FROM problems "
     ++ nl
     ++ "WHERE deleted = 0 AND is_active = 1"
     ++ nl
     ++ "GROUP BY difficulty"
     ++ nl
     ++ "ORDER BY "
     ++ nl
     ++ "    CASE difficulty "
     ++ nl
     ++ "        WHEN 'EASY' THEN 1 "
     ++ nl
     ++ "        WHEN 'MEDIUM' THEN 2 "
     ++ nl
     ++ "        WHEN 'HARD' THEN 3 "
     ++ nl
     ++ "    END;"
     ++ nl
     ++ nl
     ++ "-- 显示频度最高的前10道题"
     ++ nl
     ++ "SELECT "
     ++ nl
     ++ "    p.leetcode_id,"
     ++ nl
     ++ "    p.title,"
     ++ nl
     ++ "    p.difficulty,"
     ++ nl
     ++ "    AVG(pc.times_asked) as avg_frequency"
     ++ nl
     ++ "FROM problems p"
     ++ nl
     ++ "LEFT JOIN problem_companies pc ON p.id = pc.problem_id"
     ++ nl
     ++ "WHERE p.deleted = 0 AND p.is_active = 1"
     ++ nl
     ++ "GROUP BY p.id, p.leetcode_id, p.title, p.difficulty"
     ++ nl
     ++ "ORDER BY avg_frequency DESC"
     ++ nl
     ++ "LIMIT 10;"
     ++ nl)%string.

Definition output_file : string := "/mnt/e/FxxkLC/codetop_complete_data.sql".

(** [problems.sort(key=lambda x: x.get('value', 0), reverse=True)]:
    comparing [None] with a number raises, and every element of a list
    of two or more is compared at least once. *)
Definition sort_key (it : item) : Z :=
  match value it with Present z => z | _ => 0 end.

Definition has_null_value (it : item) : bool :=
  match value it with Null => true | _ => false end.

Definition sort_problems (problems : list item) : option (list item) :=
  if (2 <=? length problems)%nat && existsb has_null_value problems
  then None
  else Some (sort_desc sort_key problems).

(** The difficulty histogram of [main], a dict in insertion order. *)
Fixpoint bump (d : difficulty) (counts : list (difficulty * Z))
  : list (difficulty * Z) :=
  match counts with
  | [] => [(d, 1)]
  | (d', n) :: rest =>
      if bool_decide (d = d') then (d', n + 1) :: rest
      else (d', n) :: bump d rest
  end.

Fixpoint difficulty_count (problems : list item)
         (counts : list (difficulty * Z)) : option (list (difficulty * Z)) :=
  match problems with
  | [] => Some counts
  | it :: rest =>
      match info_of it with
      | None => None
      | Some info =>
          difficulty_count rest (bump (difficulty_of (level info)) counts)
      end
  end.

Definition str_title (f : field string) : string :=
  match f with
  | Missing => ""
  | Null => "None"
  | Present t => t
  end.

(** The closing report of [main]. *)
Definition report (problems : list item) : State (fetch_world env) outcome :=
  let* _ := print ("✅ SQL文件已生成: " ++ output_file) in
  let* _ := print "📊 数据统计:" in
  let* _ := print ("   - 总题目数量: "
                     ++ str_int (Z.of_nat (length problems))) in
  match difficulty_count problems [] with
  | None => ret Raised
  | Some counts =>
      let* _ := for_each
        (fun '(diff, count) =>
           print ("   - " ++ difficulty_name diff ++ ": "
                    ++ str_int count ++ "道"))
        counts in
      let* _ := print (nl ++ "🔥 频度最高的前5道题:") in
      let* _ := for_each
        (fun '(i, problem) =>
           (* the first loop has already met every item of the list *)
           let info := default no_info (info_of problem) in
           print ("   " ++ str_int i ++ ". "
                    ++ str_field "" (frontend_question_id info) ++ ". "
                    ++ str_title (title info) ++ " (频度: "
                    ++ str_field "0" (value problem) ++ ")"))
        (enumerate 1 (take 5 problems)) in
      ret Returned
  end.

Definition is_falsy (data : payload) : bool :=
  match p_count data, p_list data, p_other_keys data with
  | Missing, None, false => true
  | _, _, _ => false
  end.

Definition has_list (data : payload) : bool :=
  match p_list data with Some _ => true | None => false end.

Definition main : State (fetch_world env) outcome :=
  let* _ := print "=== CodeTop数据获取工具 ===" in
  let* data := fetch_all_problems in
  if is_falsy data || negb (has_list data) then
    let* _ := print "❌ 数据获取失败" in ret Returned
  else
    let problems := default [] (p_list data) in
    let total_count :=
      str_field (str_int (Z.of_nat (length problems))) (p_count data) in
    let* _ := print ("✅ 成功获取 "
                       ++ str_int (Z.of_nat (length problems))
                       ++ " 道题目数据 (总计: " ++ total_count ++ ")") in
    match sort_problems problems with
    | None => ret Raised
    | Some problems =>
        let* _ := print "📝 生成SQL文件..." in
        let* problems_sql := generate_problem_sql problems in
        let frequency_sql := generate_frequency_sql problems in
        let* t := now in
        let text := complete_sql problems (strftime_datetime t)
                                 problems_sql frequency_sql in
        let* written := write_file output_file text in
        if written : bool then report problems else ret Raised
    end.
End Script.
End FetchCodetop.

(** ** generate_comprehensive_problems_sql.py *)

Module ComprehensiveSql.

Definition difficulty_map : gmap Z FetchCodetop.difficulty :=
  {[ 1 := FetchCodetop.EASY; 2 := FetchCodetop.MEDIUM;
     3 := FetchCodetop.HARD ]}.

Definition difficulty_level_to_name (level : Z) : FetchCodetop.difficulty :=
  default FetchCodetop.MEDIUM (difficulty_map !! level).

(** A record of the data literal [codetop_data], with the keys that
    [generate_comprehensive_sql] reads by subscript; every record of the
    literal has them all.  The key ["company_name"] sits in the dict under
    ["company"], the four keys before it in the dict under
    ["leetcode"]. *)
Record problem : Type := {
  codetop_id : Z;
  time : string;
  value : Z;
  frontend_question_id : Z;
  title : string;
  level : Z;
  slug_title : string;
  company_name : string
}.

(** The literal: the pages in the order of the dict, each with its key and
    the records under its ["list"] key (the key ["count"] is never
    read). *)
Definition pages : Type := list (string * list problem).

(** [sorted] on a collection of strings: ascending by code point, which
    for UTF-8 text is the order of the bytes. *)
Fixpoint insert_asc (x : string) (sorted : list string) : list string :=
  match sorted with
  | [] => [x]
  | y :: rest =>
      if String.leb x y then x :: sorted else y :: insert_asc x rest
  end.

Definition sorted_strings (xs : list string) : list string :=
  foldr insert_asc [] xs.

(** A double quote, and [json.dumps] on a text that needs no escape. *)
Definition dq : string := String (ascii_of_nat 34) EmptyString.

Definition json_string (s : string) : string := (dq ++ s ++ dq)%string.

Definition header : list string :=
  [ "-- CodeTop Problems Data - Comprehensive Dataset (100 High-Frequency Problems)";
    "-- Generated from CodeTop API: https://codetop.cc/api/questions";
    "-- Data includes problems from pages 1-5 with frequencies ranging from 976 to 59";
    "-- Generated on: 2025-08-31";
    "";
    "SET FOREIGN_KEY_CHECKS = 0;";
    "SET NAMES utf8mb4;";
    "";
    "-- Clear existing data";
    "DELETE FROM problem_companies WHERE id > 0;";
    "DELETE FROM companies WHERE id > 0;";
    "DELETE FROM problems WHERE id > 0;";
    "";
    "-- Reset auto increment";
    "ALTER TABLE problems AUTO_INCREMENT = 1;";
    "ALTER TABLE companies AUTO_INCREMENT = 1;";
    "ALTER TABLE problem_companies AUTO_INCREMENT = 1;";
    "" ]%string.

(** [if company_name and company_name != "null"]. *)
Definition is_named (company_name : string) : bool :=
  negb (String.eqb company_name "") && negb (String.eqb company_name "null").

(** The loop over the pages: [all_problems] and the set [companies]. *)
Definition all_problems (codetop_data : pages) : list problem :=
  page ← codetop_data; snd page.

Definition companies (codetop_data : pages) : gset string :=
  list_to_set
    (List.filter is_named (map company_name (all_problems codetop_data))).

(** [enumerate(sorted(companies), 1)]. *)
Definition numbered_companies (codetop_data : pages) : list (Z * string) :=
  enumerate 1 (sorted_strings (elements (companies codetop_data))).

Definition company_statement (numbered : Z * string) : string :=
  let '(i, company) := numbered in
  let '(display_name, description) :=
    if String.eqb company "string" || String.eqb company "leetcode" then
      if String.eqb company "string"
      then ("Generic Tech Company", "Various technology companies")%string
      else ("LeetCode Platform", "LeetCode official problems")%string
    else (company, ("Problems from " ++ company)%string) in
  ("INSERT INTO companies (id, name, description, created_at, updated_at) VALUES "
     ++ "(" ++ str_int i ++ ", '" ++ display_name ++ "', '" ++ description
     ++ "', NOW(), NOW());")%string.

(** [company_id_map]: a later entry for a key would replace an earlier
    one. *)
Definition company_id_map (codetop_data : pages) : gmap string Z :=
  foldl (fun m '(i, company) => <[company := i]> m) ∅
        (numbered_companies codetop_data).

(** [sorted(all_problems, key=lambda x: x["value"], reverse=True)]. *)
Definition sorted_problems (codetop_data : pages) : list problem :=
  sort_desc value (all_problems codetop_data).

Definition tags_json (frequency : Z) (difficulty : string) : string :=
  ("[{" ++ json_string "name" ++ ": " ++ json_string "frequency" ++ ", "
     ++ json_string "value" ++ ": " ++ str_int frequency ++ "}, {"
     ++ json_string "name" ++ ": " ++ json_string "difficulty" ++ ", "
     ++ json_string "value" ++ ": " ++ json_string difficulty ++ "}, {"
     ++ json_string "name" ++ ": " ++ json_string "source" ++ ", "
     ++ json_string "value" ++ ": " ++ json_string "codetop" ++ "}]")%string.

(** The backslash in front of a quote: [replace("'", "\\'")]. *)
Definition escape_title (t : string) : string :=
  replace_char "'" (String (ascii_of_nat 92) "'") t.

Definition problem_statement (numbered : Z * problem) : string :=
  let '(i, p) := numbered in
  let title := escape_title (title p) in
  let difficulty :=
    FetchCodetop.difficulty_name (difficulty_level_to_name (level p)) in
  let problem_url :=
    ("https://leetcode.cn/problems/" ++ slug_title p)%string in
  let leetcode_id := str_int (frontend_question_id p) in
  let frequency := value p in
  let tags := tags_json frequency difficulty in
  ("INSERT INTO problems (id, title, difficulty, problem_url, tags, leetcode_id, is_premium, deleted, created_at, updated_at) VALUES "
     ++ "(" ++ str_int i ++ ", '" ++ title ++ "', '" ++ difficulty ++ "', '"
     ++ problem_url ++ "', '" ++ tags ++ "', '" ++ leetcode_id
     ++ "', FALSE, 0, NOW(), NOW());")%string.

(** A row of the table [problem_companies], as the third loop computes it
    before it formats the statement. *)
Record association : Type := {
  association_id : Z;
  problem_id : Z;
  company_id : Z;
  frequency_score : Z
}.

(** The third loop, with its counter [association_id]. *)
Fixpoint associate (ids : gmap string Z) (next_id : Z)
         (numbered : list (Z * problem)) : list association :=
  match numbered with
  | [] => []
  | (i, p) :: rest =>
      if is_named (company_name p) then
        match ids !! company_name p with
        | Some cid =>
            {| association_id := next_id; problem_id := i;
               company_id := cid; frequency_score := value p |}
              :: associate ids (next_id + 1) rest
        | None => associate ids next_id rest
        end
      else associate ids next_id rest
  end.

Definition associations (codetop_data : pages) : list association :=
  associate (company_id_map codetop_data) 1
            (enumerate 1 (sorted_problems codetop_data)).

Definition association_statement (a : association) : string :=
  ("INSERT INTO problem_companies (id, problem_id, company_id, frequency_score, created_at, updated_at) VALUES "
     ++ "(" ++ str_int (association_id a) ++ ", " ++ str_int (problem_id a)
     ++ ", " ++ str_int (company_id a) ++ ", "
     ++ str_int (frequency_score a) ++ ", NOW(), NOW());")%string.

(** [max] and [min] of a sequence; on an empty one they raise
    [ValueError]. *)
Definition py_max_of (xs : list Z) : option Z :=
  match xs with
  | [] => None
  | x :: rest => Some (foldl Z.max x rest)
  end.

Definition py_min_of (xs : list Z) : option Z :=
  match xs with
  | [] => None
  | x :: rest => Some (foldl Z.min x rest)
  end.

(** The statements in the order in which they are appended; [None] when
    the summary raises. *)
Definition generate_comprehensive_sql_lines (codetop_data : pages)
  : option (list string) :=
  let statements :=
    (header
       ++ ["-- Insert companies"%string]
       ++ map company_statement (numbered_companies codetop_data)
       ++ [""%string;
           "-- Insert problems (sorted by frequency - highest first)"%string]
       ++ map problem_statement
              (enumerate 1 (sorted_problems codetop_data))
       ++ [""%string; "-- Insert problem-company associations"%string]
       ++ map association_statement (associations codetop_data)
       ++ [""%string; "SET FOREIGN_KEY_CHECKS = 1;"%string; ""%string])%list
  in
  let values := map value (all_problems codetop_data) in
  match py_max_of values, py_min_of values with
  | Some max_frequency, Some min_frequency =>
      Some
        (statements
           ++ [ ("-- Summary: "
                   ++ str_int (Z.of_nat (length (all_problems codetop_data)))
                   ++ " problems, "
                   ++ str_int (Z.of_nat (size (companies codetop_data)))
                   ++ " companies")%string;
                ("-- Frequency range: " ++ str_int max_frequency
                   ++ " (highest) to " ++ str_int min_frequency
                   ++ " (lowest)")%string;
                "-- Problems sorted by frequency for optimal FSRS algorithm training"%string ])%list
  | _, _ => None
  end.

Definition generate_comprehensive_sql (codetop_data : pages)
  : option string :=
  join nl <$> generate_comprehensive_sql_lines codetop_data.

End ComprehensiveSql.

(** ** Test doubles for the outside world *)

Module Doubles.

(** A generator that plays back a tape of raw draws; an exhausted tape
    yields the lower bound.  [random.seed] winds a fresh tape. *)
Fixpoint lcg_tape (n : nat) (x : Z) : list Z :=
  match n with
  | O => []
  | S n' =>
      let x' := (x * 1103515245 + 12345) mod 2147483648 in
      x' :: lcg_tape n' x'
  end.

Definition tape_randint (a b : Z) : State (list Z) Z :=
  fun tape =>
    match tape with
    | [] => (a, [])
    | x :: rest => (a + x mod (b - a + 1), rest)
    end.

Definition tape_uniform (a b : Q) : State (list Z) Q :=
  fun tape =>
    match tape with
    | [] => (a, [])
    | x :: rest => ((a + (b - a) * (x mod 1001 # 1000))%Q, rest)
    end.

#[global] Instance tape_random : Random (list Z) := {
  random_seed a := lcg_tape 2048 a;
  randint := tape_randint;
  uniform := tape_uniform
}.

(** A database client that fails the commands whose positions, counted
    from zero, are listed. *)
Record fake_db : Type := FakeDb {
  db_seen : nat;
  db_failing : list nat
}.

Definition fake_run (command : string) : State fake_db (bool * string) :=
  fun d =>
    let failed := existsb (Nat.eqb (db_seen d)) (db_failing d) in
    ((negb failed,
      if failed then "ERROR 2002 (HY000)"%string else "ok"%string),
     FakeDb (S (db_seen d)) (db_failing d)).

#[global] Instance fake_mysql : MySql fake_db := {
  mysql_run := fake_run
}.

Definition start (tape : list Z) (failing : list nat)
  : world (list Z) fake_db :=
  World tape (FakeDb 0 failing) [] [].

(** Surroundings of the fetch script with one scripted answer. *)
Record fake_env : Type := FakeEnv {
  env_answer : get_result;
  env_clock : date_time;
  env_disk_ok : bool
}.

#[global] Instance fake_outside : Outside fake_env := {
  requests_get _ := fun e => (env_answer e, e);
  datetime_now := fun e => (env_clock e, e);
  open_write _ _ := fun e => (env_disk_ok e, e)
}.

Definition noon : date_time :=
  {| year := 2025; month := 9; day := 1;
     hour := 12; minute := 0; second := 0 |}.

Definition fetch_start (answer : get_result) : fetch_world fake_env :=
  FetchWorld (FakeEnv answer noon true) [] [] [].

(** A small parser for [YYYY-MM-DD], alone or followed by a time part
    that it does not look at. *)
Definition simple_iso (s : string) : option date_time :=
  let y := substring 0 4 s in
  let m := substring 5 2 s in
  let d := substring 8 2 s in
  if negb (String.eqb (substring 4 1 s) "-" && String.eqb (substring 7 1 s) "-")
     || negb ((String.length y =? 4)%nat && (String.length m =? 2)%nat
              && (String.length d =? 2)%nat)
  then None
  else
    match parse_digits 0 y, parse_digits 0 m, parse_digits 0 d with
    | Some y, Some m, Some d =>
        if (1 <=? y) && (y <=? 9999) && (1 <=? m) && (m <=? 12)
           && (1 <=? d) && (d <=? 31)
        then Some {| year := y; month := m; day := d;
                     hour := 0; minute := 0; second := 0 |}
        else None
    | _, _, _ => None
    end.

#[global] Instance simple_parser : IsoParser := {
  fromisoformat := simple_iso
}.

End Doubles.

(** ** Vocabulary of the properties *)

(** The two count invariants of a bundle. *)
Definition counts_ok (b : MetricBundle) : Prop :=
  1 <= interview_count b /\
  1 <= unique_interviewers b <= interview_count b.

(** The difficulty tiers of the specification: rating at most 2.5, at most
    3.5, above 3.5. *)
Inductive tier : Type := Low | Mid | High.

Definition tier_of (rating : Q) : tier :=
  if Qle_bool rating 2.5 then Low
  else if Qle_bool rating 3.5 then Mid
  else High.

(** A tier table as the specification words it: one closed range per tier
    for the success rate, one for the solve time. *)
Record tier_table : Type := {
  success_range : tier -> Q * Q;
  time_range : tier -> Z * Z
}.

Definition interview_table : tier_table :=
  {| success_range t :=
       match t with Low => (70, 90) | Mid => (50, 75) | High => (30, 60) end%Q;
     time_range t :=
       match t with Low => (10, 20) | Mid => (20, 35) | High => (35, 50) end |}.

Definition global_table : tier_table :=
  {| success_range t :=
       match t with Low => (75, 92) | Mid => (50, 78) | High => (28, 58) end%Q;
     time_range t :=
       match t with Low => (10, 22) | Mid => (18, 38) | High => (32, 55) end |}.

Definition realistic_table : tier_table :=
  {| success_range t :=
       match t with Low => (65, 85) | Mid => (45, 70) | High => (25, 55) end%Q;
     time_range t :=
       match t with Low => (12, 22) | Mid => (22, 38) | High => (35, 55) end |}.

Definition in_rangeQ (r : Q * Q) (x : Q) : Prop := (fst r <= x <= snd r)%Q.
Definition in_rangeZ (r : Z * Z) (x : Z) : Prop := fst r <= x <= snd r.

(** A bundle follows a table when both metrics lie in the range of the
    tier of its rating. *)
Definition follows (tbl : tier_table) (b : MetricBundle) : Prop :=
  in_rangeQ (success_range tbl (tier_of (avg_difficulty_rating b)))
            (success_rate b)
  /\ in_rangeZ (time_range tbl (tier_of (avg_difficulty_rating b)))
               (avg_solve_time_minutes b).

(** Two ranges are disjoint when no value lies in both. *)
Definition disjointQ (r1 r2 : Q * Q) : Prop :=
  forall x, in_rangeQ r1 x -> in_rangeQ r2 x -> False.
Definition disjointZ (r1 r2 : Z * Z) : Prop :=
  forall x, in_rangeZ r1 x -> in_rangeZ r2 x -> False.

Definition pairwise_disjoint (tbl : tier_table) : Prop :=
  forall t1 t2, t1 <> t2 ->
    disjointQ (success_range tbl t1) (success_range tbl t2)
    /\ disjointZ (time_range tbl t1) (time_range tbl t2).

(** Both ends of a range move with the tier: down for the success rate,
    up for the solve time. *)
Definition ends_ordered (tbl : tier_table) : Prop :=
  let s := success_range tbl in
  let t := time_range tbl in
  (fst (s High) < fst (s Mid) /\ fst (s Mid) < fst (s Low))%Q
  /\ (snd (s High) < snd (s Mid) /\ snd (s Mid) < snd (s Low))%Q
  /\ (fst (t Low) < fst (t Mid) < fst (t High))
  /\ (snd (t Low) < snd (t Mid) < snd (t High)).

(** Neighbouring tiers share values; the two outer tiers do not. *)
Definition neighbours_overlap (tbl : tier_table) : Prop :=
  let s := success_range tbl in
  let t := time_range tbl in
  (fst (s Low) <= snd (s Mid) /\ fst (s Mid) <= snd (s High))%Q
  /\ (fst (t Mid) <= snd (t Low) /\ fst (t High) <= snd (t Mid))
  /\ disjointQ (s Low) (s High) /\ disjointZ (t Low) (t High).

(** The ceiling of [n / b]. *)
Definition ceil_div (n b : nat) : nat := ((n + b - 1) / b)%nat.

(** A run of a generator over a sequence of inputs, right after
    [random.seed(a)]. *)
Definition seeded_run {rng db : Type} `{Random rng} {A B : Type}
           (gen : A -> State rng B) (a : Z) (inputs : list A)
  : State (world rng db) (list B) :=
  let* _ := seed a in draw (for_each gen inputs).

(** The answers a client gives to a list of commands sent one after the
    other. *)
Fixpoint answers {db : Type} `{MySql db} (commands : list string) (d : db)
  : list (bool * string) :=
  match commands with
  | [] => []
  | c :: rest => let (r, d') := mysql_run c d in r :: answers rest d'
  end.

(** How many of the commands are sent when the first failure ends the
    sending. *)
Fixpoint sent_until_failure (results : list (bool * string)) : nat :=
  match results with
  | [] => 0
  | (true, _) :: rest => S (sent_until_failure rest)
  | (false, _) :: _ => 1
  end.

(** The shape [YYYY-MM-DD]: ten characters, digits around two dashes. *)
Definition is_digit (a : ascii) : bool :=
  match digit_of a with Some _ => true | None => false end.

Definition is_date_text (s : string) : bool :=
  match list_ascii_of_string s with
  | [y1; y2; y3; y4; d1; m1; m2; d2; a1; a2] =>
      forallb is_digit [y1; y2; y3; y4; m1; m2; a1; a2]
      && Ascii.eqb d1 "-" && Ascii.eqb d2 "-"
  | _ => false
  end.

(** Reading the three numbers back from a date text. *)
Definition read_date (s : string) : option (Z * Z * Z) :=
  match parse_digits 0 (substring 0 4 s),
        parse_digits 0 (substring 5 2 s),
        parse_digits 0 (substring 8 2 s) with
  | Some y, Some m, Some d => Some (y, m, d)
  | _, _, _ => None
  end.

(** The answers of the network that [fetch_all_problems] treats as a
    failure: the request raised, the status check raised, or the body was
    no JSON. *)
Definition fetch_failed (answer : get_result) : bool :=
  match answer with
  | GetRaised _ => true
  | GetReturned r =>
      match raise_for_status r, json r with
      | Some _, _ => true
      | None, JsonError _ => true
      | None, JsonValue _ => false
      end
  end.

(** Batches cut off the front of a list, one after the other. *)
Fixpoint chunks {A} (fuel size : nat) (xs : list A) : list (list A) :=
  match fuel, xs with
  | O, _ => []
  | _, [] => []
  | S fuel', _ => take size xs :: chunks fuel' size (drop size xs)
  end.

(** [groups] cuts [xs] into the batches the specification asks for:
    [ceil(N/B)] groups, none empty, none longer than [B], which together
    are [xs] in order. *)
Definition batched_as {A} (B : nat) (xs : list A) (groups : list (list A))
  : Prop :=
  length groups = ceil_div (length xs) B
  /\ Forall (fun g => (1 <= length g <= B)%nat) groups
  /\ concat groups = xs.

(** The request that [fetch_all_problems] builds. *)
Definition the_request : request :=
  {| req_url := "https://codetop.cc/api/questions";
     req_headers := FetchCodetop.headers;
     req_timeout := 30 |}.

(** The INSERT statement of one batch of the problem emitter, with the
    header as the batch at index [i] gets it. *)
Definition problem_statement (indexed : nat * list string) : list string :=
  let (i, batch) := indexed in
  ((if (0 <? i)%nat then (nl ++ FetchCodetop.insert_header)%string
    else FetchCodetop.insert_header)
     :: FetchCodetop.value_lines batch ++ FetchCodetop.upsert_clause)%list.

(** The INSERT commands a global script has to send for its data, as the
    generator state at the start of the batch loop determines them. *)
Definition planned_inserts {rng : Type}
           (batch_values : list (Z * Z) -> State rng (list string))
           (insert_cmd : list string -> string)
           (batch_size : nat) (data : list (Z * Z)) (g : rng)
  : list (list string) * list string :=
  let groups := eval (for_each batch_values
                                (map snd (batches batch_size data))) g in
  (groups, map insert_cmd groups).

(** An INSERT statement as [restore_global_frequency_stats.py] hands it to
    the client. *)
Definition restore_command (values : list string) : string :=
  ("SET NAMES utf8mb4; " ++ RestoreGlobal.insert_cmd values)%string.

(** A record that the problem emitter can render: neither its
    ["leetcode"] key nor the title inside holds [null]. *)
Definition renders (it : item) : bool :=
  match leetcode it with
  | Null => false
  | Missing => true
  | Present info => match title info with Null => false | _ => true end
  end.

(** Test data: a record as the endpoint sends it, and one whose
    ["leetcode"] key holds [null]. *)
Definition two_sum : item :=
  {| leetcode := Present {| frontend_question_id := Present 1;
                            title := Present "两数之和"%string;
                            level := Present 1;
                            slug_title := Present "two-sum"%string |};
     value := Present 285;
     time := Present "2025-08-26T08:33:00.939000Z"%string |}.

Definition broken_item : item :=
  {| leetcode := Null; value := Present 7; time := Missing |}.

(** ** Vocabulary of the further properties *)

(** The range of the difficulty rating, as each generator picks it from
    the rank or from the scope. *)
Definition interview_rating_range (rank : Z) : Q * Q :=
  if rank <=? 20 then (2.0, 3.5)%Q
  else if rank <=? 50 then (2.5, 4.0)%Q
  else (3.0, 4.5)%Q.

Definition global_rating_range (rank : Z) : Q * Q :=
  if rank <=? 20 then (2.5, 3.8)%Q
  else if rank <=? 50 then (2.8, 4.2)%Q
  else (3.2, 4.5)%Q.

Definition realistic_rating_range (scope : Scope) : Q * Q :=
  match scope with
  | COMPANY => (2.2, 4.0)%Q
  | _ => (2.5, 4.2)%Q
  end.

(** The envelope of all the ranges the generators draw from. *)
Definition within_envelope (b : MetricBundle) : Prop :=
  (2 <= avg_difficulty_rating b <= 4.5)%Q
  /\ (25 <= success_rate b <= 92)%Q
  /\ 10 <= avg_solve_time_minutes b <= 55.

(** The keyword rules of [classify_tags], in the order in which the
    function tests them: the words of a rule and the tag it adds. *)
Definition keyword_rules : list (list string * string) :=
  [ (["数组"; "最大"; "最小"; "第K个"; "合并"; "排序"], "数组");
    (["字符串"; "子串"; "回文"], "字符串");
    (["链表"; "反转"; "合并"], "链表");
    (["二叉树"; "树"; "遍历"], "树");
    (["哈希"; "LRU"; "缓存"], "哈希表");
    (["搜索"; "查找"; "旋转"], "二分查找");
    (["岛屿"; "图"], "深度优先搜索");
    (["层序"; "层次"], "广度优先搜索");
    (["排列"; "组合"], "回溯算法");
    (["动态"; "最优"; "最长"; "最大和"], "动态规划");
    (["栈"; "括号"], "栈");
    (["快速排序"; "排序"], "排序");
    (["双指针"; "三数之和"; "两数之和"], "双指针") ]%string.

Definition keyword_tags : list string := map snd keyword_rules.

(** The tag of a title in which no keyword occurs. *)
Definition default_tag (d : FetchCodetop.difficulty) : string :=
  match d with
  | FetchCodetop.EASY => "基础算法"
  | FetchCodetop.HARD => "高级算法"
  | FetchCodetop.MEDIUM => "算法"
  end.

(** The tags of the rules that fire on a title. *)
Definition fired (rules : list (list string * string)) (title : string)
  : list string :=
  concat (map (fun rule => if FetchCodetop.any_in (fst rule) title
                           then [snd rule] else [])
              rules).

(** In an SQL string literal a quote stands for itself only when it is
    doubled: [quotes_paired] tells whether every quote of a text has its
    partner, and [unescape] reads the pairs back as single quotes. *)
Fixpoint quotes_paired (s : string) : bool :=
  match s with
  | EmptyString => true
  | String a rest =>
      if Ascii.eqb a "'" then
        match rest with
        | String b rest' => Ascii.eqb b "'" && quotes_paired rest'
        | EmptyString => false
        end
      else quotes_paired rest
  end.

Fixpoint unescape (s : string) : string :=
  match s with
  | EmptyString => EmptyString
  | String a rest =>
      if Ascii.eqb a "'" then
        match rest with
        | String b rest' =>
            if Ascii.eqb b "'" then String "'" (unescape rest')
            else String a (unescape rest)
        | EmptyString => String a EmptyString
        end
      else String a (unescape rest)
  end.

(** The order a descending sort leaves between an element and one behind
    it. *)
Definition key_descends {A} (key : A -> Z) (a b : A) : Prop :=
  key b <= key a.

(** The difficulty that the statistics of [main] count a record under. *)
Definition item_difficulty (it : item) : FetchCodetop.difficulty :=
  FetchCodetop.difficulty_of
    (level (default FetchCodetop.no_info (FetchCodetop.info_of it))).

(** [difficulty_count.get(d, 0)]. *)
Fixpoint tally (d : FetchCodetop.difficulty)
         (counts : list (FetchCodetop.difficulty * Z)) : Z :=
  match counts with
  | [] => 0
  | (d', n) :: rest => if bool_decide (d = d') then n else tally d rest
  end.

(** How many records of a list have the difficulty [d]. *)
Definition occurrences (d : FetchCodetop.difficulty) (problems : list item)
  : Z :=
  Z.of_nat
    (length (List.filter (fun it => bool_decide (item_difficulty it = d))
                         problems)).

Definition sum_counts (counts : list (FetchCodetop.difficulty * Z)) : Z :=
  foldr (fun entry total => snd entry + total) 0 counts.

(** The four frequency levels, from the lowest. *)
Definition frequency_levels : list string :=
  [ "LOW"; "MEDIUM"; "HIGH"; "VERY_HIGH" ]%string.

(** The place of a level in that order. *)
Fixpoint index_of (x : string) (l : list string) : option nat :=
  match l with
  | [] => None
  | y :: rest =>
      if String.eqb x y then Some O else S <$> index_of x rest
  end.

Definition level_index (lvl : string) : option nat :=
  index_of lvl frequency_levels.

(** What a step of the fetch script leaves alone when it only prints or
    reads the clock: the requests sent and the files written. *)
Definition same_traffic {env} (w w' : fetch_world env) : Prop :=
  fw_requests w' = fw_requests w /\ fw_files w' = fw_files w.

(** The database after a list of commands, and how many of them the
    client rejected. *)
Fixpoint db_after {db : Type} `{MySql db} (commands : list string) (d : db)
  : db :=
  match commands with
  | [] => d
  | c :: rest => db_after rest (snd (mysql_run c d))
  end.

Definition failures (results : list (bool * string)) : nat :=
  length (List.filter (fun r => negb (fst r)) results).

(** Reading a MySQL string literal with backslash escapes: a backslash
    makes the quote or the backslash behind it stand for itself.
    [quote_ends] tells whether some quote of a text is left without a
    backslash, so that it would end the literal; [read_escapes] reads the
    escapes back. *)
Definition backslash : ascii := ascii_of_nat 92.

Fixpoint quote_ends (s : string) : bool :=
  match s with
  | EmptyString => false
  | String a rest =>
      if Ascii.eqb a backslash then
        match rest with
        | String _ rest' => quote_ends rest'
        | EmptyString => false
        end
      else if Ascii.eqb a "'" then true
      else quote_ends rest
  end.

Fixpoint read_escapes (s : string) : string :=
  match s with
  | EmptyString => EmptyString
  | String a rest =>
      if Ascii.eqb a backslash then
        match rest with
        | String b rest' => String b (read_escapes rest')
        | EmptyString => EmptyString
        end
      else String a (read_escapes rest)
  end.

(** * Properties *)

(** ** Rounding *)

Lemma round_half_even_range (a b : Z) (x : Q) :
  (inject_Z a <= x)%Q -> (x <= inject_Z b)%Q ->
  a <= round_half_even x <= b.
Proof.
  intros Ha Hb. unfold round_half_even.
  assert (Hfa : a <= Qfloor x).
  { rewrite <- (Qfloor_Z a). now apply Qfloor_resp_le. }
  assert (Hfb : Qfloor x <= b).
  { rewrite <- (Qfloor_Z b). now apply Qfloor_resp_le. }
  assert (Hup : (0 < x - inject_Z (Qfloor x))%Q -> Qfloor x + 1 <= b).
  { intros Hpos.
    assert (Hlt : (inject_Z (Qfloor x) < inject_Z b)%Q).
    { apply Qlt_le_trans with x; [|exact Hb].
      apply Qlt_minus_iff. exact Hpos. }
    rewrite <- Zlt_Qlt in Hlt. lia. }
  destruct (Qcompare_spec (x - inject_Z (Qfloor x)) (1 # 2)) as [He|Hl|Hg].
  - destruct (Z.even (Qfloor x)); [lia|].
    split; [lia|]. apply Hup. rewrite He. reflexivity.
  - lia.
  - split; [lia|]. apply Hup.
    apply Qlt_trans with (1 # 2); [reflexivity|exact Hg].
Qed.

Lemma py_round_range (lo hi x : Q) (n : nat) (l h : Z) :
  (lo * inject_Z (pow10 n) == inject_Z l)%Q ->
  (hi * inject_Z (pow10 n) == inject_Z h)%Q ->
  (lo <= x <= hi)%Q ->
  (lo <= py_round x n <= hi)%Q.
Proof.
  intros Hl Hh [Hlo Hhi]. unfold py_round.
  assert (Hp : (0 < inject_Z (pow10 n))%Q).
  { unfold pow10. rewrite <- (Zlt_Qlt 0). apply Z.pow_pos_nonneg; lia. }
  set (p := inject_Z (pow10 n)) in *.
  destruct (round_half_even_range l h (x * p)) as [H1 H2].
  - rewrite <- Hl. apply Qmult_le_compat_r; [exact Hlo|]. now apply Qlt_le_weak.
  - rewrite <- Hh. apply Qmult_le_compat_r; [exact Hhi|]. now apply Qlt_le_weak.
  - rewrite Qred_correct. split.
    + apply Qle_shift_div_l; [exact Hp|]. rewrite Hl. now rewrite <- Zle_Qle.
    + apply Qle_shift_div_r; [exact Hp|]. rewrite Hh. now rewrite <- Zle_Qle.
Qed.

(** Taking a generator apart: every draw becomes a pair, every test a
    case. *)
Ltac step_draws :=
  repeat match goal with
         | |- context [if ?c then _ else _] => destruct c eqn:?
         | |- context [let (_, _) := ?c ?s in _] =>
             let x := fresh "x" in
             let g := fresh "g" in
             destruct (c s) as [x g] eqn:?
         end.

(** ** The count invariants (C4) *)

Section Counts.
Context {rng : Type} `{Random rng}.

Lemma interview_metrics_counts score rank s :
  counts_ok
    (eval (GenerateFrequencyInserts.generate_interview_metrics score rank) s).
Proof.
  unfold eval, GenerateFrequencyInserts.generate_interview_metrics,
    bind, ret, counts_ok.
  step_draws; cbn [fst interview_count unique_interviewers]; lia.
Qed.

Lemma global_metrics_counts score rank s :
  counts_ok (eval (RestoreGlobal.generate_global_metrics score rank) s).
Proof.
  unfold eval, RestoreGlobal.generate_global_metrics, bind, ret, counts_ok.
  step_draws; cbn [fst interview_count unique_interviewers]; lia.
Qed.

Lemma realistic_metrics_counts score scope rank s :
  counts_ok
    (eval (CompanyStats.generate_realistic_metrics score scope rank) s).
Proof.
  unfold eval, CompanyStats.generate_realistic_metrics, bind, ret, counts_ok.
  step_draws; cbn [fst interview_count unique_interviewers]; lia.
Qed.

(** C4. Whatever the generator state, the frequency score (so in
    particular every score that is not negative), the rank and the scope,
    each of the three generators returns a bundle with
    [interview_count >= 1] and
    [1 <= unique_interviewers <= interview_count]. *)
Theorem C4_unique_interviewers_within_interview_count :
  forall (rawScore rank : Z) (scope : Scope) (s : rng),
    counts_ok
      (eval (GenerateFrequencyInserts.generate_interview_metrics
               rawScore rank) s)
    /\ counts_ok
         (eval (RestoreGlobal.generate_global_metrics rawScore rank) s)
    /\ counts_ok
         (eval (CompanyStats.generate_realistic_metrics
                  rawScore scope rank) s).
Proof.
  intros. split; [|split].
  - apply interview_metrics_counts.
  - apply global_metrics_counts.
  - apply realistic_metrics_counts.
Qed.
End Counts.

(** ** The percentile (C2) *)

Section Percentile.
Context {rng : Type} `{Random rng}.

Lemma interview_metrics_percentile score rank s :
  percentile
    (eval (GenerateFrequencyInserts.generate_interview_metrics score rank) s)
  = PyInt (101 - rank).
Proof.
  unfold eval, GenerateFrequencyInserts.generate_interview_metrics, bind, ret.
  step_draws; reflexivity.
Qed.

Lemma global_metrics_percentile score rank s :
  percentile (eval (RestoreGlobal.generate_global_metrics score rank) s)
  = PyInt (101 - rank).
Proof.
  unfold eval, RestoreGlobal.generate_global_metrics, bind, ret.
  step_draws; reflexivity.
Qed.

Lemma realistic_metrics_percentile score scope rank s :
  percentile
    (eval (CompanyStats.generate_realistic_metrics score scope rank) s)
  = py_round_num (py_max (PyFloat 1.0) (PyInt (101 - rank))) 2.
Proof.
  unfold eval, CompanyStats.generate_realistic_metrics, bind, ret.
  step_draws; reflexivity.
Qed.

Lemma one_point_zero : (1.0 == inject_Z 1)%Q.
Proof. reflexivity. Qed.

(** The company and department generator clamps: its percentile is
    [max(1.0, 101 - rank)] for every rank. *)
Lemma realistic_metrics_percentile_clamped score scope rank s :
  (pynum_value
     (percentile
        (eval (CompanyStats.generate_realistic_metrics score scope rank) s))
   == inject_Z (Z.max 1 (101 - rank)))%Q.
Proof.
  rewrite realistic_metrics_percentile. unfold py_max.
  destruct (Qlt_le_dec _ _) as [Hlt|Hle]; cbn [pynum_value] in *.
  - cbn [py_round_num pynum_value].
    rewrite one_point_zero, <- Zlt_Qlt in Hlt.
    rewrite Z.max_r by lia. reflexivity.
  - cbn [py_round_num pynum_value].
    rewrite one_point_zero, <- Zle_Qle in Hle.
    rewrite Z.max_l by lia. reflexivity.
Qed.

(** On the ranks from 1 to 100 the three generators agree: the
    percentile is [101 - rank] (at rank 100 the company generator
    returns it as the float 1.0). *)
Lemma percentile_on_ranks_1_to_100 score scope rank s :
  1 <= rank <= 100 ->
  percentile
    (eval (GenerateFrequencyInserts.generate_interview_metrics score rank) s)
  = PyInt (101 - rank)
  /\ percentile (eval (RestoreGlobal.generate_global_metrics score rank) s)
     = PyInt (101 - rank)
  /\ (pynum_value
        (percentile
           (eval (CompanyStats.generate_realistic_metrics score scope rank)
                 s))
      == inject_Z (101 - rank))%Q.
Proof.
  intros Hr. rewrite interview_metrics_percentile, global_metrics_percentile.
  split; [reflexivity|split; [reflexivity|]].
  rewrite realistic_metrics_percentile_clamped, Z.max_r by lia.
  reflexivity.
Qed.

End Percentile.

(** ** Success rate and solve time per difficulty tier (C8) *)

Lemma py_round1_range (lo hi x : Q) :
  (lo * 10 == inject_Z (Qfloor (lo * 10)))%Q ->
  (hi * 10 == inject_Z (Qfloor (hi * 10)))%Q ->
  (lo <= x <= hi)%Q ->
  (lo <= py_round x 1 <= hi)%Q.
Proof.
  intros Hl Hh Hx.
  apply (py_round_range lo hi x 1 (Qfloor (lo * 10)) (Qfloor (hi * 10)));
    assumption.
Qed.

Ltac literal_Q := vm_compute; first [reflexivity | discriminate].

(** Every draw met while a generator was taken apart is given its range. *)
Ltac range_of_draws :=
  repeat match goal with
         | E : uniform ?a ?b ?s = (?x, _) |- _ =>
             lazymatch goal with
             | _ : (a <= x <= b)%Q |- _ => fail
             | _ =>
                 let R := fresh "R" in
                 assert (R : (a <= x <= b)%Q)
                   by (pose proof (uniform_range a b s ltac:(literal_Q)) as R;
                       rewrite E in R; exact R)
             end
         | E : randint ?a ?b ?s = (?x, _) |- _ =>
             lazymatch goal with
             | _ : a <= x <= b |- _ => fail
             | _ =>
                 let R := fresh "R" in
                 assert (R : a <= x <= b)
                   by (pose proof (randint_range a b s ltac:(lia)) as R;
                       rewrite E in R; exact R)
             end
         end.

Ltac tier_ranges :=
  step_draws; range_of_draws;
  unfold follows, tier_of, in_rangeQ, in_rangeZ;
  cbn [fst snd avg_difficulty_rating success_rate avg_solve_time_minutes];
  repeat match goal with
         | E : Qle_bool ?x ?y = _ |- context [Qle_bool ?x ?y] => rewrite E
         end;
  cbn [fst snd success_range time_range interview_table global_table
       realistic_table];
  (split; [apply py_round1_range; [literal_Q | literal_Q | assumption]
          | assumption]).

Section Tiers.
Context {rng : Type} `{RandomLaws rng}.

Lemma interview_metrics_follow_table score rank s :
  follows interview_table
    (eval (GenerateFrequencyInserts.generate_interview_metrics score rank) s).
Proof.
  unfold eval, GenerateFrequencyInserts.generate_interview_metrics, bind, ret.
  tier_ranges.
Qed.

Lemma global_metrics_follow_table score rank s :
  follows global_table
    (eval (RestoreGlobal.generate_global_metrics score rank) s).
Proof.
  unfold eval, RestoreGlobal.generate_global_metrics, bind, ret.
  tier_ranges.
Qed.

Lemma realistic_metrics_follow_table score scope rank s :
  follows realistic_table
    (eval (CompanyStats.generate_realistic_metrics score scope rank) s).
Proof.
  unfold eval, CompanyStats.generate_realistic_metrics, bind, ret.
  tier_ranges.
Qed.
End Tiers.

(** The tape generator keeps the promises of the library. *)
Lemma tape_random_laws : RandomLaws (list Z).
Proof.
  split.
  - intros a b [|x rest] Hab; cbn.
    + lia.
    + pose proof (Z.mod_pos_bound x (b - a + 1)). lia.
  - intros a b [|x rest] Hab; cbn [uniform Doubles.tape_random
                                     Doubles.tape_uniform fst].
    + split; [apply Qle_refl|exact Hab].
    + pose proof (Z.mod_pos_bound x 1001 ltac:(lia)) as Hm.
      set (f := (x mod 1001 # 1000)%Q).
      assert (Hf0 : (0 <= f)%Q) by (unfold f, Qle; cbn; lia).
      assert (Hf1 : (f <= 1)%Q) by (unfold f, Qle; cbn; lia).
      assert (Hd : (0 <= b - a)%Q) by (now apply -> Qle_minus_iff).
      split.
      * rewrite <- (Qplus_0_r a) at 1. apply Qplus_le_r.
        now apply Qmult_le_0_compat.
      * apply Qle_trans with (a + (b - a) * 1)%Q.
        -- apply Qplus_le_r. rewrite (Qmult_comm (b - a) f), (Qmult_comm (b - a) 1).
           apply Qmult_le_compat_r; assumption.
        -- rewrite Qmult_1_r. ring_simplify. apply Qle_refl.
Qed.

Lemma interview_table_shape :
  ends_ordered interview_table /\ neighbours_overlap interview_table.
Proof.
  unfold ends_ordered, neighbours_overlap, disjointQ, disjointZ,
    in_rangeQ, in_rangeZ; cbn.
  repeat split; try reflexivity; try discriminate; try lia.
  - intros x [H1 _] [_ H2].
    apply (Qle_not_lt _ _ (Qle_trans _ _ _ H1 H2)). reflexivity.
Qed.

Lemma global_table_shape :
  ends_ordered global_table /\ neighbours_overlap global_table.
Proof.
  unfold ends_ordered, neighbours_overlap, disjointQ, disjointZ,
    in_rangeQ, in_rangeZ; cbn.
  repeat split; try reflexivity; try discriminate; try lia.
  - intros x [H1 _] [_ H2].
    apply (Qle_not_lt _ _ (Qle_trans _ _ _ H1 H2)). reflexivity.
Qed.

Lemma realistic_table_shape :
  ends_ordered realistic_table /\ neighbours_overlap realistic_table.
Proof.
  unfold ends_ordered, neighbours_overlap, disjointQ, disjointZ,
    in_rangeQ, in_rangeZ; cbn.
  repeat split; try reflexivity; try discriminate; try lia.
  - intros x [H1 _] [_ H2].
    apply (Qle_not_lt _ _ (Qle_trans _ _ _ H1 H2)). reflexivity.
Qed.




(** ** Difficulty levels (C6) *)

Lemma three_level_lookup (a b c : FetchCodetop.difficulty) (level : Z) :
  ({[ 1 := a; 2 := b; 3 := c ]} : gmap Z FetchCodetop.difficulty) !! level
  = if level =? 1 then Some a
    else if level =? 2 then Some b
    else if level =? 3 then Some c
    else None.
Proof.
  destruct (Z.eqb_spec level 1) as [->|H1]; [reflexivity|].
  destruct (Z.eqb_spec level 2) as [->|H2]; [reflexivity|].
  destruct (Z.eqb_spec level 3) as [->|H3]; [reflexivity|].
  rewrite !lookup_insert_ne by congruence.
  apply lookup_singleton_ne. congruence.
Qed.

(** C6. Both normalisers map level 1 to EASY, 2 to MEDIUM and 3 to HARD,
    and every other integer to MEDIUM; a record whose level is absent or
    [null] is MEDIUM as well. *)
Theorem C6_difficulty_levels :
  forall level : Z,
    let expected :=
      if level =? 1 then FetchCodetop.EASY
      else if level =? 3 then FetchCodetop.HARD
      else FetchCodetop.MEDIUM in
    FetchCodetop.map_difficulty level = expected
    /\ ComprehensiveSql.difficulty_level_to_name level = expected
    /\ FetchCodetop.difficulty_of (Present level) = expected
    /\ FetchCodetop.difficulty_of Missing = FetchCodetop.MEDIUM
    /\ FetchCodetop.difficulty_of Null = FetchCodetop.MEDIUM
    /\ FetchCodetop.map_difficulty 1 = FetchCodetop.EASY
    /\ FetchCodetop.map_difficulty 2 = FetchCodetop.MEDIUM
    /\ FetchCodetop.map_difficulty 3 = FetchCodetop.HARD.
Proof.
  intros level expected.
  assert (Hm : FetchCodetop.map_difficulty level = expected).
  { unfold FetchCodetop.map_difficulty, FetchCodetop.mapping, expected.
    rewrite three_level_lookup.
    destruct (level =? 1); [reflexivity|].
    destruct (Z.eqb_spec level 2) as [->|_]; [reflexivity|].
    destruct (level =? 3); reflexivity. }
  assert (Hn : ComprehensiveSql.difficulty_level_to_name level = expected).
  { unfold ComprehensiveSql.difficulty_level_to_name,
      ComprehensiveSql.difficulty_map, expected.
    rewrite three_level_lookup.
    destruct (level =? 1); [reflexivity|].
    destruct (Z.eqb_spec level 2) as [->|_]; [reflexivity|].
    destruct (level =? 3); reflexivity. }
  split; [exact Hm|split; [exact Hn|split; [exact Hm|]]].
  repeat split.
Qed.

(** ** Dates (C10) *)

Lemma digit_of_digit_char (d : Z) :
  0 <= d <= 9 -> digit_of (digit_char d) = Some d.
Proof.
  intros Hd. unfold digit_of, digit_char.
  rewrite nat_ascii_embedding by lia.
  replace (48 <=? 48 + Z.to_nat d)%nat with true
    by (symmetry; apply Nat.leb_le; lia).
  replace (48 + Z.to_nat d <=? 57)%nat with true
    by (symmetry; apply Nat.leb_le; lia).
  cbn [andb]. f_equal. lia.
Qed.

Lemma is_digit_digit_char (d : Z) :
  0 <= d <= 9 -> is_digit (digit_char d) = true.
Proof.
  intros Hd. unfold is_digit. now rewrite digit_of_digit_char.
Qed.

Lemma low_digit (z : Z) : 0 <= z mod 10 <= 9.
Proof. pose proof (Z.mod_pos_bound z 10). lia. Qed.

Lemma zero_pad_4 (z : Z) :
  1 <= z <= 9999 ->
  forallb is_digit (list_ascii_of_string (zero_pad 4 z)) = true
  /\ parse_digits 0 (zero_pad 4 z) = Some z.
Proof.
  intros Hz. unfold zero_pad. cbn [pad_digits list_ascii_of_string forallb].
  rewrite !is_digit_digit_char by apply low_digit.
  split; [reflexivity|]. cbn [parse_digits].
  rewrite !digit_of_digit_char by apply low_digit.
  f_equal. Z.div_mod_to_equations. lia.
Qed.

Lemma zero_pad_2 (z : Z) :
  0 <= z <= 99 ->
  forallb is_digit (list_ascii_of_string (zero_pad 2 z)) = true
  /\ parse_digits 0 (zero_pad 2 z) = Some z.
Proof.
  intros Hz. unfold zero_pad. cbn [pad_digits list_ascii_of_string forallb].
  rewrite !is_digit_digit_char by apply low_digit.
  split; [reflexivity|]. cbn [parse_digits].
  rewrite !digit_of_digit_char by apply low_digit.
  f_equal. Z.div_mod_to_equations. lia.
Qed.

(** A valid calendar date prints as [YYYY-MM-DD], and the text reads back
    as its year, month and day. *)
Lemma strftime_date_shape (dt : date_time) :
  valid_date dt ->
  is_date_text (strftime_date dt) = true
  /\ read_date (strftime_date dt) = Some (year dt, month dt, day dt).
Proof.
  intros (Hy & Hm & Hd).
  destruct (zero_pad_4 (year dt) Hy) as (Dy & Py).
  destruct (zero_pad_2 (month dt) ltac:(lia)) as (Dm & Pm).
  destruct (zero_pad_2 (day dt) ltac:(lia)) as (Dd & Pd).
  unfold strftime_date, zero_pad in *.
  cbn [pad_digits] in *. cbv [String.append].
  split.
  - cbn in Dy, Dm, Dd |- *.
    repeat match goal with
           | H : _ && _ = true |- _ => apply andb_prop in H as [? ?]
           end.
    repeat (apply andb_true_intro; split); auto.
  - unfold read_date. cbv [substring].
    rewrite Py, Pm, Pd. reflexivity.
Qed.

Lemma simple_parser_laws : @IsoParserLaws Doubles.simple_parser.
Proof.
  split. intros s dt. cbn [fromisoformat Doubles.simple_parser].
  unfold Doubles.simple_iso.
  destruct (_ || _); [discriminate|].
  destruct (parse_digits 0 (substring 0 4 s)) as [y|]; [|discriminate].
  destruct (parse_digits 0 (substring 5 2 s)) as [m|]; [|discriminate].
  destruct (parse_digits 0 (substring 8 2 s)) as [d|]; [|discriminate].
  destruct (_ && _) eqn:Hr; [|discriminate].
  intros [= <-]. unfold valid_date; cbn.
  repeat match goal with
         | H : _ && _ = true |- _ => apply andb_prop in H as [? ?]
         end.
  lia.
Qed.



(** ** The fetcher (C7) *)

Section Fetch.
Context {env : Type} `{Outside env} `{IsoParser}.

End Fetch.


(** ** The problem emitter on an empty list (C9) *)

Section EmptyInput.
Context {env : Type} `{Outside env} `{IsoParser}.

(** C9. On the empty list [generate_problem_sql] yields five lines:
    three comments, a blank line and the INSERT header.  The header
    occurs once and is the last line; there is no value tuple and no
    [ON DUPLICATE KEY UPDATE] clause, so the text ends in an INSERT
    statement that is left open. *)
Theorem C9_empty_input_leaves_open_insert :
  forall w : fetch_world env,
    let lines := eval (FetchCodetop.generate_problem_sql_lines []) w in
    let stamp := strftime_datetime (fst (datetime_now (fw_env w))) in
    lines = [ "-- CodeTop完整题目数据 (基于API真实数据)";
              "-- 生成时间: " ++ stamp;
              "-- 总题目数量: 0";
              "";
              FetchCodetop.insert_header ]%string
    /\ length (List.filter (String.eqb FetchCodetop.insert_header) lines)
       = 1%nat
    /\ List.last lines ""%string = FetchCodetop.insert_header
    /\ ~ In "ON DUPLICATE KEY UPDATE"%string lines
    /\ FetchCodetop.emit_batches FetchCodetop.batch_size [] = []
    /\ eval (FetchCodetop.generate_problem_sql []) w = join nl lines.
Proof.
  intros w.
  unfold eval, FetchCodetop.generate_problem_sql,
    FetchCodetop.generate_problem_sql_lines, FetchCodetop.now, bind, ret.
  cbn [FetchCodetop.problem_values ret].
  destruct (datetime_now (fw_env w)) as [t e].
  cbn [fst snd length app FetchCodetop.emit_batches].
  set (stamp := strftime_datetime t).
  assert (Hb : FetchCodetop.emit_batches FetchCodetop.batch_size [] = [])
    by reflexivity.
  rewrite Hb. cbn [app].
  split; [reflexivity|].
  split; [reflexivity|].
  split; [reflexivity|].
  split; [|split; reflexivity].
  intros Hin. cbn [In] in Hin.
  repeat destruct Hin as [Hin|Hin]; try discriminate Hin; exact Hin.
Qed.
End EmptyInput.

(** ** Batching (C3) *)

Section Batching.
Context {A : Type}.
Implicit Types (xs : list A) (B fuel : nat).

Lemma range_slices xs B fuel i :
  map (fun j => slice xs j (j + B)) (range_from fuel i (length xs) B)
  = chunks fuel B (drop i xs).
Proof.
  revert i. induction fuel as [|fuel IH]; intros i; [reflexivity|].
  cbn [range_from]. destruct (Nat.ltb_spec i (length xs)) as [Hlt|Hge].
  - cbn [map]. rewrite IH.
    destruct (drop i xs) as [|x rest] eqn:Hd.
    + apply (f_equal length) in Hd. rewrite length_drop in Hd.
      cbn in Hd. lia.
    + cbn [chunks]. rewrite <- Hd. unfold slice.
      replace (i + B - i)%nat with B by lia.
      now rewrite drop_drop.
  - rewrite drop_ge by lia. reflexivity.
Qed.

Lemma batches_chunks xs B :
  map snd (batches B xs) = chunks (length xs) B xs.
Proof.
  unfold batches, py_range. rewrite map_map. cbn [snd].
  apply (range_slices xs B (length xs) 0).
Qed.

Lemma chunks_concat B fuel xs :
  (0 < B)%nat -> (length xs <= fuel)%nat -> concat (chunks fuel B xs) = xs.
Proof.
  intros HB. revert xs. induction fuel as [|fuel IH]; intros xs Hlen.
  - destruct xs; [reflexivity|cbn in Hlen; lia].
  - destruct xs as [|x rest]; [reflexivity|].
    cbn [chunks concat]. rewrite IH.
    + apply take_drop.
    + rewrite length_drop. cbn [length] in *. lia.
Qed.

Lemma chunks_sizes B fuel xs :
  (0 < B)%nat ->
  Forall (fun g => (1 <= length g <= B)%nat) (chunks fuel B xs).
Proof.
  intros HB. revert xs. induction fuel as [|fuel IH]; intros xs.
  - constructor.
  - destruct xs as [|x rest]; [constructor|].
    cbn [chunks]. constructor; [|apply IH].
    rewrite length_take. cbn [length]. lia.
Qed.

Lemma ceil_div_0 B : (0 < B)%nat -> ceil_div 0 B = 0%nat.
Proof. intros HB. unfold ceil_div. apply Nat.div_small. lia. Qed.

Lemma ceil_div_step n B :
  (0 < B)%nat -> (0 < n)%nat -> ceil_div n B = S (ceil_div (n - B) B).
Proof.
  intros HB Hn. unfold ceil_div.
  destruct (Nat.le_gt_cases B n) as [Hle|Hgt].
  - replace (n + B - 1)%nat with ((n - B + B - 1) + 1 * B)%nat by lia.
    rewrite Nat.div_add by lia. lia.
  - replace (n - B)%nat with 0%nat by lia.
    replace (n + B - 1)%nat with ((n - 1) + 1 * B)%nat by lia.
    rewrite Nat.div_add by lia.
    rewrite (Nat.div_small (n - 1) B) by lia.
    rewrite (Nat.div_small (0 + B - 1) B) by lia. reflexivity.
Qed.

(** [ceil_div] is the ceiling of the quotient. *)
Lemma ceil_div_spec n B :
  (0 < B)%nat -> (n <= ceil_div n B * B < n + B)%nat.
Proof.
  intros HB. unfold ceil_div.
  pose proof (Nat.div_mod_eq (n + B - 1) B) as Hdm.
  pose proof (Nat.mod_upper_bound (n + B - 1) B ltac:(lia)) as Hr.
  nia.
Qed.

Lemma chunks_count B fuel xs :
  (0 < B)%nat -> (length xs <= fuel)%nat ->
  length (chunks fuel B xs) = ceil_div (length xs) B.
Proof.
  intros HB. revert xs. induction fuel as [|fuel IH]; intros xs Hlen.
  - destruct xs; [|cbn in Hlen; lia]. now rewrite ceil_div_0.
  - destruct xs as [|x rest]; [now rewrite ceil_div_0|].
    cbn [chunks]. rewrite length_cons, IH.
    + rewrite length_drop. symmetry. apply ceil_div_step; cbn; lia.
    + rewrite length_drop. cbn [length] in *. lia.
Qed.

(** The batching idiom cuts its list as the specification asks. *)
Lemma batches_batched xs B :
  (0 < B)%nat -> batched_as B xs (map snd (batches B xs)).
Proof.
  intros HB. rewrite batches_chunks. split; [|split].
  - now apply chunks_count.
  - now apply chunks_sizes.
  - now apply chunks_concat.
Qed.

Lemma range_from_lower fuel i stop B :
  Forall (fun j => (i <= j)%nat) (range_from fuel i stop B).
Proof.
  revert i. induction fuel as [|fuel IH]; intros i; [constructor|].
  cbn [range_from]. destruct (i <? stop)%nat; [|constructor].
  constructor; [lia|].
  eapply Forall_impl; [apply IH|]. cbn. intros; lia.
Qed.

(** The first batch starts at index 0, every later one further on. *)
Lemma batches_indices xs B :
  (0 < B)%nat ->
  match batches B xs with
  | [] => xs = []
  | (i, _) :: rest => i = 0%nat /\ Forall (fun b => (0 < fst b)%nat) rest
  end.
Proof.
  intros HB. unfold batches, py_range.
  destruct xs as [|x rest]; [reflexivity|].
  cbn [length range_from Nat.ltb Nat.leb map].
  split; [reflexivity|].
  apply Forall_map. cbn [fst].
  eapply Forall_impl; [apply range_from_lower|]. cbn. intros; lia.
Qed.
End Batching.

(** With values to emit, the header written ahead of the loop and the
    headers written inside it give every batch one INSERT statement. *)
Lemma emitter_statements (B : nat) (values : list string) :
  (0 < B)%nat -> values <> [] ->
  FetchCodetop.insert_header :: FetchCodetop.emit_batches B values
  = concat (map problem_statement (batches B values)).
Proof.
  intros HB Hne. unfold FetchCodetop.emit_batches.
  pose proof (batches_indices values B HB) as Hi.
  destruct (batches B values) as [|[i b0] rest]; [contradiction|].
  destruct Hi as [-> Hrest]. cbn [map concat].
  unfold problem_statement at 1, FetchCodetop.batch_lines at 1.
  cbn [Nat.ltb Nat.leb app]. f_equal. f_equal.
  induction Hrest as [|[j b] rest Hj _ IH]; [reflexivity|].
  cbn [map concat fst] in *. rewrite IH. f_equal.
  unfold problem_statement, FetchCodetop.batch_lines.
  destruct (Nat.ltb_spec 0 j); [reflexivity|lia].
Qed.

(** ** Loops that thread a state *)

Section ForEach.
Context {S A B : Type}.
Implicit Types (f : A -> State S B).

Lemma for_each_cons f x xs s :
  for_each f (x :: xs) s
  = let (y, s1) := f x s in
    let (ys, s2) := for_each f xs s1 in (y :: ys, s2).
Proof.
  cbn [for_each]. unfold bind, ret.
  destruct (f x s) as [y s1]. destruct (for_each f xs s1); reflexivity.
Qed.

Lemma for_each_app f xs ys s :
  for_each f (xs ++ ys) s
  = let (a, s1) := for_each f xs s in
    let (b, s2) := for_each f ys s1 in (a ++ b, s2).
Proof.
  revert s. induction xs as [|x xs IH]; intros s.
  - cbn. destruct (for_each f ys s); reflexivity.
  - cbn [app]. rewrite !for_each_cons. destruct (f x s) as [y s1].
    rewrite IH. destruct (for_each f xs s1) as [a s2].
    destruct (for_each f ys s2); reflexivity.
Qed.

Lemma for_each_length f xs s :
  length (fst (for_each f xs s)) = length xs.
Proof.
  revert s. induction xs as [|x xs IH]; intros s; [reflexivity|].
  rewrite for_each_cons. destruct (f x s) as [y s1].
  specialize (IH s1). destruct (for_each f xs s1). cbn in *. lia.
Qed.

End ForEach.

Section ForEachBatches.
Context {S A B : Type}.
Implicit Types (f : A -> State S B).

(** Running the body batch by batch is running it over the whole list. *)
Lemma for_each_concat f (groups : list (list A)) s :
  for_each f (concat groups) s
  = let (yss, s') := for_each (for_each f) groups s in (concat yss, s').
Proof.
  revert s. induction groups as [|g groups IH]; intros s; [reflexivity|].
  cbn [concat]. rewrite for_each_app, for_each_cons.
  destruct (for_each f g s) as [ys s1]. rewrite IH.
  destruct (for_each (for_each f) groups s1); reflexivity.
Qed.

Lemma for_each_group_sizes f (groups : list (list A)) s :
  map length (fst (for_each (for_each f) groups s)) = map length groups.
Proof.
  revert s. induction groups as [|g groups IH]; intros s; [reflexivity|].
  rewrite for_each_cons. pose proof (for_each_length f g s) as Hl.
  destruct (for_each f g s) as [ys s1]. specialize (IH s1).
  destruct (for_each (for_each f) groups s1). cbn in *. congruence.
Qed.

(** The values of the batches are the values of the records, batched. *)
Lemma values_batched f (xs : list A) (size : nat) s :
  (0 < size)%nat ->
  batched_as size (eval (for_each f xs) s)
             (eval (for_each (for_each f) (map snd (batches size xs))) s).
Proof.
  intros Hs. destruct (batches_batched xs size Hs) as (Hn & Hsz & Hc).
  unfold eval.
  pose proof (for_each_concat f (map snd (batches size xs)) s) as Hfc.
  pose proof (for_each_group_sizes f (map snd (batches size xs)) s) as Hgs.
  pose proof (for_each_length f xs s) as Hlen.
  rewrite Hc in Hfc.
  destruct (for_each (for_each f) (map snd (batches size xs)) s)
    as [yss s'].
  rewrite Hfc in Hlen |- *. cbn [fst] in *. split; [|split].
  - rewrite Hlen, <- Hn.
    apply (f_equal length) in Hgs. rewrite !length_map in Hgs.
    rewrite length_map. exact Hgs.
  - apply List.Forall_forall. intros g Hg.
    apply (in_map length) in Hg. rewrite Hgs in Hg.
    apply in_map_iff in Hg as (g0 & Hl & Hin).
    rewrite List.Forall_forall in Hsz. specialize (Hsz g0 Hin). lia.
  - reflexivity.
Qed.
End ForEachBatches.

(** ** The batch loops of the direct emitters (C3, C5) *)

Lemma answers_cons {db : Type} `{MySql db} c cs (d : db) :
  answers (c :: cs) d
  = fst (mysql_run c d) :: answers cs (snd (mysql_run c d)).
Proof. cbn [answers]. destruct (mysql_run c d); reflexivity. Qed.

Lemma answers_length {db : Type} `{MySql db} cs (d : db) :
  length (answers cs d) = length cs.
Proof.
  revert d. induction cs as [|c cs IH]; intros d; [reflexivity|].
  rewrite answers_cons. cbn [length]. now rewrite IH.
Qed.

Section GlobalLoops.
Context {rng db : Type} `{Random rng} `{MySql db}.

(** One turn of the loop of [generate_frequency_inserts.py]. *)
Lemma interview_insert_loop_step B i batch rest total (w : world rng db) :
  GenerateFrequencyInserts.insert_loop B ((i, batch) :: rest) total w
  = let (values, g) :=
      GenerateFrequencyInserts.batch_values batch (w_rng w) in
    let cmd := GenerateFrequencyInserts.insert_cmd values in
    let (r, d) := mysql_run cmd (w_db w) in
    let (ok, answer) := r in
    let count := total + Z.of_nat (length batch) in
    let number := str_int (Z.of_nat (i / B) + 1) in
    if ok then
      GenerateFrequencyInserts.insert_loop B rest count
        (World g d
           (w_stdout w
              ++ [("✓ Inserted batch " ++ number ++ ": Problems "
                     ++ str_int (fst (hd (0, 0) batch)) ++ "-"
                     ++ str_int (fst (List.last batch (0, 0))) ++ " ("
                     ++ str_int count ++ "/100)")%string])
           (cmd :: w_commands w))
    else
      (total,
       World g d
         (w_stdout w
            ++ [("✗ Failed to insert batch " ++ number ++ ": "
                   ++ answer)%string])
         (cmd :: w_commands w)).
Proof.
  cbn [GenerateFrequencyInserts.insert_loop].
  unfold bind, draw, GenerateFrequencyInserts.execute_mysql_command,
    run_client, print, ret.
  destruct (GenerateFrequencyInserts.batch_values batch (w_rng w))
    as [values g].
  cbn [w_db w_rng w_stdout w_commands].
  destruct (mysql_run _ (w_db w)) as [[[|] answer] d]; reflexivity.
Qed.

(** The loop sends the planned commands up to the first failure, prints
    one line per command sent, and reports the failure. *)
Lemma interview_insert_loop B todo total (w : world rng db) :
  exists lines,
    let groups :=
      eval (for_each GenerateFrequencyInserts.batch_values (map snd todo))
           (w_rng w) in
    let cmds := map GenerateFrequencyInserts.insert_cmd groups in
    let results := answers cmds (w_db w) in
    let sent := sent_until_failure results in
    let w' := snd (GenerateFrequencyInserts.insert_loop B todo total w) in
    w_commands w' = rev (take sent cmds) ++ w_commands w
    /\ w_stdout w' = w_stdout w ++ lines
    /\ length lines = sent
    /\ (forall out, In (false, out) (take sent results) ->
        exists n, In ("✗ Failed to insert batch " ++ str_int n ++ ": "
                        ++ out)%string lines).
Proof.
  revert total w. induction todo as [|[i batch] rest IH]; intros total w.
  - exists []. cbn. rewrite app_nil_r.
    split; [reflexivity|split; [reflexivity|split; [reflexivity|]]].
    intros o [].
  - rewrite interview_insert_loop_step.
    cbn [map snd]. unfold eval. rewrite for_each_cons.
    destruct (GenerateFrequencyInserts.batch_values batch (w_rng w))
      as [values g] eqn:Hv.
    destruct (for_each GenerateFrequencyInserts.batch_values
                       (map snd rest) g) as [groups g'] eqn:Hg.
    cbn [fst map]. rewrite answers_cons.
    destruct (mysql_run (GenerateFrequencyInserts.insert_cmd values)
                        (w_db w)) as [[ok answer] d] eqn:Hr.
    cbn [fst snd]. cbv zeta. destruct ok.
    + match goal with
      | |- context [GenerateFrequencyInserts.insert_loop B rest ?t ?w1] =>
          destruct (IH t w1) as (lines & Hc & Hs & Hn & Hf)
      end.
      cbn [w_db w_rng w_stdout w_commands] in Hc, Hs, Hn, Hf.
      unfold eval in Hc, Hn, Hf. rewrite Hg in Hc, Hn, Hf.
      cbn [fst] in Hc, Hn, Hf.
      eexists (_ :: lines). cbn [sent_until_failure take rev].
      rewrite Hc, Hs, <- !app_assoc. cbn [app length].
      split; [reflexivity|split; [reflexivity|split; [congruence|]]].
      intros o [Ho|Ho]; [discriminate|].
      destruct (Hf o Ho) as [n Hin]. exists n. now right.
    + cbn [snd w_db w_rng w_stdout w_commands sent_until_failure take rev].
      eexists [_].
      split; [reflexivity|split; [reflexivity|split; [reflexivity|]]].
      intros o [Ho|[]]. injection Ho as <-.
      eexists. left. reflexivity.
Qed.
(** One turn of the loop of [restore_global_frequency_stats.py]. *)
Lemma restore_insert_loop_step B i batch rest total (w : world rng db) :
  RestoreGlobal.insert_loop B ((i, batch) :: rest) total w
  = let (values, g) := RestoreGlobal.batch_values batch (w_rng w) in
    let cmd := restore_command values in
    let (r, d) := mysql_run cmd (w_db w) in
    let (ok, answer) := r in
    let count := total + Z.of_nat (length batch) in
    if ok then
      RestoreGlobal.insert_loop B rest count
        (World g d
           (w_stdout w
              ++ [("✓ 插入批次 " ++ str_int (Z.of_nat (i / B) + 1)
                     ++ ": 问题 " ++ str_int (fst (hd (0, 0) batch)) ++ "-"
                     ++ str_int (fst (List.last batch (0, 0))) ++ " ("
                     ++ str_int count ++ "/100)")%string])
           (cmd :: w_commands w))
    else
      (false,
       World g d (w_stdout w ++ [("✗ 插入批次失败: " ++ answer)%string])
             (cmd :: w_commands w)).
Proof.
  cbn [RestoreGlobal.insert_loop].
  unfold bind, draw, RestoreGlobal.execute_mysql_command, run_client,
    print, ret, restore_command.
  destruct (RestoreGlobal.batch_values batch (w_rng w)) as [values g].
  cbn [w_db w_rng w_stdout w_commands].
  destruct (mysql_run _ (w_db w)) as [[[|] answer] d]; reflexivity.
Qed.

Lemma restore_insert_loop B todo total (w : world rng db) :
  exists lines,
    let groups :=
      eval (for_each RestoreGlobal.batch_values (map snd todo)) (w_rng w) in
    let cmds := map restore_command groups in
    let results := answers cmds (w_db w) in
    let sent := sent_until_failure results in
    let w' := snd (RestoreGlobal.insert_loop B todo total w) in
    w_commands w' = rev (take sent cmds) ++ w_commands w
    /\ w_stdout w' = w_stdout w ++ lines
    /\ length lines = sent
    /\ fst (RestoreGlobal.insert_loop B todo total w)
       = forallb fst (take sent results)
    /\ (forall out, In (false, out) (take sent results) ->
        In ("✗ 插入批次失败: " ++ out)%string lines).
Proof.
  revert total w. induction todo as [|[i batch] rest IH]; intros total w.
  - exists []. cbn. rewrite app_nil_r.
    split; [reflexivity|split; [reflexivity|split; [reflexivity|]]].
    split; [reflexivity|]. intros o [].
  - rewrite restore_insert_loop_step.
    cbn [map snd]. unfold eval. rewrite for_each_cons.
    destruct (RestoreGlobal.batch_values batch (w_rng w))
      as [values g] eqn:Hv.
    destruct (for_each RestoreGlobal.batch_values (map snd rest) g)
      as [groups g'] eqn:Hg.
    cbn [fst map]. rewrite answers_cons.
    destruct (mysql_run (restore_command values) (w_db w))
      as [[ok answer] d] eqn:Hr.
    cbn [fst snd]. cbv zeta. destruct ok.
    + match goal with
      | |- context [RestoreGlobal.insert_loop B rest ?t ?w1] =>
          destruct (IH t w1) as (lines & Hc & Hs & Hn & Hb & Hf)
      end.
      cbn [w_db w_rng w_stdout w_commands] in Hc, Hs, Hn, Hb, Hf.
      unfold eval in Hc, Hn, Hb, Hf. rewrite Hg in Hc, Hn, Hb, Hf.
      cbn [fst] in Hc, Hn, Hb, Hf.
      eexists (_ :: lines). cbn [sent_until_failure take rev forallb fst].
      rewrite Hc, Hs, Hb, <- !app_assoc. cbn [app length andb].
      split; [reflexivity|split; [reflexivity|split; [congruence|]]].
      split; [reflexivity|].
      intros o [Ho|Ho]; [discriminate|]. right. now apply Hf.
    + cbn [fst snd w_db w_rng w_stdout w_commands sent_until_failure
           take rev forallb andb].
      eexists [_].
      split; [reflexivity|split; [reflexivity|split; [reflexivity|]]].
      split; [reflexivity|].
      intros o [Ho|[]]. injection Ho as <-. left. reflexivity.
Qed.

(** The company loop sends every batch, whatever the client answers,
    prints one line per batch, and reports every failure. *)
Lemma company_insert_batches_step name i batch rest total
      (w : world rng db) :
  CompanyStats.insert_batches name ((i, batch) :: rest) total w
  = let cmd := CompanyStats.company_insert_cmd batch in
    let (r, d) := mysql_run cmd (w_db w) in
    let (ok, answer) := r in
    if ok then
      CompanyStats.insert_batches name rest
        (total + Z.of_nat (length batch))
        (World (w_rng w) d
           (w_stdout w
              ++ [("  ✓ Inserted batch for " ++ name ++ ": "
                     ++ str_int (Z.of_nat (length batch))
                     ++ " records")%string])
           (cmd :: w_commands w))
    else
      CompanyStats.insert_batches name rest total
        (World (w_rng w) d
           (w_stdout w
              ++ [("  ✗ Failed batch for " ++ name ++ ": "
                     ++ answer)%string])
           (cmd :: w_commands w)).
Proof.
  cbn [CompanyStats.insert_batches].
  unfold bind, CompanyStats.execute_mysql_command, run_client, print.
  cbn [w_db w_rng w_stdout w_commands].
  destruct (mysql_run _ (w_db w)) as [[[|] answer] d]; reflexivity.
Qed.

Lemma company_insert_batches name todo total (w : world rng db) :
  exists lines,
    let cmds := map CompanyStats.company_insert_cmd (map snd todo) in
    let results := answers cmds (w_db w) in
    let w' := snd (CompanyStats.insert_batches name todo total w) in
    w_commands w' = rev cmds ++ w_commands w
    /\ w_stdout w' = w_stdout w ++ lines
    /\ length lines = length todo
    /\ (forall out, In (false, out) results ->
        In ("  ✗ Failed batch for " ++ name ++ ": " ++ out)%string lines).
Proof.
  revert total w. induction todo as [|[i batch] rest IH]; intros total w.
  - exists []. cbn. rewrite app_nil_r.
    split; [reflexivity|split; [reflexivity|split; [reflexivity|]]].
    intros o [].
  - rewrite company_insert_batches_step.
    cbn [map snd]. rewrite answers_cons.
    destruct (mysql_run (CompanyStats.company_insert_cmd batch) (w_db w))
      as [[ok answer] d] eqn:Hr.
    cbn [fst snd]. cbv zeta.
    destruct ok;
      match goal with
      | |- context [CompanyStats.insert_batches name rest ?t ?w1] =>
          destruct (IH t w1) as (lines & Hc & Hs & Hn & Hf)
      end;
      cbn [w_db w_rng w_stdout w_commands] in Hc, Hs, Hn, Hf;
      eexists (_ :: lines); cbn [rev];
      rewrite Hc, Hs, <- !app_assoc; cbn [app length];
      (split; [reflexivity|split; [reflexivity|split; [congruence|]]]).
    + intros o [Ho|Ho]; [discriminate|]. right. now apply Hf.
    + intros o [Ho|Ho]; [injection Ho as <-; now left|].
      right. now apply Hf.
Qed.
End GlobalLoops.

Lemma sent_all_successes (results : list (bool * string)) :
  forallb fst results = true ->
  sent_until_failure results = length results.
Proof.
  induction results as [|[[|] out] rest IH]; cbn; intros Hall.
  - reflexivity.
  - now rewrite IH.
  - discriminate.
Qed.

Section GlobalMains.
Context {rng db : Type} `{Random rng} `{MySql db}.

(** The commands of a whole run of [generate_frequency_inserts.py]: the
    DELETE alone when it fails; otherwise the DELETE, the planned INSERTs
    up to the first failure, and the two checks. *)
Lemma interview_main_commands data B (w : world rng db) :
  let cleared := mysql_run GenerateFrequencyInserts.clear_cmd (w_db w) in
  let cmds :=
    snd (planned_inserts GenerateFrequencyInserts.batch_values
                         GenerateFrequencyInserts.insert_cmd B data
                         (w_rng w)) in
  let sent := sent_until_failure (answers cmds (snd cleared)) in
  w_commands (snd (GenerateFrequencyInserts.main_on data B w))
  = if fst (fst cleared) then
      [GenerateFrequencyInserts.top_cmd; GenerateFrequencyInserts.count_cmd]
        ++ rev (take sent cmds)
        ++ GenerateFrequencyInserts.clear_cmd :: w_commands w
    else GenerateFrequencyInserts.clear_cmd :: w_commands w.
Proof.
  cbv zeta. unfold GenerateFrequencyInserts.main_on.
  unfold bind at 1, print at 1. unfold bind at 1.
  unfold GenerateFrequencyInserts.execute_mysql_command at 1,
    run_client at 1.
  cbn [w_db w_rng w_stdout w_commands].
  destruct (mysql_run GenerateFrequencyInserts.clear_cmd (w_db w))
    as [[[|] answer] d].
  - unfold bind at 1, print at 1. unfold bind at 1.
    cbn [w_db w_rng w_stdout w_commands fst snd].
    match goal with
    | |- context [GenerateFrequencyInserts.insert_loop
                    B (batches B data) 0 ?w1] =>
        destruct (interview_insert_loop B (batches B data) 0 w1)
          as (lines & Hc & _);
        destruct (GenerateFrequencyInserts.insert_loop
                    B (batches B data) 0 w1) as [total w2]
    end.
    cbn [w_db w_rng w_stdout w_commands snd] in Hc.
    unfold planned_inserts. cbn [snd]. rewrite <- Hc.
    unfold bind, GenerateFrequencyInserts.execute_mysql_command,
      run_client, print, ret.
    destruct (mysql_run GenerateFrequencyInserts.count_cmd (w_db w2))
      as [[[|] a1] d1]; cbn [w_db w_rng w_stdout w_commands];
      destruct (mysql_run GenerateFrequencyInserts.top_cmd d1)
        as [[[|] a2] d2]; reflexivity.
  - reflexivity.
Qed.

(** The same for [restore_global_frequency_stats.py], whose [main] seeds
    the generator itself and skips the checks after a failed batch. *)
Lemma restore_main_commands data B (w : world rng db) :
  let clear :=
    ("SET NAMES utf8mb4; " ++ RestoreGlobal.clear_cmd)%string in
  let cleared := mysql_run clear (w_db w) in
  let planned :=
    planned_inserts RestoreGlobal.batch_values restore_command B data
                    (random_seed 42) in
  let results := answers (snd planned) (snd cleared) in
  let sent := sent_until_failure results in
  exists checks,
    w_commands (snd (RestoreGlobal.main_on data B w))
    = (if fst (fst cleared) then
         checks ++ rev (take sent (snd planned)) ++ clear :: w_commands w
       else clear :: w_commands w)
    /\ (forallb fst (take sent results) = false -> checks = [])
    /\ (length checks <= 3)%nat.
Proof.
  cbv zeta. unfold RestoreGlobal.main_on.
  unfold bind, print at 1 2 3, seed, RestoreGlobal.execute_mysql_command at 1,
    run_client at 1.
  cbn [w_db w_rng w_stdout w_commands].
  destruct (mysql_run _ (w_db w)) as [[[|] answer] d].
  - unfold print at 1 2. cbn [w_db w_rng w_stdout w_commands fst snd].
    match goal with
    | |- context [RestoreGlobal.insert_loop B (batches B data) 0 ?w1] =>
        destruct (restore_insert_loop B (batches B data) 0 w1)
          as (lines & Hc & _ & _ & Hb & _);
        destruct (RestoreGlobal.insert_loop B (batches B data) 0 w1)
          as [finished w2]
    end.
    cbn [w_db w_rng w_stdout w_commands fst snd] in Hc, Hb.
    unfold planned_inserts. cbn [snd]. rewrite <- Hb.
    destruct finished.
    + unfold RestoreGlobal.verify, bind, print,
        RestoreGlobal.execute_mysql_command, run_client, ret.
      cbn [w_db w_rng w_stdout w_commands].
      eexists [_; _; _].
      repeat match goal with
             | |- context [mysql_run ?c ?d0] =>
                 destruct (mysql_run c d0) as [[[|] ?] ?];
                 cbn [w_db w_rng w_stdout w_commands snd]
             end;
        try destruct (contains _ _);
        cbn [w_db w_rng w_stdout w_commands snd]; rewrite Hc;
        (split; [reflexivity|split; [discriminate|]]);
        cbn; lia.
    + exists []. cbn [ret snd app]. rewrite Hc.
      split; [reflexivity|split; [reflexivity|]].
      cbn; lia.
  - exists []. split; [reflexivity|]. split; [reflexivity|].
    cbn; lia.
Qed.
End GlobalMains.

(** ** Determinism of the generator (C1) *)

Section Determinism.
Context {rng db : Type} `{Random rng} `{MySql db}.

(** After [random.seed(a)] nothing of the earlier surroundings reaches a
    run of a generator. *)
Lemma seeded_run_from_seed {A B : Type} (gen : A -> State rng B)
      (a : Z) (inputs : list A) (w : world rng db) :
  eval (seeded_run gen a inputs) w
  = eval (for_each gen inputs) (random_seed a).
Proof.
  unfold eval, seeded_run, bind, seed, draw. cbn [w_rng].
  destruct (for_each gen inputs (random_seed a)); reflexivity.
Qed.

(** C1. For every seed and every sequence of inputs, two runs of a
    metrics generator over the sequence, started in any two states of
    the surroundings (generator, database, console), return the same
    list of bundles, one bundle per input: the bundles agree at every
    position, in all six fields.  This holds for the three generators;
    and the INSERT commands of [generate_frequency_inserts.py], which
    carry the bundles, are in every run a prefix of one list fixed by
    the seed 42 and the data. *)
Theorem C1_seeded_generator_is_deterministic :
  forall (a : Z) (w1 w2 : world rng db),
    (forall inputs : list (Z * Z),
        let gen := fun '(score, rank) =>
          GenerateFrequencyInserts.generate_interview_metrics score rank in
        eval (seeded_run gen a inputs) w1 = eval (seeded_run gen a inputs) w2
        /\ length (eval (seeded_run gen a inputs) w1) = length inputs)
    /\ (forall inputs : list (Z * Z),
        let gen := fun '(score, rank) =>
          RestoreGlobal.generate_global_metrics score rank in
        eval (seeded_run gen a inputs) w1 = eval (seeded_run gen a inputs) w2
        /\ length (eval (seeded_run gen a inputs) w1) = length inputs)
    /\ (forall inputs : list (Z * Z * Scope),
        let gen := fun '(score, rank, scope) =>
          CompanyStats.generate_realistic_metrics score scope rank in
        eval (seeded_run gen a inputs) w1 = eval (seeded_run gen a inputs) w2
        /\ length (eval (seeded_run gen a inputs) w1) = length inputs)
    /\ (let planned :=
          snd (planned_inserts GenerateFrequencyInserts.batch_values
                               GenerateFrequencyInserts.insert_cmd 10
                               GenerateFrequencyInserts.frequency_data
                               (random_seed 42)) in
        let checks :=
          [GenerateFrequencyInserts.top_cmd;
           GenerateFrequencyInserts.count_cmd] in
        exists k1 k2 tail1 tail2,
          w_commands (snd (GenerateFrequencyInserts.script w1))
          = tail1 ++ rev (take k1 planned)
              ++ GenerateFrequencyInserts.clear_cmd :: w_commands w1
          /\ w_commands (snd (GenerateFrequencyInserts.script w2))
             = tail2 ++ rev (take k2 planned)
                 ++ GenerateFrequencyInserts.clear_cmd :: w_commands w2
          /\ (tail1 = [] \/ tail1 = checks)
          /\ (tail2 = [] \/ tail2 = checks)).
Proof.
  intros a w1 w2.
  split; [|split; [|split]].
  - intros inputs gen. rewrite !seeded_run_from_seed.
    split; [reflexivity|apply for_each_length].
  - intros inputs gen. rewrite !seeded_run_from_seed.
    split; [reflexivity|apply for_each_length].
  - intros inputs gen. rewrite !seeded_run_from_seed.
    split; [reflexivity|apply for_each_length].
  - intros planned checks.
    assert (Hrun : forall w : world rng db, exists k tail,
               w_commands (snd (GenerateFrequencyInserts.script w))
               = tail ++ rev (take k planned)
                   ++ GenerateFrequencyInserts.clear_cmd :: w_commands w
               /\ (tail = [] \/ tail = checks)).
    { intros w. unfold GenerateFrequencyInserts.script,
        GenerateFrequencyInserts.main. unfold bind at 1, seed.
      match goal with
      | |- context [GenerateFrequencyInserts.main_on ?d ?b ?w0] =>
          pose proof (interview_main_commands d b w0) as Hm
      end.
      cbv zeta in Hm. cbn [w_rng w_db w_commands] in Hm. rewrite Hm.
      destruct (fst (fst (mysql_run _ (w_db w)))).
      - eexists _, checks. split; [reflexivity|now right].
      - exists 0%nat, []. split; [reflexivity|now left]. }
    destruct (Hrun w1) as (k1 & t1 & H1' & Ht1).
    destruct (Hrun w2) as (k2 & t2 & H2' & Ht2).
    exists k1, k2, t1, t2. auto.
Qed.
End Determinism.

(** ** Batches of the emitters (C3) *)

Section Rendering.
Context {env : Type} `{Outside env} `{IsoParser}.

Lemma render_problem_renders (i : nat) (it : item) :
  renders it = true -> exists v, FetchCodetop.render_problem i it = inl v.
Proof.
  unfold renders, FetchCodetop.render_problem.
  destruct (leetcode it) as [| |info]; [eauto|discriminate|].
  destruct (title info); [eauto|discriminate|eauto].
Qed.

(** No record yields more than one value, and every record that renders
    yields one. *)
Lemma problem_values_length (i : nat) (problems : list item)
      (w : fetch_world env) :
  (length (fst (FetchCodetop.problem_values i problems w))
   <= length problems)%nat
  /\ (forallb renders problems = true ->
      length (fst (FetchCodetop.problem_values i problems w))
      = length problems).
Proof.
  revert i w. induction problems as [|it rest IH]; intros i w.
  - split; [reflexivity|reflexivity].
  - cbn [FetchCodetop.problem_values forallb].
    destruct (FetchCodetop.render_problem i it) as [v|e] eqn:Hr.
    + unfold bind, ret. specialize (IH (S i) w).
      destruct (FetchCodetop.problem_values (S i) rest w) as [values w'].
      cbn [fst length] in *. destruct IH as [Hle Heq]. split; [lia|].
      intros Hall. apply andb_prop in Hall as [_ Hall]. now rewrite Heq.
    + unfold bind, FetchCodetop.print.
      match goal with
      | |- context [FetchCodetop.problem_values (S i) rest ?w1] =>
          specialize (IH (S i) w1);
          destruct (FetchCodetop.problem_values (S i) rest w1) as [values w']
      end.
      cbn [fst length] in *. destruct IH as [Hle _]. split; [lia|].
      intros Hall. apply andb_prop in Hall as [Hit _].
      destruct (render_problem_renders i it Hit) as [v Hv]. congruence.
Qed.
End Rendering.

(** A record whose ["leetcode"] key holds [null] is reported and left
    out of the values. *)
Example broken_record_is_skipped :
  let run := FetchCodetop.problem_values
               0 [two_sum; broken_item; two_sum]
               (Doubles.fetch_start (GetRaised "unused")) in
  length (fst run) = 2%nat
  /\ fw_stdout (snd run)
     = ["处理第2个题目时出错: 'NoneType' object has no attribute 'get'"%string].
Proof. vm_compute. split; reflexivity. Qed.

Section FileEmitter.
Context {env : Type} `{Outside env} `{IsoParser}.

(** The problem emitter with at least one rendered value: four preamble
    lines, then one INSERT statement per batch of 100 values. *)
Lemma problem_sql_statements (problems : list item) (w : fetch_world env) :
  let values :=
    fst (FetchCodetop.problem_values 0 problems (snd (FetchCodetop.now w))) in
  values <> [] ->
  exists preamble,
    length preamble = 4%nat
    /\ eval (FetchCodetop.generate_problem_sql_lines problems) w
       = preamble
           ++ concat (map problem_statement
                          (batches FetchCodetop.batch_size values)).
Proof.
  cbv zeta. intros Hne.
  unfold eval, FetchCodetop.generate_problem_sql_lines, bind, ret.
  destruct (FetchCodetop.now w) as [t w1]. cbn [snd] in *.
  destruct (FetchCodetop.problem_values 0 problems w1) as [values w2].
  cbn [fst] in *.
  eexists [_; _; _; _]. split; [reflexivity|].
  rewrite <- (emitter_statements FetchCodetop.batch_size values).
  - reflexivity.
  - unfold FetchCodetop.batch_size. lia.
  - exact Hne.
Qed.
End FileEmitter.

Section DirectEmitters.
Context {rng db : Type} `{Random rng} `{MySql db}.

Lemma interview_run_batched data B (w : world rng db) :
  (0 < B)%nat ->
  let cleared := mysql_run GenerateFrequencyInserts.clear_cmd (w_db w) in
  let planned :=
    planned_inserts GenerateFrequencyInserts.batch_values
                    GenerateFrequencyInserts.insert_cmd B data (w_rng w) in
  fst (fst cleared) = true ->
  forallb fst (answers (snd planned) (snd cleared)) = true ->
  w_commands (snd (GenerateFrequencyInserts.main_on data B w))
  = [GenerateFrequencyInserts.top_cmd; GenerateFrequencyInserts.count_cmd]
      ++ rev (map GenerateFrequencyInserts.insert_cmd (fst planned))
      ++ GenerateFrequencyInserts.clear_cmd :: w_commands w
  /\ batched_as B
       (eval (GenerateFrequencyInserts.batch_values data) (w_rng w))
       (fst planned).
Proof.
  intros HB cleared planned Hclear Hall.
  pose proof (interview_main_commands data B w) as Hm. cbv zeta in Hm.
  fold cleared planned in Hm. rewrite Hclear in Hm.
  rewrite (sent_all_successes _ Hall), answers_length in Hm.
  rewrite firstn_all in Hm.
  split; [exact Hm|].
  apply (values_batched _ data B (w_rng w) HB).
Qed.

Lemma restore_run_batched data B (w : world rng db) :
  (0 < B)%nat ->
  let clear := ("SET NAMES utf8mb4; " ++ RestoreGlobal.clear_cmd)%string in
  let cleared := mysql_run clear (w_db w) in
  let planned :=
    planned_inserts RestoreGlobal.batch_values restore_command B data
                    (random_seed 42) in
  fst (fst cleared) = true ->
  forallb fst (answers (snd planned) (snd cleared)) = true ->
  (exists checks,
      w_commands (snd (RestoreGlobal.main_on data B w))
      = checks ++ rev (map restore_command (fst planned))
          ++ clear :: w_commands w)
  /\ batched_as B
       (eval (RestoreGlobal.batch_values data) (random_seed 42))
       (fst planned).
Proof.
  intros HB clear cleared planned Hclear Hall.
  destruct (restore_main_commands data B w) as (checks & Hm & _).
  cbv zeta in Hm. fold clear cleared planned in Hm. rewrite Hclear in Hm.
  rewrite (sent_all_successes _ Hall), answers_length in Hm.
  rewrite firstn_all in Hm.
  split; [exists checks; exact Hm|].
  apply (values_batched _ data B (random_seed 42) HB).
Qed.
End DirectEmitters.




(** ** A failed batch (C5) *)

(** C5, as amended. Every batch loop prints one line per batch it sends
    and a line with the client's error text for every batch that fails;
    nothing but the INSERT commands is sent, so no batch is undone.  The
    company loop sends every batch whatever the client answers.  The loops
    of the two global scripts send the planned batches up to the first
    failure and no batch after it. *)
Theorem C5_failed_batch_is_logged :
  forall (rng db : Type) `{Random rng} `{MySql db} (w : world rng db)
         (total : Z),
    (forall (name : string) (todo : list (nat * list string)),
        exists lines,
          let cmds := map CompanyStats.company_insert_cmd (map snd todo) in
          let w' := snd (CompanyStats.insert_batches name todo total w) in
          w_commands w' = rev cmds ++ w_commands w
          /\ w_stdout w' = w_stdout w ++ lines
          /\ length lines = length todo
          /\ (forall out, In (false, out) (answers cmds (w_db w)) ->
              In ("  ✗ Failed batch for " ++ name ++ ": " ++ out)%string
                 lines))
    /\ (forall (B : nat) (todo : list (nat * list (Z * Z))),
          exists lines,
            let cmds :=
              map GenerateFrequencyInserts.insert_cmd
                  (eval (for_each GenerateFrequencyInserts.batch_values
                                  (map snd todo)) (w_rng w)) in
            let results := answers cmds (w_db w) in
            let sent := sent_until_failure results in
            let w' :=
              snd (GenerateFrequencyInserts.insert_loop B todo total w) in
            w_commands w' = rev (take sent cmds) ++ w_commands w
            /\ w_stdout w' = w_stdout w ++ lines
            /\ length lines = sent
            /\ (forall out, In (false, out) (take sent results) ->
                exists n,
                  In ("✗ Failed to insert batch " ++ str_int n ++ ": "
                        ++ out)%string lines))
    /\ (forall (B : nat) (todo : list (nat * list (Z * Z))),
          exists lines,
            let cmds :=
              map restore_command
                  (eval (for_each RestoreGlobal.batch_values (map snd todo))
                        (w_rng w)) in
            let results := answers cmds (w_db w) in
            let sent := sent_until_failure results in
            let w' := snd (RestoreGlobal.insert_loop B todo total w) in
            w_commands w' = rev (take sent cmds) ++ w_commands w
            /\ w_stdout w' = w_stdout w ++ lines
            /\ length lines = sent
            /\ (forall out, In (false, out) (take sent results) ->
                In ("✗ 插入批次失败: " ++ out)%string lines)).
Proof.
  intros rng db Hr Hd w total. split; [|split].
  - intros name todo. apply company_insert_batches.
  - intros B todo. apply interview_insert_loop.
  - intros B todo.
    destruct (restore_insert_loop B todo total w)
      as (lines & Hc & Hs & Hn & _ & Hf).
    exists lines. cbv zeta in *. auto.
Qed.

(** Five values in batches of two through the company loop, against a
    client that fails the second command: all three batches are sent and
    the failure is printed. *)
Lemma C5_failed_batch_is_logged_witness :
  let todo := batches 2 ["(1)"; "(2)"; "(3)"; "(4)"; "(5)"]%string in
  let w := Doubles.start [] [1%nat] in
  let w' := snd (CompanyStats.insert_batches "bytedance" todo 0 w) in
  length (w_commands w') = 3%nat
  /\ In "  ✗ Failed batch for bytedance: ERROR 2002 (HY000)"%string
        (w_stdout w').
Proof.
  intros todo w w'.
  destruct (C5_failed_batch_is_logged (list Z) Doubles.fake_db w 0)
    as (Hcompany & _).
  destruct (Hcompany "bytedance"%string todo) as (lines & Hc & Hs & _ & Hf).
  cbv zeta in Hc, Hs, Hf. fold w' in Hc, Hs. split.
  - rewrite Hc. reflexivity.
  - rewrite Hs. apply in_or_app. right. apply Hf.
    vm_compute. right. left. reflexivity.
Defined.

(** C5, as stated, fails: [generate_frequency_inserts.py], run against a
    client that fails the first INSERT, reports the failure, sends none of
    the nine batches that remain, and goes on to its two checks. *)
Lemma C5_failed_batch_ends_loop_counterexample :
  let w := snd (GenerateFrequencyInserts.script (Doubles.start [] [1%nat])) in
  let planned :=
    snd (planned_inserts GenerateFrequencyInserts.batch_values
                         GenerateFrequencyInserts.insert_cmd 10
                         GenerateFrequencyInserts.frequency_data
                         (random_seed 42 : list Z)) in
  length planned = 10%nat
  /\ rev (w_commands w)
     = GenerateFrequencyInserts.clear_cmd :: take 1 planned
         ++ [GenerateFrequencyInserts.count_cmd;
             GenerateFrequencyInserts.top_cmd]
  /\ In "✗ Failed to insert batch 1: ERROR 2002 (HY000)"%string (w_stdout w).
Proof.
  vm_compute. split; [reflexivity|split; [reflexivity|]].
  right. right. left. reflexivity.
Qed.

(** * Further properties *)

(** ** Ranges of the generated metrics *)

Ltac rating_ranges :=
  step_draws; range_of_draws;
  unfold in_rangeQ, interview_rating_range, global_rating_range,
    realistic_rating_range;
  cbn [fst snd avg_difficulty_rating CompanyStats.is_company] in *;
  repeat match goal with
         | E : (?r <=? ?n) = _ |- context [?r <=? ?n] => rewrite E
         end;
  cbn [fst snd];
  first [ apply py_round1_range; [literal_Q | literal_Q | assumption]
        | discriminate ].

Section Ratings.
Context {rng : Type} `{RandomLaws rng}.

Lemma interview_rating_in_range score rank s :
  in_rangeQ (interview_rating_range rank)
    (avg_difficulty_rating
       (eval (GenerateFrequencyInserts.generate_interview_metrics score rank)
             s)).
Proof.
  unfold eval, GenerateFrequencyInserts.generate_interview_metrics, bind, ret.
  rating_ranges.
Qed.

Lemma global_rating_in_range score rank s :
  in_rangeQ (global_rating_range rank)
    (avg_difficulty_rating
       (eval (RestoreGlobal.generate_global_metrics score rank) s)).
Proof.
  unfold eval, RestoreGlobal.generate_global_metrics, bind, ret.
  rating_ranges.
Qed.

Lemma realistic_rating_in_range score scope rank s :
  in_rangeQ (realistic_rating_range scope)
    (avg_difficulty_rating
       (eval (CompanyStats.generate_realistic_metrics score scope rank) s)).
Proof.
  unfold eval, CompanyStats.generate_realistic_metrics, bind, ret.
  destruct scope; rating_ranges.
Qed.
End Ratings.

Lemma rating_ranges_rise (r1 r2 : Z) :
  r1 <= r2 ->
  (fst (interview_rating_range r1) <= fst (interview_rating_range r2))%Q
  /\ (snd (interview_rating_range r1) <= snd (interview_rating_range r2))%Q
  /\ (fst (global_rating_range r1) <= fst (global_rating_range r2))%Q
  /\ (snd (global_rating_range r1) <= snd (global_rating_range r2))%Q.
Proof.
  intros Hr. unfold interview_rating_range, global_rating_range.
  destruct (Z.leb_spec r1 20), (Z.leb_spec r1 50),
    (Z.leb_spec r2 20), (Z.leb_spec r2 50);
    try lia; cbn [fst snd]; repeat split; discriminate.
Qed.

(** X1. Under the documented ranges of [uniform], each generator returns a
    difficulty rating inside the range it picks: by rank tier (up to 20,
    up to 50, beyond) in the two global generators, by scope in the
    company and department generator.  Both ends of the range of a global
    generator never fall when the rank grows. *)
Theorem X1_rating_drawn_from_rank_tier :
  forall (rng : Type) `{RandomLaws rng}
         (score rank : Z) (scope : Scope) (s : rng),
    in_rangeQ (interview_rating_range rank)
      (avg_difficulty_rating
         (eval (GenerateFrequencyInserts.generate_interview_metrics
                  score rank) s))
    /\ in_rangeQ (global_rating_range rank)
         (avg_difficulty_rating
            (eval (RestoreGlobal.generate_global_metrics score rank) s))
    /\ in_rangeQ (realistic_rating_range scope)
         (avg_difficulty_rating
            (eval (CompanyStats.generate_realistic_metrics score scope rank)
                  s))
    /\ (forall r1 r2, r1 <= r2 ->
        (fst (interview_rating_range r1) <= fst (interview_rating_range r2))%Q
        /\ (snd (interview_rating_range r1)
            <= snd (interview_rating_range r2))%Q
        /\ (fst (global_rating_range r1) <= fst (global_rating_range r2))%Q
        /\ (snd (global_rating_range r1) <= snd (global_rating_range r2))%Q).
Proof.
  intros. split; [|split; [|split]].
  - apply interview_rating_in_range.
  - apply global_rating_in_range.
  - apply realistic_rating_in_range.
  - apply rating_ranges_rise.
Qed.

(** A run of the tape generator at a rank of the middle tier. *)
Lemma X1_rating_drawn_from_rank_tier_witness :
  in_rangeQ (2.5, 4.0)%Q
    (avg_difficulty_rating
       (eval (GenerateFrequencyInserts.generate_interview_metrics 202 30)
             (random_seed 42 : list Z))).
Proof.
  pose proof (@X1_rating_drawn_from_rank_tier
                (list Z) _ tape_random_laws 202 30 GLOBAL (random_seed 42))
    as [Ha _].
  exact Ha.
Defined.

Lemma in_range_widen (lo hi lo' hi' x : Q) :
  (lo' <= lo)%Q -> (hi <= hi')%Q -> (lo <= x <= hi)%Q -> (lo' <= x <= hi')%Q.
Proof.
  intros Hl Hh [H1 H2].
  split; [now apply Qle_trans with lo|now apply Qle_trans with hi].
Qed.

Ltac widen_Q H :=
  eapply in_range_widen; [| |exact H]; literal_Q.

(** X2. Under the documented ranges of [randint] and [uniform], every
    bundle of the three generators has a difficulty rating between 2.0 and
    4.5, a success rate between 25 and 92 and a solve time between 10 and
    55 minutes: ratings stay on the scale from 1 to 5, rates are
    percentages, times are positive. *)
Theorem X2_bundle_fields_within_envelope :
  forall (rng : Type) `{RandomLaws rng}
         (score rank : Z) (scope : Scope) (s : rng),
    within_envelope
      (eval (GenerateFrequencyInserts.generate_interview_metrics score rank) s)
    /\ within_envelope
         (eval (RestoreGlobal.generate_global_metrics score rank) s)
    /\ within_envelope
         (eval (CompanyStats.generate_realistic_metrics score scope rank) s).
Proof.
  intros rng Hr Hl score rank scope s. split; [|split].
  - pose proof (interview_rating_in_range score rank s) as Hrate.
    destruct (interview_metrics_follow_table score rank s) as [Hs Ht].
    unfold within_envelope, in_rangeQ, in_rangeZ, interview_rating_range in *.
    split; [|split].
    + destruct (rank <=? 20); [|destruct (rank <=? 50)];
        cbn [fst snd] in Hrate; widen_Q Hrate.
    + destruct (tier_of _); cbn [fst snd success_range interview_table] in Hs;
        widen_Q Hs.
    + destruct (tier_of _); cbn [fst snd time_range interview_table] in Ht;
        lia.
  - pose proof (global_rating_in_range score rank s) as Hrate.
    destruct (global_metrics_follow_table score rank s) as [Hs Ht].
    unfold within_envelope, in_rangeQ, in_rangeZ, global_rating_range in *.
    split; [|split].
    + destruct (rank <=? 20); [|destruct (rank <=? 50)];
        cbn [fst snd] in Hrate; widen_Q Hrate.
    + destruct (tier_of _); cbn [fst snd success_range global_table] in Hs;
        widen_Q Hs.
    + destruct (tier_of _); cbn [fst snd time_range global_table] in Ht; lia.
  - pose proof (realistic_rating_in_range score scope rank s) as Hrate.
    destruct (realistic_metrics_follow_table score scope rank s) as [Hs Ht].
    unfold within_envelope, in_rangeQ, in_rangeZ, realistic_rating_range in *.
    split; [|split].
    + destruct scope; cbn [fst snd] in Hrate; widen_Q Hrate.
    + destruct (tier_of _); cbn [fst snd success_range realistic_table] in Hs;
        widen_Q Hs.
    + destruct (tier_of _); cbn [fst snd time_range realistic_table] in Ht;
        lia.
Qed.

Lemma X2_bundle_fields_within_envelope_witness :
  within_envelope
    (eval (RestoreGlobal.generate_global_metrics 976 1)
          (random_seed 42 : list Z)).
Proof.
  pose proof (@X2_bundle_fields_within_envelope
                (list Z) _ tape_random_laws 976 1 GLOBAL (random_seed 42))
    as (_ & Hb & _).
  exact Hb.
Defined.

(** ** Percentiles on the ranks of the data *)



(** X4. The company and department generator clamps its percentile: for
    every rank, also beyond 100 and below 1, it is [max(1, 101 - rank)],
    so never below 1. *)
Theorem X4_realistic_percentile_clamped :
  forall (rng : Type) `{Random rng}
         (score rank : Z) (scope : Scope) (s : rng),
    let p := pynum_value
               (percentile
                  (eval (CompanyStats.generate_realistic_metrics
                           score scope rank) s)) in
    (p == inject_Z (Z.max 1 (101 - rank)))%Q /\ (1 <= p)%Q.
Proof.
  intros rng Hr score rank scope s p.
  assert (Hp : (p == inject_Z (Z.max 1 (101 - rank)))%Q)
    by apply realistic_metrics_percentile_clamped.
  split; [exact Hp|]. rewrite Hp.
  change 1%Q with (inject_Z 1). rewrite <- Zle_Qle. lia.
Qed.

(** ** Frequencies per company and department *)

Lemma multiplier_bounds (table : list (string * Q)) (lo hi : Q) (name : string) :
  Forall (fun entry => (lo <= snd entry <= hi)%Q) table ->
  (lo <= 0.8 <= hi)%Q ->
  (lo <= default 0.8%Q
            ((list_to_map table : gmap string Q) !! name) <= hi)%Q.
Proof.
  intros Hall Hdef.
  destruct ((list_to_map table : gmap string Q) !! name) as [q|] eqn:Hq;
    [|exact Hdef].
  apply elem_of_list_to_map_2 in Hq.
  rewrite Forall_forall in Hall. apply (Hall _ Hq).
Qed.

Lemma company_multiplier_bounds (name : string) :
  (0.7 <= default 0.8%Q (CompanyStats.company_multipliers !! name) <= 1.2)%Q.
Proof.
  apply multiplier_bounds; [|split; discriminate].
  repeat constructor; cbn; discriminate.
Qed.

Lemma dept_multiplier_bounds (name : string) :
  (0.6 <= default 0.8%Q (CompanyStats.dept_multipliers !! name) <= 1.3)%Q.
Proof.
  apply multiplier_bounds; [|split; discriminate].
  repeat constructor; cbn; discriminate.
Qed.

(** A product of a count and two factors between known bounds, truncated:
    between the truncated products of the bounds. *)
Lemma scaled_count_bounds (f : Z) (m v ml mh vl vh : Q) :
  0 <= f -> (0 <= ml)%Q -> (0 <= vl)%Q ->
  (ml <= m <= mh)%Q -> (vl <= v <= vh)%Q ->
  Qfloor (inject_Z f * ml * vl) <= py_int (inject_Z f * m * v)
  <= Qfloor (inject_Z f * mh * vh).
Proof.
  intros Hf Hml Hvl [Hm1 Hm2] [Hv1 Hv2].
  assert (Hf' : (0 <= inject_Z f)%Q)
    by (change 0%Q with (inject_Z 0); now rewrite <- Zle_Qle).
  assert (Hm0 : (0 <= m)%Q) by (now apply Qle_trans with ml).
  assert (Hlow : (inject_Z f * ml * vl <= inject_Z f * m * v)%Q).
  { apply Qmult_le_compat_nonneg.
    - split; [now apply Qmult_le_0_compat|].
      rewrite !(Qmult_comm (inject_Z f)).
      now apply Qmult_le_compat_r.
    - split; assumption. }
  assert (Hhigh : (inject_Z f * m * v <= inject_Z f * mh * vh)%Q).
  { apply Qmult_le_compat_nonneg.
    - split; [now apply Qmult_le_0_compat|].
      rewrite !(Qmult_comm (inject_Z f)).
      now apply Qmult_le_compat_r.
    - split; [now apply Qle_trans with vl|assumption]. }
  assert (Hpos : (0 <= inject_Z f * m * v)%Q).
  { apply Qle_trans with (inject_Z f * ml * vl)%Q; [|exact Hlow].
    apply Qmult_le_0_compat; [now apply Qmult_le_0_compat|assumption]. }
  unfold py_int. apply Qle_bool_iff in Hpos. rewrite Hpos.
  split; now apply Qfloor_resp_le.
Qed.

Section Variation.
Context {rng : Type} `{RandomLaws rng}.

End Variation.


(** ** Tags inferred from a title *)

Lemma classify_tags_by_rules (title : string) (d : FetchCodetop.difficulty) :
  FetchCodetop.classify_tags title d
  = match fired keyword_rules title with
    | [] => [default_tag d]
    | tags => tags
    end.
Proof.
  unfold FetchCodetop.classify_tags, fired, keyword_rules.
  cbn [map concat fst snd]. rewrite !app_nil_r.
  destruct (_ ++ _); [destruct d|]; reflexivity.
Qed.

Lemma fired_sublist (rules : list (list string * string)) (title : string) :
  sublist (fired rules title) (map snd rules).
Proof.
  induction rules as [|[words tag] rules IH]; [constructor|].
  unfold fired in *. cbn [map concat fst snd].
  destruct (FetchCodetop.any_in words title); cbn [app].
  - now constructor.
  - now apply sublist_cons.
Qed.

Lemma fired_tag (rules : list (list string * string)) (title tag : string) :
  In tag (fired rules title)
  <-> exists words, In (words, tag) rules
                    /\ FetchCodetop.any_in words title = true.
Proof.
  induction rules as [|[words t] rules IH].
  - cbn. split; [intros []|intros (w & [] & _)].
  - unfold fired in *. cbn [map concat fst snd]. rewrite in_app_iff, IH.
    split.
    + intros [Hin|(w & Hw & Ha)].
      * destruct (FetchCodetop.any_in words title) eqn:Hany;
          [|destruct Hin].
        destruct Hin as [<-|[]]. exists words. split; [now left|exact Hany].
      * exists w. split; [now right|exact Ha].
    + intros (w & [Heq|Hw] & Ha).
      * injection Heq as <- <-. left. rewrite Ha. now left.
      * right. now exists w.
Qed.

Lemma keyword_tags_distinct : NoDup keyword_tags.
Proof. apply (bool_decide_unpack _). vm_compute. reflexivity. Qed.

(** X6. [classify_tags] never returns an empty list and never repeats a
    tag.  Either some keyword rule fires, and the result is the tags of
    the rules that fire, in the order of the rules; or none fires, and the
    result is the one default tag of the difficulty.  A keyword tag is in
    the result exactly when a word of one of its rules occurs in the
    title. *)
Theorem X6_classify_tags_shape :
  forall (title : string) (d : FetchCodetop.difficulty),
    let tags := FetchCodetop.classify_tags title d in
    tags <> []
    /\ NoDup tags
    /\ ((tags = fired keyword_rules title /\ sublist tags keyword_tags)
        \/ (tags = [default_tag d] /\ fired keyword_rules title = []))
    /\ (forall tag, In tag keyword_tags ->
        (In tag tags
         <-> exists words, In (words, tag) keyword_rules
                           /\ FetchCodetop.any_in words title = true)).
Proof.
  intros title d tags. subst tags. rewrite classify_tags_by_rules.
  pose proof (fired_sublist keyword_rules title) as Hsub.
  fold keyword_tags in Hsub.
  destruct (fired keyword_rules title) as [|t ts] eqn:Hf.
  - split; [discriminate|]. split; [apply NoDup_singleton|].
    split; [right; split; reflexivity|].
    intros tag Hk. rewrite <- fired_tag, Hf. split; [|intros []].
    intros [<-|[]]. destruct d; cbn in Hk;
      repeat destruct Hk as [Hk|Hk]; try discriminate; destruct Hk.
  - split; [discriminate|].
    split; [exact (sublist_NoDup _ _ keyword_tags_distinct Hsub)|].
    split; [left; split; [reflexivity|exact Hsub]|].
    intros tag _. rewrite <- Hf. apply fired_tag.
Qed.

(** ** Quotes in titles *)

Lemma replace_quote_paired (t : string) :
  quotes_paired (replace_char "'" "''" t) = true
  /\ unescape (replace_char "'" "''" t) = t.
Proof.
  induction t as [|a t [IHp IHu]]; [split; reflexivity|].
  cbn [replace_char]. destruct (Ascii.eqb a "'") eqn:Ha.
  - apply Ascii.eqb_eq in Ha. subst a.
    cbv [String.append]. fold (replace_char "'" "''" t).
    cbn [quotes_paired unescape]. cbn [Ascii.eqb Bool.eqb andb].
    rewrite IHp, IHu. split; reflexivity.
  - cbn [quotes_paired unescape]. rewrite Ha, IHp, IHu. split; reflexivity.
Qed.

Lemma replace_quote_absent (t : string) :
  contains "'" t = false -> replace_char "'" "''" t = t.
Proof.
  induction t as [|a t IH]; [reflexivity|].
  cbn [contains String.prefix replace_char].
  destruct (Ascii.eqb_spec a "'") as [->|Hne].
  - intros Hc. cbn in Hc. destruct t; discriminate.
  - destruct (ascii_dec "'" a) as [Heq|_]; [now subst|].
    cbn [orb]. intros Hc. now rewrite (IH Hc).
Qed.

(** The value tuple of a record opens with its title, quotes doubled. *)
Lemma render_problem_title (i : nat) (it : item) (info : leetcode_info)
      (t : string) :
  leetcode it = Present info -> title info = Present t ->
  exists rest,
    FetchCodetop.render_problem i it
    = inl ("('" ++ replace_char "'" "''" t ++ "', '" ++ rest)%string.
Proof.
  intros Hl Ht. unfold FetchCodetop.render_problem. rewrite Hl, Ht.
  eexists. reflexivity.
Qed.



(** ** Records that cannot be rendered *)

Section SkipAndReport.
Context {env : Type} `{Outside env} `{IsoParser}.

Lemma render_problem_fails (i : nat) (it : item) :
  renders it = false -> exists e, FetchCodetop.render_problem i it = inr e.
Proof.
  unfold renders, FetchCodetop.render_problem.
  destruct (leetcode it) as [| |info]; [discriminate|eauto|].
  destruct (title info); [discriminate|eauto|discriminate].
Qed.

(** X8. The first loop of [generate_problem_sql] goes through every
    record: a record whose ["leetcode"] key or whose title is [null] is
    reported with one printed line and skipped, every other record yields
    one value.  So the values and the printed lines together are as many
    as the records; nothing but the console changes. *)
Theorem X8_records_rendered_or_reported :
  forall (i : nat) (problems : list item) (w : fetch_world env),
    let run := FetchCodetop.problem_values i problems w in
    exists errors,
      fw_stdout (snd run) = fw_stdout w ++ errors
      /\ length (fst run) = length (List.filter renders problems)
      /\ length errors
         = length (List.filter (fun it => negb (renders it)) problems)
      /\ (length (fst run) + length errors = length problems)%nat
      /\ fw_env (snd run) = fw_env w
      /\ fw_requests (snd run) = fw_requests w
      /\ fw_files (snd run) = fw_files w.
Proof.
  intros i problems. revert i.
  induction problems as [|it rest IH]; intros i w run; subst run.
  - exists []. cbn. rewrite app_nil_r. repeat split; reflexivity.
  - cbn [FetchCodetop.problem_values List.filter].
    destruct (renders it) eqn:Hr.
    + destruct (render_problem_renders i it Hr) as [v ->].
      unfold bind, ret. destruct (IH (S i) w) as (errors & Hs & Hv & He & Hn & Hrest).
      destruct (FetchCodetop.problem_values (S i) rest w) as [values w'].
      cbn [fst snd length negb] in *.
      exists errors. repeat split; try tauto; lia.
    + destruct (render_problem_fails i it Hr) as [e ->].
      unfold bind, FetchCodetop.print.
      match goal with
      | |- context [FetchCodetop.problem_values (S i) rest ?w1] =>
          destruct (IH (S i) w1) as (errors & Hs & Hv & He & Hn & Hrest);
          destruct (FetchCodetop.problem_values (S i) rest w1) as [values w']
      end.
      cbn [fst snd length negb fw_stdout fw_env fw_requests fw_files] in *.
      eexists (_ :: errors). rewrite Hs, <- app_assoc. cbn [app length].
      repeat split; try tauto; lia.
Qed.
End SkipAndReport.

(** ** Statements of the problem emitter *)

Lemma value_lines_commas (batch : list string) :
  FetchCodetop.value_lines batch
  = match batch with
    | [] => []
    | _ => map (fun v => (v ++ ",")%string) (removelast batch)
             ++ [List.last batch ""%string]
    end.
Proof.
  induction batch as [|v [|v' rest] IH]; [reflexivity|reflexivity|].
  change (FetchCodetop.value_lines (v :: v' :: rest))
    with ((v ++ ",")%string :: FetchCodetop.value_lines (v' :: rest)).
  rewrite IH. reflexivity.
Qed.

Lemma emit_batches_ends (B : nat) (values : list string) :
  (0 < B)%nat -> values <> [] ->
  exists body,
    FetchCodetop.emit_batches B values = body ++ FetchCodetop.upsert_clause.
Proof.
  intros HB Hne. unfold FetchCodetop.emit_batches.
  pose proof (batches_indices values B HB) as Hi.
  destruct (batches B values) as [|b0 rest] eqn:Hb using rev_ind;
    [contradiction|].
  clear IHrest Hi. rewrite map_app, concat_app. cbn [map concat].
  destruct b0 as [i batch]. rewrite app_nil_r.
  unfold FetchCodetop.batch_lines at 2.
  eexists. rewrite !app_assoc. reflexivity.
Qed.

Section Statements.
Context {env : Type} `{Outside env}.

(** X9. When at least one record is rendered, the lines of
    [generate_problem_sql] end with the update clause and its semicolon:
    the last statement is complete.  In every statement each value but
    the last is followed by a comma. *)
Theorem X9_rendered_output_ends_complete :
  forall (problems : list item) (w : fetch_world env),
    fst (FetchCodetop.problem_values 0 problems (snd (FetchCodetop.now w)))
    <> [] ->
    (exists body,
        eval (FetchCodetop.generate_problem_sql_lines problems) w
        = body ++ FetchCodetop.upsert_clause)
    /\ (forall batch : list string,
           batch <> [] ->
           FetchCodetop.value_lines batch
           = map (fun v => (v ++ ",")%string) (removelast batch)
               ++ [List.last batch ""%string]).
Proof.
  intros problems w Hne. split.
  - unfold eval, FetchCodetop.generate_problem_sql_lines, bind, ret.
    destruct (FetchCodetop.now w) as [t w1]. cbn [snd] in *.
    destruct (FetchCodetop.problem_values 0 problems w1) as [values w2].
    cbn [fst] in *.
    destruct (emit_batches_ends FetchCodetop.batch_size values) as [body Hb];
      [unfold FetchCodetop.batch_size; lia|exact Hne|].
    rewrite Hb. eexists. rewrite app_assoc. reflexivity.
  - intros batch Hb. rewrite value_lines_commas.
    destruct batch; [contradiction|reflexivity].
Qed.
End Statements.

Lemma X9_rendered_output_ends_complete_witness :
  exists body,
    eval (FetchCodetop.generate_problem_sql_lines [two_sum])
         (Doubles.fetch_start (GetRaised "unused"))
    = body ++ FetchCodetop.upsert_clause.
Proof.
  destruct (@X9_rendered_output_ends_complete
              Doubles.fake_env _ [two_sum]
              (Doubles.fetch_start (GetRaised "unused")))
    as [Hend _]; [vm_compute; discriminate|exact Hend].
Defined.

(** ** The frequency statement *)

(** X10. [generate_frequency_sql] reads the first fifty records only:
    whatever follows them leaves the text unchanged. *)
Theorem X10_frequency_sql_reads_first_fifty :
  forall `{IsoParser} (problems extra : list item),
    (50 <= length problems)%nat ->
    FetchCodetop.generate_frequency_sql (problems ++ extra)
    = FetchCodetop.generate_frequency_sql problems.
Proof.
  intros parser problems extra Hlen. unfold FetchCodetop.generate_frequency_sql.
  rewrite take_app_le by lia. reflexivity.
Qed.

Lemma X10_frequency_sql_reads_first_fifty_witness :
  FetchCodetop.generate_frequency_sql (repeat two_sum 50 ++ [broken_item])
  = FetchCodetop.generate_frequency_sql (repeat two_sum 50).
Proof.
  apply (@X10_frequency_sql_reads_first_fifty Doubles.simple_parser).
  cbn. lia.
Defined.

(** ** Sorting by frequency and ranking *)

Section SortDesc.
Context {A : Type} (key : A -> Z).

Lemma insert_desc_permutation (x : A) (l : list A) :
  Permutation (insert_desc key x l) (x :: l).
Proof.
  induction l as [|y l IH]; [reflexivity|].
  cbn [insert_desc]. destruct (key x <? key y); [|reflexivity].
  rewrite IH. apply perm_swap.
Qed.

Lemma sort_desc_permutation (l : list A) : Permutation (sort_desc key l) l.
Proof.
  induction l as [|x l IH]; [reflexivity|].
  unfold sort_desc in *. cbn [foldr].
  rewrite insert_desc_permutation. now constructor.
Qed.

Lemma insert_desc_sorted (x : A) (l : list A) :
  StronglySorted (key_descends key) l ->
  StronglySorted (key_descends key) (insert_desc key x l).
Proof.
  induction 1 as [|y l Hs IH Hall]; [repeat constructor|].
  cbn [insert_desc]. destruct (Z.ltb_spec (key x) (key y)) as [Hlt|Hge].
  - constructor; [exact IH|].
    apply List.Forall_forall. intros z Hz.
    apply (Permutation_in _ (insert_desc_permutation x l)) in Hz.
    rewrite List.Forall_forall in Hall.
    destruct Hz as [<-|Hz]; [unfold key_descends; lia|now apply Hall].
  - constructor; [now constructor|].
    constructor; [exact Hge|].
    rewrite List.Forall_forall in Hall |- *. intros z Hz.
    specialize (Hall z Hz). unfold key_descends in *. lia.
Qed.

Lemma sort_desc_sorted (l : list A) :
  StronglySorted (key_descends key) (sort_desc key l).
Proof.
  induction l as [|x l IH]; [constructor|].
  unfold sort_desc in *. cbn [foldr]. now apply insert_desc_sorted.
Qed.

(** Elements with the same key keep their order. *)
Lemma insert_desc_stable (k : Z) (x : A) (l : list A) :
  List.filter (fun y => key y =? k) (insert_desc key x l)
  = List.filter (fun y => key y =? k) (x :: l).
Proof.
  induction l as [|y l IH]; [reflexivity|].
  cbn [insert_desc]. destruct (Z.ltb_spec (key x) (key y)) as [Hlt|Hge];
    [|reflexivity].
  cbn [List.filter] in *. rewrite IH.
  destruct (Z.eqb_spec (key y) k), (Z.eqb_spec (key x) k);
    try reflexivity; lia.
Qed.

Lemma sort_desc_stable (k : Z) (l : list A) :
  List.filter (fun y => key y =? k) (sort_desc key l)
  = List.filter (fun y => key y =? k) l.
Proof.
  induction l as [|x l IH]; [reflexivity|].
  unfold sort_desc in *. cbn [foldr]. rewrite insert_desc_stable.
  cbn [List.filter]. now rewrite IH.
Qed.
End SortDesc.


Lemma enumerate_nth {A : Type} (start : Z) (l : list A) (i : nat) :
  nth_error (enumerate start l) i
  = option_map (fun x => (start + Z.of_nat i, x)) (nth_error l i).
Proof.
  revert start i. induction l as [|x l IH]; intros start [|i];
    cbn [enumerate nth_error option_map]; try reflexivity.
  - now rewrite Z.add_0_r.
  - rewrite IH. destruct (nth_error l i); cbn; [|reflexivity].
    do 2 f_equal. lia.
Qed.

Lemma enumerate_snd {A : Type} (start : Z) (l : list A) :
  map snd (enumerate start l) = l.
Proof.
  revert start. induction l as [|x l IH]; intros start; [reflexivity|].
  cbn [enumerate map snd]. now rewrite IH.
Qed.

Lemma strongly_sorted_nth {A : Type} (R : A -> A -> Prop) (l : list A)
      (i j : nat) (a b : A) :
  StronglySorted R l -> (i < j)%nat ->
  nth_error l i = Some a -> nth_error l j = Some b -> R a b.
Proof.
  intros Hs. revert i j. induction Hs as [|x l Hs IH Hall]; intros i j Hij.
  - destruct i; discriminate.
  - destruct j as [|j]; [lia|]. destruct i as [|i]; cbn [nth_error].
    + intros [= <-] Hb. rewrite List.Forall_forall in Hall.
      apply Hall. eapply nth_error_In; exact Hb.
    + apply IH. lia.
Qed.


(** ** The statistics of the fetch script *)

Lemma tally_bump (d d' : FetchCodetop.difficulty)
      (counts : list (FetchCodetop.difficulty * Z)) :
  tally d (FetchCodetop.bump d' counts)
  = tally d counts + (if bool_decide (d = d') then 1 else 0).
Proof.
  induction counts as [|[e n] counts IH]; cbn [FetchCodetop.bump tally].
  - destruct (bool_decide (d = d')); lia.
  - destruct (bool_decide_reflect (d' = e)) as [->|Hne]; cbn [tally].
    + destruct (bool_decide (d = e)); lia.
    + destruct (bool_decide_reflect (d = e)) as [->|Hde].
      * rewrite bool_decide_eq_false_2 by congruence. lia.
      * exact IH.
Qed.

Lemma bump_keys (d : FetchCodetop.difficulty)
      (counts : list (FetchCodetop.difficulty * Z)) :
  map fst (FetchCodetop.bump d counts)
  = if bool_decide (d ∈ map fst counts) then map fst counts
    else map fst counts ++ [d].
Proof.
  induction counts as [|[e n] counts IH]; [reflexivity|].
  cbn [FetchCodetop.bump map fst].
  destruct (bool_decide_reflect (d = e)) as [->|Hne].
  - rewrite bool_decide_eq_true_2 by (apply elem_of_cons; now left). reflexivity.
  - cbn [map fst]. rewrite IH.
    destruct (bool_decide_reflect (d ∈ map fst counts)) as [Hin|Hnin].
    + rewrite bool_decide_eq_true_2 by (apply elem_of_cons; now right).
      reflexivity.
    + rewrite bool_decide_eq_false_2; [reflexivity|].
      rewrite elem_of_cons. intros [Heq|Hin]; [now apply Hne|now apply Hnin].
Qed.

Lemma bump_distinct (d : FetchCodetop.difficulty)
      (counts : list (FetchCodetop.difficulty * Z)) :
  NoDup (map fst counts) -> NoDup (map fst (FetchCodetop.bump d counts)).
Proof.
  intros Hnd. rewrite bump_keys.
  destruct (bool_decide_reflect (d ∈ map fst counts)) as [Hin|Hnin];
    [exact Hnd|].
  apply NoDup_app. split; [exact Hnd|split; [|apply NoDup_singleton]].
  intros x Hx Hd. apply elem_of_cons in Hd as [->|Hd]; [now apply Hnin|]. now apply elem_of_nil in Hd.
Qed.

Lemma bump_positive (d : FetchCodetop.difficulty)
      (counts : list (FetchCodetop.difficulty * Z)) :
  Forall (fun entry => 0 < snd entry) counts ->
  Forall (fun entry => 0 < snd entry) (FetchCodetop.bump d counts).
Proof.
  induction 1 as [|[e n] counts Hn Hall IH]; cbn [FetchCodetop.bump].
  - repeat constructor.
  - destruct (bool_decide (d = e)); constructor; cbn [snd] in *;
      try assumption; lia.
Qed.

Lemma bump_sum (d : FetchCodetop.difficulty)
      (counts : list (FetchCodetop.difficulty * Z)) :
  sum_counts (FetchCodetop.bump d counts) = sum_counts counts + 1.
Proof.
  induction counts as [|[e n] counts IH]; [reflexivity|].
  cbn [FetchCodetop.bump]. unfold sum_counts in *.
  destruct (bool_decide (d = e)); cbn [foldr snd]; [lia|].
  rewrite IH. lia.
Qed.

(** The histogram loop, started from any dict. *)
Lemma difficulty_count_from (problems : list item)
      (start counts : list (FetchCodetop.difficulty * Z)) :
  FetchCodetop.difficulty_count problems start = Some counts ->
  NoDup (map fst start) ->
  Forall (fun entry => 0 < snd entry) start ->
  NoDup (map fst counts)
  /\ Forall (fun entry => 0 < snd entry) counts
  /\ (forall d, tally d counts = tally d start + occurrences d problems)
  /\ sum_counts counts = sum_counts start + Z.of_nat (length problems)
  /\ Forall (fun it => leetcode it <> Null) problems.
Proof.
  revert start. induction problems as [|it rest IH]; intros start Hc Hnd Hpos.
  - injection Hc as <-. unfold occurrences. cbn.
    split; [exact Hnd|split; [exact Hpos|split; [intros d; lia|]]].
    split; [lia|constructor].
  - cbn [FetchCodetop.difficulty_count] in Hc.
    destruct (FetchCodetop.info_of it) as [info|] eqn:Hi; [|discriminate].
    destruct (IH _ Hc (bump_distinct _ _ Hnd) (bump_positive _ _ Hpos))
      as (H1 & H2 & H3 & H4 & H5).
    split; [exact H1|split; [exact H2|split; [|split]]].
    + intros d. rewrite H3, tally_bump. unfold occurrences.
      cbn [List.filter].
      assert (Hit : item_difficulty it
                    = FetchCodetop.difficulty_of (level info))
        by (unfold item_difficulty; now rewrite Hi).
      rewrite Hit.
      destruct (bool_decide_reflect
                  (d = FetchCodetop.difficulty_of (level info)))
        as [->|Hne].
      * rewrite bool_decide_eq_true_2 by reflexivity. cbn [length]. lia.
      * rewrite bool_decide_eq_false_2 by congruence. lia.
    + rewrite H4, bump_sum. cbn [length]. lia.
    + constructor; [|exact H5].
      unfold FetchCodetop.info_of in Hi. intros Hn. now rewrite Hn in Hi.
Qed.

Lemma difficulty_count_raises (problems : list item)
      (start : list (FetchCodetop.difficulty * Z)) :
  FetchCodetop.difficulty_count problems start = None
  <-> exists it, In it problems /\ leetcode it = Null.
Proof.
  revert start. induction problems as [|it rest IH]; intros start.
  - cbn. split; [discriminate|intros (it & [] & _)].
  - cbn [FetchCodetop.difficulty_count].
    destruct (FetchCodetop.info_of it) as [info|] eqn:Hi.
    + rewrite IH. split.
      * intros (x & Hin & Hx). exists x. split; [now right|exact Hx].
      * intros (x & [<-|Hin] & Hx).
        -- unfold FetchCodetop.info_of in Hi. now rewrite Hx in Hi.
        -- now exists x.
    + split; [intros _|reflexivity]. exists it. split; [now left|].
      unfold FetchCodetop.info_of in Hi.
      destruct (leetcode it); [discriminate|reflexivity|discriminate].
Qed.

(** X13. The difficulty histogram of [main]: when the loop ends, every
    difficulty has one entry at most, every entry counts at least one
    record, the entry of a difficulty is the number of records of that
    difficulty, and the entries add up to the number of records.  The
    loop raises exactly when some record holds [null] under its
    ["leetcode"] key. *)
Theorem X13_difficulty_histogram_counts_records :
  forall problems : list item,
    match FetchCodetop.difficulty_count problems [] with
    | Some counts =>
        NoDup (map fst counts)
        /\ Forall (fun entry => 0 < snd entry) counts
        /\ (forall d, tally d counts = occurrences d problems)
        /\ sum_counts counts = Z.of_nat (length problems)
        /\ (length counts <= 3)%nat
        /\ Forall (fun it => leetcode it <> Null) problems
    | None => exists it, In it problems /\ leetcode it = Null
    end.
Proof.
  intros problems.
  destruct (FetchCodetop.difficulty_count problems []) as [counts|] eqn:Hc.
  - destruct (difficulty_count_from problems [] counts Hc)
      as (H1 & H2 & H3 & H4 & H5); [constructor|constructor|].
    split; [exact H1|split; [exact H2|split; [exact H3|]]].
    split; [exact H4|split; [|exact H5]].
    rewrite <- (length_map fst).
    apply (submseteq_length (map fst counts)
             [FetchCodetop.EASY; FetchCodetop.MEDIUM; FetchCodetop.HARD]).
    apply NoDup_submseteq; [exact H1|].
    intros d _. destruct d; set_solver.
  - now apply difficulty_count_raises in Hc.
Qed.

(** ** A whole run of the fetch script *)

Section FetchRun.
Context {env : Type} `{Outside env} `{IsoParser}.

Lemma same_traffic_refl (w : fetch_world env) : same_traffic w w.
Proof. split; reflexivity. Qed.

Lemma same_traffic_trans (w1 w2 w3 : fetch_world env) :
  same_traffic w1 w2 -> same_traffic w2 w3 -> same_traffic w1 w3.
Proof. intros [H1 H2] [H3 H4]. split; congruence. Qed.

Lemma print_traffic (line : string) (w : fetch_world env) :
  same_traffic w (snd (FetchCodetop.print line w)).
Proof. split; reflexivity. Qed.

Lemma now_traffic (w : fetch_world env) :
  same_traffic w (snd (FetchCodetop.now w)).
Proof.
  unfold FetchCodetop.now. destruct (datetime_now (fw_env w)).
  split; reflexivity.
Qed.

Lemma for_each_traffic {A B : Type}
      (body : A -> State (fetch_world env) B) (xs : list A) :
  (forall x w, same_traffic w (snd (body x w))) ->
  forall w, same_traffic w (snd (for_each body xs w)).
Proof.
  intros Hbody. induction xs as [|x xs IH]; intros w.
  - apply same_traffic_refl.
  - rewrite for_each_cons. specialize (Hbody x w).
    destruct (body x w) as [y w1]. specialize (IH w1).
    destruct (for_each body xs w1) as [ys w2]. cbn [snd] in *.
    now apply same_traffic_trans with w1.
Qed.

Lemma problem_values_traffic (i : nat) (problems : list item)
      (w : fetch_world env) :
  same_traffic w (snd (FetchCodetop.problem_values i problems w)).
Proof.
  revert i w. induction problems as [|it rest IH]; intros i w.
  - apply same_traffic_refl.
  - cbn [FetchCodetop.problem_values].
    destruct (FetchCodetop.render_problem i it) as [v|e]; unfold bind, ret.
    + specialize (IH (S i) w).
      destruct (FetchCodetop.problem_values (S i) rest w). exact IH.
    + match goal with
      | |- context [FetchCodetop.print ?l w] =>
          pose proof (print_traffic l w) as Hp;
          destruct (FetchCodetop.print l w) as [u w1]
      end.
      apply same_traffic_trans with w1; [exact Hp|apply IH].
Qed.

Lemma generate_problem_sql_traffic (problems : list item)
      (w : fetch_world env) :
  same_traffic w (snd (FetchCodetop.generate_problem_sql problems w)).
Proof.
  unfold FetchCodetop.generate_problem_sql,
    FetchCodetop.generate_problem_sql_lines, bind, ret.
  pose proof (now_traffic w) as Hn.
  destruct (FetchCodetop.now w) as [t w1].
  pose proof (problem_values_traffic 0 problems w1) as Hv.
  destruct (FetchCodetop.problem_values 0 problems w1) as [values w2].
  cbn [snd] in *. now apply same_traffic_trans with w1.
Qed.

(** The closing report prints only; it raises exactly when the histogram
    loop does. *)
Lemma report_traffic (problems : list item) (w : fetch_world env) :
  same_traffic w (snd (FetchCodetop.report problems w))
  /\ (fst (FetchCodetop.report problems w) = FetchCodetop.Returned
      <-> FetchCodetop.difficulty_count problems [] <> None).
Proof.
  unfold FetchCodetop.report, bind.
  destruct (FetchCodetop.difficulty_count problems []) as [counts|].
  - repeat match goal with
           | |- context [FetchCodetop.print ?l ?w0] =>
               let Hp := fresh "Hp" in
               pose proof (print_traffic l w0) as Hp;
               destruct (FetchCodetop.print l w0) as [[] ?]; cbn [snd] in Hp
           | |- context [for_each ?b ?xs ?w0] =>
               let Hf := fresh "Hf" in
               assert (Hf : same_traffic w0 (snd (for_each b xs w0)))
                 by (apply for_each_traffic; intros [? ?] ?;
                     apply print_traffic);
               destruct (for_each b xs w0) as [? ?]; cbn [snd] in Hf
           end.
    unfold ret. cbn [fst snd]. split; [|split; [discriminate|reflexivity]].
    repeat match goal with
           | Ha : same_traffic ?a ?b |- same_traffic ?a _ =>
               apply same_traffic_trans with b; [exact Ha|]; clear Ha
           end.
    apply same_traffic_refl.
  - unfold ret.
    repeat match goal with
           | |- context [FetchCodetop.print ?l ?w0] =>
               let Hp := fresh "Hp" in
               pose proof (print_traffic l w0) as Hp;
               destruct (FetchCodetop.print l w0) as [[] ?]; cbn [snd] in Hp
           end.
    cbn [fst snd]. split; [|split; [discriminate|congruence]].
    repeat match goal with
           | Ha : same_traffic ?a ?b |- same_traffic ?a _ =>
               apply same_traffic_trans with b; [exact Ha|]; clear Ha
           end.
    apply same_traffic_refl.
Qed.
End FetchRun.

Section FetchMain.
Context {env : Type} `{Outside env} `{IsoParser}.

Lemma difficulty_count_permutation (xs ys : list item) :
  Permutation xs ys ->
  (FetchCodetop.difficulty_count xs [] <> None
   <-> Forall (fun it => leetcode it <> Null) ys).
Proof.
  intros Hp. split.
  - intros Hc. apply List.Forall_forall. intros it Hin Hn. apply Hc.
    apply difficulty_count_raises. exists it.
    split; [|exact Hn]. apply (Permutation_in _ (Permutation_sym Hp) Hin).
  - intros Hall Hc. apply difficulty_count_raises in Hc as (it & Hin & Hn).
    rewrite List.Forall_forall in Hall.
    apply (Hall it); [|exact Hn]. apply (Permutation_in _ Hp Hin).
Qed.

(** What [main] does once the list is sorted. *)
Lemma main_after_sort (problems sorted : list item) (text0 : string)
      (w : fetch_world env) :
  Permutation sorted problems ->
  let run :=
    (let* _ := FetchCodetop.print text0 in
     let* problems_sql := FetchCodetop.generate_problem_sql sorted in
     let frequency_sql := FetchCodetop.generate_frequency_sql sorted in
     let* t := FetchCodetop.now in
     let text := FetchCodetop.complete_sql sorted (strftime_datetime t)
                                           problems_sql frequency_sql in
     let* written := FetchCodetop.write_file FetchCodetop.output_file text in
     if written : bool then FetchCodetop.report sorted
     else ret FetchCodetop.Raised) w in
  fw_requests (snd run) = fw_requests w
  /\ ((fw_files (snd run) = fw_files w /\ fst run = FetchCodetop.Raised)
      \/ exists text,
           fw_files (snd run) = (FetchCodetop.output_file, text) :: fw_files w)
  /\ (fst run = FetchCodetop.Returned
      <-> (exists text,
              fw_files (snd run)
              = (FetchCodetop.output_file, text) :: fw_files w)
          /\ Forall (fun it => leetcode it <> Null) problems).
Proof.
  intros Hperm. cbv zeta. unfold bind, FetchCodetop.write_file.
  pose proof (print_traffic text0 w) as [Hr0 Hf0].
  destruct (FetchCodetop.print text0 w) as [[] w0]. cbn [snd] in Hr0, Hf0.
  pose proof (generate_problem_sql_traffic sorted w0) as [Hr1 Hf1].
  destruct (FetchCodetop.generate_problem_sql sorted w0) as [sql w1].
  cbn [snd] in Hr1, Hf1.
  pose proof (now_traffic w1) as [Hr2 Hf2].
  destruct (FetchCodetop.now w1) as [t w2]. cbn [snd] in Hr2, Hf2.
  destruct (open_write _ _ (fw_env w2)) as [[|] e].
  - match goal with
    | |- context [FetchCodetop.report sorted ?w3] =>
        destruct (report_traffic sorted w3) as [[Hr3 Hf3] Hout];
        destruct (FetchCodetop.report sorted w3) as [o w4]
    end.
    cbn [fst snd fw_requests fw_files] in *.
    rewrite (difficulty_count_permutation sorted problems Hperm) in Hout.
    split; [congruence|]. split.
    + right. eexists. rewrite Hf3, Hf2, Hf1, Hf0. reflexivity.
    + rewrite Hout. split; [|tauto]. intros Hall. split; [|exact Hall].
      eexists. rewrite Hf3, Hf2, Hf1, Hf0. reflexivity.
  - unfold ret. cbn [fst snd fw_requests fw_files].
    split; [congruence|]. split.
    + left. split; [congruence|reflexivity].
    + split; [discriminate|]. intros [[text Ht] _]. exfalso.
      rewrite Hf2, Hf1, Hf0 in Ht. apply (f_equal (@length _)) in Ht.
      cbn [length] in Ht. lia.
Qed.

Lemma fetch_all_problems_effects (w w' : fetch_world env) :
  fw_env w' = fw_env w ->
  let fetched := FetchCodetop.fetch_all_problems w' in
  fst fetched = fst (FetchCodetop.fetch_all_problems w)
  /\ fw_requests (snd fetched) = the_request :: fw_requests w'
  /\ fw_files (snd fetched) = fw_files w'.
Proof.
  intros He. cbv zeta.
  unfold FetchCodetop.fetch_all_problems, FetchCodetop.get,
    FetchCodetop.print, bind, ret, the_request, FetchCodetop.url.
  cbn [fw_env fw_stdout fw_requests fw_files]. rewrite He.
  destruct (requests_get _ (fw_env w)) as [[cause|[status body]] e];
    [cbn; auto|].
  cbn [raise_for_status json].
  destruct status as [cause|]; [cbn; auto|].
  destruct body as [cause|data]; cbn; auto.
Qed.

(** [main], step by step. *)
Lemma main_steps (w : fetch_world env) :
  FetchCodetop.main w
  = let w0 := snd (FetchCodetop.print "=== CodeTop数据获取工具 ===" w) in
    let (data, w1) := FetchCodetop.fetch_all_problems w0 in
    if FetchCodetop.is_falsy data || negb (FetchCodetop.has_list data)
    then (FetchCodetop.Returned,
          snd (FetchCodetop.print "❌ 数据获取失败" w1))
    else
      let problems := default [] (p_list data) in
      let total_count :=
        FetchCodetop.str_field (str_int (Z.of_nat (length problems)))
                               (p_count data) in
      let w2 :=
        snd (FetchCodetop.print
               ("✅ 成功获取 " ++ str_int (Z.of_nat (length problems))
                  ++ " 道题目数据 (总计: " ++ total_count ++ ")") w1) in
      match FetchCodetop.sort_problems problems with
      | None => (FetchCodetop.Raised, w2)
      | Some sorted =>
          (let* _ := FetchCodetop.print "📝 生成SQL文件..." in
           let* problems_sql := FetchCodetop.generate_problem_sql sorted in
           let frequency_sql := FetchCodetop.generate_frequency_sql sorted in
           let* t := FetchCodetop.now in
           let text :=
             FetchCodetop.complete_sql sorted (strftime_datetime t)
                                       problems_sql frequency_sql in
           let* written :=
             FetchCodetop.write_file FetchCodetop.output_file text in
           if written : bool then FetchCodetop.report sorted
           else ret FetchCodetop.Raised) w2
      end.
Proof.
  unfold FetchCodetop.main. unfold bind at 1 2. cbv zeta.
  unfold FetchCodetop.print at 1 2. cbn [snd].
  destruct (FetchCodetop.fetch_all_problems _) as [data w1].
  destruct (_ || _); [reflexivity|].
  unfold bind at 1. unfold FetchCodetop.print at 1. cbn [snd].
  destruct (FetchCodetop.sort_problems _); reflexivity.
Qed.


(** X15. Whatever the network, the clock and the disk answer, a run of
    [main] sends exactly one request, the GET of [fetch_all_problems], and
    writes at most one file, at the fixed output path. *)
Theorem X15_main_one_request_one_file :
  forall w : fetch_world env,
    let finished := snd (FetchCodetop.main w) in
    fw_requests finished = the_request :: fw_requests w
    /\ (fw_files finished = fw_files w
        \/ exists text,
             fw_files finished
             = (FetchCodetop.output_file, text) :: fw_files w).
Proof.
  intros w. cbv zeta. rewrite main_steps. cbv zeta.
  set (w0 := snd (FetchCodetop.print _ w)).
  destruct (fetch_all_problems_effects w w0 eq_refl) as (_ & Hr & Hf).
  destruct (FetchCodetop.fetch_all_problems w0) as [data w1].
  cbn [fst snd] in Hr, Hf.
  change (fw_files w0) with (fw_files w) in Hf.
  change (fw_requests w0) with (fw_requests w) in Hr.
  destruct (_ || _); [cbn; split; [exact Hr|left; exact Hf]|].
  cbv zeta.
  destruct (FetchCodetop.sort_problems _) as [sorted|];
    [|cbn; split; [exact Hr|left; exact Hf]].
  match goal with
  | |- context [bind (FetchCodetop.print ?t0) _ ?w2] =>
      pose proof (main_after_sort sorted sorted t0 w2 (Permutation_refl _))
        as Hm;
      change (fw_files w2) with (fw_files w1) in Hm;
      change (fw_requests w2) with (fw_requests w1) in Hm
  end.
  cbv zeta in Hm. rewrite Hf, Hr in Hm. destruct Hm as (Hreq & Hfiles & _).
  split; [exact Hreq|]. tauto.
Qed.
End FetchMain.

(** ** Frequency levels *)

(** X16. [get_frequency_level] answers with one of the four levels, and a
    higher frequency never gets a lower level; the levels change at 200,
    400 and 600. *)
Theorem X16_frequency_level_monotone :
  forall f1 f2 : Z,
    f1 <= f2 ->
    (exists i j,
        level_index (FetchCodetop.get_frequency_level f1) = Some i
        /\ level_index (FetchCodetop.get_frequency_level f2) = Some j
        /\ (i <= j)%nat)
    /\ (FetchCodetop.get_frequency_level f1 = "LOW"%string <-> f1 < 200)
    /\ (FetchCodetop.get_frequency_level f1 = "MEDIUM"%string
        <-> 200 <= f1 < 400)
    /\ (FetchCodetop.get_frequency_level f1 = "HIGH"%string
        <-> 400 <= f1 < 600)
    /\ (FetchCodetop.get_frequency_level f1 = "VERY_HIGH"%string
        <-> 600 <= f1).
Proof.
  intros f1 f2 Hle. unfold FetchCodetop.get_frequency_level.
  split.
  - destruct (Z.leb_spec 600 f1), (Z.leb_spec 400 f1), (Z.leb_spec 200 f1),
      (Z.leb_spec 600 f2), (Z.leb_spec 400 f2), (Z.leb_spec 200 f2);
      try lia; do 2 eexists;
      (split; [reflexivity|split; [reflexivity|lia]]).
  - destruct (Z.leb_spec 600 f1), (Z.leb_spec 400 f1), (Z.leb_spec 200 f1);
      try lia;
      (split; [|split; [|split]]); (split; [try discriminate|try lia]);
      intros; try lia; try reflexivity.
Qed.

Lemma X16_frequency_level_monotone_witness :
  exists i j,
    level_index (FetchCodetop.get_frequency_level 285) = Some i
    /\ level_index (FetchCodetop.get_frequency_level 976) = Some j
    /\ (i <= j)%nat.
Proof.
  destruct (X16_frequency_level_monotone 285 976 ltac:(lia)) as [Hm _].
  exact Hm.
Defined.

(** ** Whole runs of the two global scripts *)

Lemma failure_within_sent (results : list (bool * string)) :
  forallb fst results = false ->
  forallb fst (take (sent_until_failure results) results) = false.
Proof.
  induction results as [|[[|] out] rest IH]; cbn; intros Hf.
  - discriminate.
  - now apply IH.
  - reflexivity.
Qed.

Section GlobalRuns.
Context {rng db : Type} `{Random rng} `{MySql db}.

(** X17. In both global scripts the DELETE is the first command, and
    nothing is sent after a DELETE that fails.  After the DELETE,
    [generate_frequency_inserts.py] sends at most one INSERT per batch and
    then its two checks, also when a batch failed;
    [restore_global_frequency_stats.py] sends at most one INSERT per batch
    and then at most three checks, and no check at all when a batch
    failed. *)
Theorem X17_checks_after_the_batches :
  forall (data : list (Z * Z)) (B : nat) (w : world rng db),
    let first_clear :=
      mysql_run GenerateFrequencyInserts.clear_cmd (w_db w) in
    let clear :=
      ("SET NAMES utf8mb4; " ++ RestoreGlobal.clear_cmd)%string in
    let second_clear := mysql_run clear (w_db w) in
    let planned :=
      planned_inserts RestoreGlobal.batch_values restore_command B data
                      (random_seed 42) in
    (exists inserts,
        w_commands (snd (GenerateFrequencyInserts.main_on data B w))
        = (if fst (fst first_clear)
           then [GenerateFrequencyInserts.top_cmd;
                 GenerateFrequencyInserts.count_cmd] ++ inserts
           else [])
            ++ GenerateFrequencyInserts.clear_cmd :: w_commands w
        /\ (length inserts <= length (batches B data))%nat)
    /\ (exists checks inserts,
          w_commands (snd (RestoreGlobal.main_on data B w))
          = (if fst (fst second_clear) then checks ++ inserts else [])
              ++ clear :: w_commands w
          /\ (length inserts <= length (batches B data))%nat
          /\ (length checks <= 3)%nat
          /\ (forallb fst (answers (snd planned) (snd second_clear)) = false
              -> checks = [])).
Proof.
  intros data B w. cbv zeta. split.
  - pose proof (interview_main_commands data B w) as Hc. cbv zeta in Hc.
    eexists. rewrite Hc. split.
    + destruct (fst (fst (mysql_run _ (w_db w))));
        [rewrite <- app_assoc|]; reflexivity.
    + rewrite length_rev, length_take. unfold planned_inserts, eval.
      cbn [snd]. rewrite length_map, for_each_length, length_map. lia.
  - destruct (restore_main_commands data B w) as (checks & Hc & Hnone & Hlen).
    cbv zeta in Hc, Hnone.
    exists checks. eexists. rewrite Hc. split; [|split; [|split]].
    + destruct (fst (fst (mysql_run _ (w_db w))));
        [rewrite <- app_assoc|]; reflexivity.
    + rewrite length_rev, length_take. unfold planned_inserts, eval.
      cbn [snd]. rewrite length_map, for_each_length, length_map. lia.
    + exact Hlen.
    + intros Hf. apply Hnone. now apply failure_within_sent.
Qed.
End GlobalRuns.

(** ** The company and department script *)

Lemma answers_app {db : Type} `{MySql db} (a b : list string) (d : db) :
  answers (a ++ b) d = answers a d ++ answers b (db_after a d).
Proof.
  revert d. induction a as [|c a IH]; intros d; [reflexivity|].
  cbn [app db_after]. rewrite !answers_cons, IH. reflexivity.
Qed.

Lemma db_after_app {db : Type} `{MySql db} (a b : list string) (d : db) :
  db_after (a ++ b) d = db_after b (db_after a d).
Proof.
  revert d. induction a as [|c a IH]; intros d; [reflexivity|].
  cbn [app db_after]. apply IH.
Qed.

Lemma failures_app (a b : list (bool * string)) :
  failures (a ++ b) = (failures a + failures b)%nat.
Proof. unfold failures. now rewrite List.filter_app, length_app. Qed.

Section Setup.
Context {rng db : Type} `{Random rng} `{MySql db}.

(** A loop that sends one command per element and prints a line for each
    command that fails. *)
Lemma for_each_command {A : Type} (body : A -> State (world rng db) unit)
      (cmd : A -> string) (msg : A -> string -> string) (xs : list A) :
  (forall x, body x
             = let* (success, output) :=
                 CompanyStats.execute_mysql_command (cmd x) in
               if success : bool then ret tt else print (msg x output)) ->
  forall w : world rng db,
    let w' := snd (for_each body xs w) in
    w_commands w' = rev (map cmd xs) ++ w_commands w
    /\ w_rng w' = w_rng w
    /\ w_db w' = db_after (map cmd xs) (w_db w)
    /\ exists lines,
         w_stdout w' = w_stdout w ++ lines
         /\ length lines = failures (answers (map cmd xs) (w_db w)).
Proof.
  intros Hbody. induction xs as [|x xs IH]; intros w; cbv zeta.
  - cbn. split; [reflexivity|split; [reflexivity|split; [reflexivity|]]].
    exists []. now rewrite app_nil_r.
  - rewrite for_each_cons, Hbody.
    unfold bind, CompanyStats.execute_mysql_command, run_client.
    cbn [map db_after]. rewrite answers_cons.
    destruct (mysql_run (cmd x) (w_db w)) as [[ok out] d]. cbn [fst snd].
    destruct ok; unfold ret, print; cbn [w_db w_rng w_stdout w_commands];
      match goal with
      | |- context [for_each body xs ?w1] =>
          destruct (IH w1) as (Hc & Hr & Hd & lines & Hs & Hn);
          destruct (for_each body xs w1) as [ys w2]
      end;
      cbn [fst snd w_db w_rng w_stdout w_commands] in *;
      (split; [rewrite Hc; cbn [rev]; now rewrite <- app_assoc|]);
      (split; [exact Hr|split; [exact Hd|]]).
    + exists lines. split; [exact Hs|]. unfold failures in *. cbn. exact Hn.
    + eexists (_ :: lines). rewrite Hs, <- app_assoc.
      split; [reflexivity|]. unfold failures in *. cbn. now rewrite Hn.
Qed.

(** What the setup does to its surroundings. *)
Lemma setup_effects (w : world rng db) :
  let w' := snd (CompanyStats.setup_companies_and_departments w) in
  exists company_cmds dept_cmds rejected,
    length company_cmds = length CompanyStats.COMPANIES
    /\ length dept_cmds = length CompanyStats.DEPARTMENTS
    /\ w_commands w' = rev (company_cmds ++ dept_cmds) ++ w_commands w
    /\ w_rng w' = w_rng w
    /\ w_db w' = db_after (company_cmds ++ dept_cmds) (w_db w)
    /\ w_stdout w'
       = w_stdout w
           ++ ["Setting up companies and departments..."%string]
           ++ rejected
           ++ ["✓ Companies and departments setup completed"%string]
    /\ length rejected
       = failures (answers (company_cmds ++ dept_cmds) (w_db w)).
Proof.
  cbv zeta.
  remember (snd (CompanyStats.setup_companies_and_departments w)) as w'
    eqn:Hw'.
  unfold CompanyStats.setup_companies_and_departments in Hw'.
  unfold bind at 1 in Hw'. unfold print at 1 in Hw'.
  match type of Hw' with
  | context [bind (for_each ?b1 CompanyStats.COMPANIES)
                  (fun _ => bind (for_each ?b2 CompanyStats.DEPARTMENTS) _)] =>
      pose proof (fun cmd msg Hb =>
                    for_each_command b1 cmd msg CompanyStats.COMPANIES Hb)
        as H1;
      pose proof (fun cmd msg Hb =>
                    for_each_command b2 cmd msg CompanyStats.DEPARTMENTS Hb)
        as H2
  end.
  unfold bind at 1 in Hw'.
  match type of Hw' with
  | context [for_each _ CompanyStats.COMPANIES ?w1] =>
      edestruct (fun cmd msg Hb => H1 cmd msg Hb w1)
        as (Hc1 & Hr1 & Hd1 & lines1 & Hs1 & Hn1);
      [|destruct (for_each _ CompanyStats.COMPANIES w1) as [u1 w2]]
  end.
  { intros [[code name] industry].
    instantiate (2 := fun '(code, name, industry) => _).
    instantiate (1 := fun '(code, name, industry) => fun output => _).
    cbv beta iota. reflexivity. }
  unfold bind at 1 in Hw'.
  edestruct (fun cmd msg Hb => H2 cmd msg Hb w2)
    as (Hc2 & Hr2 & Hd2 & lines2 & Hs2 & Hn2);
    [|destruct (for_each _ CompanyStats.DEPARTMENTS w2) as [u2 w3]].
  { intros [[code name] description].
    instantiate (2 := fun '(code, name, description) => _).
    instantiate (1 := fun '(code, name, description) => fun output => _).
    cbv beta iota. reflexivity. }
  subst w'. cbn [fst snd w_db w_rng w_stdout w_commands print] in *.
  do 2 eexists. exists (lines1 ++ lines2).
  split; [apply length_map|]. split; [apply length_map|].
  split; [rewrite Hc2, Hc1, rev_app_distr, <- app_assoc; reflexivity|].
  split; [congruence|].
  split; [rewrite Hd2, Hd1, db_after_app; reflexivity|]. split.
  - rewrite Hs2, Hs1, <- !app_assoc. reflexivity.
  - rewrite answers_app, failures_app, length_app, Hn1, Hn2, Hd1.
    reflexivity.
Qed.

(** X18. [setup_companies_and_departments] sends one INSERT for each of
    the 22 companies and then one for each of the 7 departments, whatever
    the client answers; it draws no random number.  It prints its opening
    line, one line per rejected command, and then the line that reports
    the setup as completed, also when every command was rejected. *)
Theorem X18_setup_sends_every_insert :
  forall w : world rng db,
    let w' := snd (CompanyStats.setup_companies_and_departments w) in
    exists company_cmds dept_cmds rejected,
      length company_cmds = length CompanyStats.COMPANIES
      /\ length dept_cmds = length CompanyStats.DEPARTMENTS
      /\ w_commands w' = rev (company_cmds ++ dept_cmds) ++ w_commands w
      /\ w_rng w' = w_rng w
      /\ w_stdout w'
         = w_stdout w
             ++ ["Setting up companies and departments..."%string]
             ++ rejected
             ++ ["✓ Companies and departments setup completed"%string]
      /\ length rejected
         = failures (answers (company_cmds ++ dept_cmds) (w_db w)).
Proof.
  intros w.
  destruct (setup_effects w)
    as (cs & ds & rejected & H1 & H2 & H3 & H4 & _ & H5 & H6).
  exists cs, ds, rejected. cbv zeta in *.
  split; [exact H1|split; [exact H2|split; [exact H3|]]].
  split; [exact H4|split; [exact H5|exact H6]].
Qed.
End Setup.

Section CompanyRuns.
Context {rng db : Type} `{Random rng} `{MySql db}.

Lemma scoped_problems_length (top : nat) (code : string)
      (dept : option string) (s : rng) :
  length (eval (CompanyStats.scoped_problems top code dept) s)
  = length (take top PROBLEM_FREQUENCIES).
Proof. unfold eval, CompanyStats.scoped_problems. apply for_each_length. Qed.

Lemma sort_desc_length {A : Type} (key : A -> Z) (l : list A) :
  length (sort_desc key l) = length l.
Proof. apply Permutation_length, sort_desc_permutation. Qed.

Lemma enumerate_length {A : Type} (start : Z) (l : list A) :
  length (enumerate start l) = length l.
Proof. rewrite <- (length_map snd), enumerate_snd. reflexivity. Qed.

Lemma company_values_length (company_id : Z) (code : string) (s : rng) :
  length (eval (CompanyStats.company_values company_id code) s) = 20%nat.
Proof.
  unfold eval, CompanyStats.company_values, bind.
  pose proof (scoped_problems_length 20 code None s) as Hl. unfold eval in Hl.
  destruct (CompanyStats.scoped_problems 20 code None s) as [ps s1].
  cbn [fst] in Hl.
  rewrite for_each_length, enumerate_length, sort_desc_length, Hl.
  reflexivity.
Qed.

Lemma department_values_length (company_id dept_id : Z) (code dept : string)
      (s : rng) :
  length (eval (CompanyStats.department_values company_id code dept_id dept)
               s) = 10%nat.
Proof.
  unfold eval, CompanyStats.department_values, bind.
  pose proof (scoped_problems_length 10 code (Some dept) s) as Hl.
  unfold eval in Hl.
  destruct (CompanyStats.scoped_problems 10 code (Some dept) s) as [ps s1].
  cbn [fst] in Hl.
  rewrite for_each_length, enumerate_length, sort_desc_length, Hl.
  reflexivity.
Qed.

Lemma batches_of_twenty {A : Type} (xs : list A) :
  length xs = 20%nat ->
  map (fun b => length (snd b)) (batches 10 xs) = [10; 10]%nat.
Proof.
  intros Hl. unfold batches, py_range. rewrite Hl.
  cbn [range_from Nat.ltb Nat.leb Nat.add map snd]. unfold slice.
  rewrite !length_take, !length_drop, Hl. reflexivity.
Qed.

Lemma company_loop_commands (companies : list (Z * list string)) (total : Z)
      (w : world rng db) :
  length (w_commands (snd (CompanyStats.company_loop 10 companies total w)))
  = (2 * length companies + length (w_commands w))%nat.
Proof.
  revert total w.
  induction companies as [|[id fields] rest IH]; intros total w;
    [cbn; lia|].
  cbn [CompanyStats.company_loop]. unfold bind at 1. unfold print at 1.
  unfold bind at 1. unfold draw at 1. cbn [w_rng w_db w_stdout w_commands].
  pose proof (company_values_length id (nth 0 fields ""%string) (w_rng w))
    as Hl.
  unfold eval in Hl.
  destruct (CompanyStats.company_values id _ (w_rng w)) as [values g].
  cbn [fst] in Hl. unfold bind.
  match goal with
  | |- context [CompanyStats.insert_batches ?n ?todo ?t ?w1] =>
      destruct (company_insert_batches n todo t w1) as (lines & Hc & _);
      pose proof (batches_of_twenty values Hl) as Hb;
      destruct (CompanyStats.insert_batches n todo t w1) as [total' w2]
  end.
  cbv zeta in Hc. cbn [snd w_commands] in Hc.
  rewrite IH, Hc, length_app, length_rev, !length_map.
  apply (f_equal (@length _)) in Hb. rewrite length_map in Hb.
  rewrite Hb. cbn [length]. lia.
Qed.

Lemma department_loop_commands
      (pairs : list ((Z * list string) * (Z * list string))) (total : Z)
      (w : world rng db) :
  length (w_commands (snd (CompanyStats.department_loop pairs total w)))
  = (length pairs + length (w_commands w))%nat.
Proof.
  revert total w.
  induction pairs as [|[[cid cfields] [did dfields]] rest IH];
    intros total w; [reflexivity|].
  cbn [CompanyStats.department_loop]. unfold bind at 1.
  unfold CompanyStats.department_step, bind, print, draw,
    CompanyStats.execute_mysql_command, run_client, ret.
  cbn [w_rng w_db w_stdout w_commands].
  destruct (CompanyStats.department_values _ _ _ _ (w_rng w)) as [values g].
  cbn [w_rng w_db w_stdout w_commands].
  match goal with
  | |- context [mysql_run ?c (w_db w)] =>
      destruct (mysql_run c (w_db w)) as [[[|] out] d]
  end;
    rewrite IH; cbn [w_commands length]; lia.
Qed.

(** X19. For every company the script generates 20 values, one per
    problem of the first twenty, and sends them as two INSERT commands of
    ten values each; for every pair of a company and a department it
    generates 10 values and sends them in one INSERT.  Both loops send
    all their commands whatever the generator draws and whatever the
    client answers. *)
Theorem X19_inserts_per_company_and_department :
  forall (company_id dept_id : Z) (code dept : string) (s : rng)
         (companies : list (Z * list string))
         (pairs : list ((Z * list string) * (Z * list string)))
         (total : Z) (w : world rng db),
    let values := eval (CompanyStats.company_values company_id code) s in
    length values = 20%nat
    /\ map (fun b => length (snd b)) (batches 10 values) = [10; 10]%nat
    /\ length (eval (CompanyStats.department_values
                       company_id code dept_id dept) s) = 10%nat
    /\ length (w_commands
                 (snd (CompanyStats.company_loop 10 companies total w)))
       = (2 * length companies + length (w_commands w))%nat
    /\ length (w_commands
                 (snd (CompanyStats.department_loop pairs total w)))
       = (length pairs + length (w_commands w))%nat.
Proof.
  intros. subst values.
  split; [apply company_values_length|].
  split; [apply batches_of_twenty, company_values_length|].
  split; [apply department_values_length|].
  split; [apply company_loop_commands|apply department_loop_commands].
Qed.
End CompanyRuns.

(** ** Rows of a client answer *)

Lemma parse_lines_rows (width : nat) (lines : list string) :
  match CompanyStats.parse_lines width lines with
  | Some rows =>
      Forall (fun r => (width <= S (length (snd r)))%nat) rows
      /\ (length rows <= length lines)%nat
  | None =>
      exists line,
        In line lines
        /\ strip line <> ""%string
        /\ (width <= length (split_char (ascii_of_nat 9) (strip line)))%nat
        /\ parse_int (hd ""%string (split_char (ascii_of_nat 9) (strip line)))
           = None
  end.
Proof.
  induction lines as [|line rest IH]; [cbn; split; [constructor|lia]|].
  cbn [CompanyStats.parse_lines].
  destruct (String.eqb_spec (strip line) "") as [He|Hne]; cbn [negb andb].
  - destruct (CompanyStats.parse_lines width rest) as [rows|].
    + destruct IH as [Hall Hlen]. split; [exact Hall|cbn; lia].
    + destruct IH as (l & Hin & Hl). exists l. split; [now right|exact Hl].
  - destruct (Nat.leb_spec width
                (length (split_char (ascii_of_nat 9) (strip line))))
      as [Hw|Hw].
    + destruct (parse_int _) as [id|] eqn:Hid.
      * destruct (CompanyStats.parse_lines width rest) as [rows|].
        -- destruct IH as [Hall Hlen]. split; [|cbn; lia].
           constructor; [|exact Hall]. cbn [snd].
           destruct (split_char _ _); cbn in *; lia.
        -- destruct IH as (l & Hin & Hl). exists l.
           split; [now right|exact Hl].
      * exists line. split; [now left|].
        split; [exact Hne|split; [exact Hw|exact Hid]].
    + destruct (CompanyStats.parse_lines width rest) as [rows|].
      * destruct IH as [Hall Hlen]. split; [exact Hall|cbn; lia].
      * destruct IH as (l & Hin & Hl). exists l.
        split; [now right|exact Hl].
Qed.

(** X20. The rows read from a client answer: every row kept has at least
    as many tab-separated fields as the loop asks for, so the name and the
    display name that the loops take from a row are fields of its line;
    there are no more rows than lines after the header.  Reading the
    answer raises only when the first field of a line that is not blank
    is no integer. *)
Theorem X20_rows_have_their_fields :
  forall (width : nat) (output : string),
    let lines := tl (split_char (ascii_of_nat 10) (strip output)) in
    match CompanyStats.parse_answer width output with
    | Some rows =>
        Forall (fun r => (width <= S (length (snd r)))%nat) rows
        /\ (length rows <= length lines)%nat
    | None =>
        exists line,
          In line lines
          /\ strip line <> ""%string
          /\ (width
              <= length (split_char (ascii_of_nat 9) (strip line)))%nat
          /\ parse_int
               (hd ""%string (split_char (ascii_of_nat 9) (strip line)))
             = None
    end.
Proof.
  intros width output lines. unfold CompanyStats.parse_answer.
  apply parse_lines_rows.
Qed.

Section CompanyMain.
Context {rng db : Type} `{Random rng} `{MySql db}.

(** X21. [main] of the company script seeds the generator with 42 and
    runs the setup before it clears the old statistics: the 29 INSERTs of
    the setup are sent first, then the DELETE.  When the DELETE fails the
    run ends there: it returns after the message of failure, no further
    command is sent and no random number has been drawn. *)
Theorem X21_company_run_stops_at_failed_delete :
  forall w : world rng db,
    exists setup_cmds,
      length setup_cmds
      = (length CompanyStats.COMPANIES + length CompanyStats.DEPARTMENTS)%nat
      /\ forall out ready,
           mysql_run CompanyStats.clear_cmd (db_after setup_cmds (w_db w))
           = ((false, out), ready) ->
           let run := CompanyStats.main w in
           fst run = CompanyStats.Returned
           /\ w_commands (snd run)
              = CompanyStats.clear_cmd :: rev setup_cmds ++ w_commands w
           /\ w_rng (snd run) = random_seed 42
           /\ w_db (snd run) = ready
           /\ List.last (w_stdout (snd run)) ""%string
              = ("✗ Failed to clear existing stats: " ++ out)%string.
Proof.
  intros w.
  remember (CompanyStats.main w) as run eqn:Hrun.
  unfold CompanyStats.main in Hrun.
  unfold bind at 1 2 3 4 in Hrun. unfold print at 1 2, seed in Hrun.
  cbn [w_rng w_db w_stdout w_commands] in Hrun.
  match type of Hrun with
  | context [CompanyStats.setup_companies_and_departments ?w0] =>
      destruct (setup_effects w0)
        as (cs & ds & rejected & H1 & H2 & H3 & H4 & H5 & H6 & H7);
      destruct (CompanyStats.setup_companies_and_departments w0) as [u w1]
  end.
  cbv zeta in *. cbn [snd w_rng w_db w_stdout w_commands] in *.
  exists (cs ++ ds). split; [rewrite length_app; congruence|].
  intros out ready Hclear.
  unfold bind at 1 2 in Hrun. unfold print at 1 in Hrun.
  unfold CompanyStats.execute_mysql_command at 1, run_client at 1 in Hrun.
  cbn [w_rng w_db w_stdout w_commands] in Hrun.
  rewrite H5, Hclear in Hrun.
  unfold bind, print, ret in Hrun.
  cbn [w_rng w_db w_stdout w_commands] in Hrun.
  subst run. cbn [fst snd w_rng w_db w_stdout w_commands].
  rewrite H3, H4, List.last_last. auto.
Qed.
End CompanyMain.

(** ** The CASE blocks of the frequency statement *)

(** X22. The three loops of [generate_frequency_sql] write one WHEN line
    per record at most, and none for a record whose ["leetcode"] key holds
    [null].  They do not skip the same records: a record whose frequency
    is [null] gets no line in the first CASE block, where the level of the
    frequency is computed, but one in each of the other two, and the line
    of the second block then reads [THEN None]. *)
Theorem X22_when_lines_per_record :
  forall `{IsoParser} (it : item),
    (length (FetchCodetop.frequency_case it)
     <= length (FetchCodetop.times_asked_case it) <= 1)%nat
    /\ length (FetchCodetop.last_asked_case it)
       = length (FetchCodetop.times_asked_case it)
    /\ (FetchCodetop.times_asked_case it = [] <-> leetcode it = Null)
    /\ (FetchCodetop.frequency_case it = []
        <-> leetcode it = Null \/ value it = Null)
    /\ (value it = Null ->
        forall line, In line (FetchCodetop.times_asked_case it) ->
          exists id_text,
            line = ("        WHEN p.leetcode_id = '" ++ id_text
                      ++ "' THEN None")%string).
Proof.
  intros parser it.
  unfold FetchCodetop.frequency_case, FetchCodetop.times_asked_case,
    FetchCodetop.last_asked_case, FetchCodetop.info_of.
  destruct (leetcode it) as [| |info], (value it) as [| |v];
    cbn [length];
    (split; [lia|]); (split; [reflexivity|]);
    (split; [split; [try discriminate; auto|intros; try discriminate; auto]|]);
    (split; [split; [try discriminate; auto|
                     intros [?|?]; try discriminate; auto]|]);
    try discriminate; intros _ line Hin; cbn [In] in Hin;
    try contradiction; destruct Hin as [<-|[]];
    eexists; reflexivity.
Qed.

(** ** The comprehensive statement file *)

Lemma enumerate_in {A : Type} (start : Z) (l : list A) (i : Z) (x : A) :
  In (i, x) (enumerate start l)
  <-> start <= i /\ nth_error l (Z.to_nat (i - start)) = Some x.
Proof.
  revert start. induction l as [|y l IH]; intros start.
  - cbn. split; [intros []|]. intros [_ Hn].
    destruct (Z.to_nat (i - start)); discriminate.
  - cbn [enumerate In]. rewrite IH. split.
    + intros [Heq|[Hle Hn]].
      * injection Heq as <- <-. split; [lia|].
        now rewrite Z.sub_diag.
      * split; [lia|].
        replace (Z.to_nat (i - start)) with (S (Z.to_nat (i - (start + 1))))
          by lia.
        exact Hn.
    + intros [Hle Hn]. destruct (Z.eq_dec i start) as [->|Hne].
      * left. rewrite Z.sub_diag in Hn. cbn in Hn. now injection Hn as <-.
      * right. split; [lia|].
        replace (Z.to_nat (i - start)) with (S (Z.to_nat (i - (start + 1))))
          in Hn by lia.
        exact Hn.
Qed.

Lemma enumerate_fst_lower {A : Type} (start : Z) (l : list A) :
  Forall (fun i => start <= i) (map fst (enumerate start l)).
Proof.
  revert start. induction l as [|y l IH]; intros start; [constructor|].
  cbn [enumerate map fst]. constructor; [lia|].
  eapply Forall_impl; [apply IH|]. cbn. intros; lia.
Qed.

Lemma enumerate_ids_distinct {A : Type} (start : Z) (l : list A) :
  NoDup (map fst (enumerate start l)).
Proof.
  revert start. induction l as [|y l IH]; intros start; [constructor|].
  cbn [enumerate map fst]. constructor; [|apply IH].
  intros Hin. pose proof (enumerate_fst_lower (start + 1) l) as Hlow.
  rewrite Forall_forall in Hlow. specialize (Hlow _ Hin). lia.
Qed.

Lemma insert_asc_permutation (x : string) (l : list string) :
  Permutation (ComprehensiveSql.insert_asc x l) (x :: l).
Proof.
  induction l as [|y l IH]; [reflexivity|].
  cbn [ComprehensiveSql.insert_asc]. destruct (String.leb x y); [reflexivity|].
  rewrite IH. apply perm_swap.
Qed.

Lemma sorted_strings_permutation (l : list string) :
  Permutation (ComprehensiveSql.sorted_strings l) l.
Proof.
  induction l as [|x l IH]; [reflexivity|].
  unfold ComprehensiveSql.sorted_strings in *. cbn [foldr].
  rewrite insert_asc_permutation. now constructor.
Qed.

(** The dict built by the loop over the numbered companies. *)
Lemma id_map_lookup (numbered : list (Z * string)) (m : gmap string Z)
      (c : string) (i : Z) :
  NoDup (map snd numbered) ->
  (foldl (fun m '(i, company) => <[company := i]> m) m numbered !! c = Some i
   <-> In (i, c) numbered
       \/ (~ In c (map snd numbered) /\ m !! c = Some i)).
Proof.
  revert m. induction numbered as [|[j d] rest IH]; intros m Hnd.
  - cbn. split; [intros Hm; right; split; [tauto|exact Hm]|].
    intros [[]|[_ Hm]]. exact Hm.
  - cbn [foldl map snd] in *. apply NoDup_cons in Hnd as [Hd Hnd].
    rewrite (IH _ Hnd). cbn [In]. split.
    + intros [Hin|[Hnin Hm]]; [left; now right|].
      destruct (decide (d = c)) as [->|Hne].
      * rewrite lookup_insert in Hm.
        destruct (decide (c = c)); [|congruence].
        left. left. congruence.
      * rewrite lookup_insert_ne in Hm by exact Hne.
        right. split; [|exact Hm]. intros [?|?]; [congruence|tauto].
    + intros [[Heq|Hin]|[Hnin Hm]].
      * injection Heq as -> ->. right. split.
        -- intros Hin. apply Hd. now apply list_elem_of_In.
        -- rewrite lookup_insert. destruct (decide (c = c)); congruence.
      * now left.
      * right. split; [tauto|].
        rewrite lookup_insert_ne; [exact Hm|]. intros ->. apply Hnin. now left.
Qed.

Lemma numbered_companies_names (data : ComprehensiveSql.pages) (c : string) :
  (exists i, In (i, c) (ComprehensiveSql.numbered_companies data))
  <-> exists p, In p (ComprehensiveSql.all_problems data)
                /\ ComprehensiveSql.company_name p = c /\ ComprehensiveSql.is_named c = true.
Proof.
  unfold ComprehensiveSql.numbered_companies. split.
  - intros [i Hin]. apply (in_map snd) in Hin. rewrite enumerate_snd in Hin.
    cbn [snd] in Hin.
    apply (Permutation_in _ (sorted_strings_permutation _)) in Hin.
    apply list_elem_of_In, elem_of_elements in Hin.
    unfold ComprehensiveSql.companies in Hin. apply elem_of_list_to_set in Hin.
    apply list_elem_of_In, filter_In in Hin as [Hm Hn].
    apply in_map_iff in Hm as (p & Hp & Hq). now exists p.
  - intros (p & Hin & Hp & Hn).
    assert (Hc : In c (ComprehensiveSql.sorted_strings (elements (ComprehensiveSql.companies data)))).
    { apply (Permutation_in _ (Permutation_sym
                                 (sorted_strings_permutation _))).
      apply list_elem_of_In, elem_of_elements.
      unfold ComprehensiveSql.companies. apply elem_of_list_to_set.
      apply list_elem_of_In, filter_In. split; [|exact Hn].
      apply in_map_iff. now exists p. }
    rewrite <- (enumerate_snd 1) in Hc.
    apply in_map_iff in Hc as ([i d] & Hd & Hid). cbn [snd] in Hd. subst d.
    now exists i.
Qed.

Lemma numbered_companies_distinct (data : ComprehensiveSql.pages) :
  NoDup (map snd (ComprehensiveSql.numbered_companies data)).
Proof.
  unfold ComprehensiveSql.numbered_companies. rewrite enumerate_snd.
  rewrite sorted_strings_permutation. apply NoDup_elements.
Qed.

Lemma company_id_map_lookup (data : ComprehensiveSql.pages) (c : string) (i : Z) :
  ComprehensiveSql.company_id_map data !! c = Some i
  <-> In (i, c) (ComprehensiveSql.numbered_companies data).
Proof.
  unfold ComprehensiveSql.company_id_map.
  rewrite (id_map_lookup _ _ _ _ (numbered_companies_distinct data)).
  rewrite lookup_empty. split; [|now left].
  intros [Hin|[_ Hm]]; [exact Hin|discriminate].
Qed.

(** The third loop, for any dict that knows every named company of the
    records and any start of the counter. *)
Lemma associate_rows (ids : gmap string Z) (next : Z)
      (numbered : list (Z * ComprehensiveSql.problem)) :
  (forall i p, In (i, p) numbered -> ComprehensiveSql.is_named (ComprehensiveSql.company_name p) = true ->
               exists cid, ids !! ComprehensiveSql.company_name p = Some cid) ->
  let rows := ComprehensiveSql.associate ids next numbered in
  map ComprehensiveSql.association_id rows = map fst (enumerate next rows)
  /\ map ComprehensiveSql.problem_id rows
     = map fst (List.filter
                  (fun ip => ComprehensiveSql.is_named (ComprehensiveSql.company_name (snd ip)))
                  numbered)
  /\ Forall (fun a => exists p,
                 In (ComprehensiveSql.problem_id a, p) numbered
                 /\ ComprehensiveSql.is_named (ComprehensiveSql.company_name p) = true
                 /\ ComprehensiveSql.frequency_score a = ComprehensiveSql.value p
                 /\ ids !! ComprehensiveSql.company_name p = Some (ComprehensiveSql.company_id a))
            rows.
Proof.
  revert next. induction numbered as [|[i p] rest IH]; intros next Hids.
  - cbn. split; [reflexivity|split; [reflexivity|constructor]].
  - cbn [ComprehensiveSql.associate List.filter snd].
    assert (Hrest : forall i p, In (i, p) rest ->
                    ComprehensiveSql.is_named (ComprehensiveSql.company_name p) = true ->
                    exists cid, ids !! ComprehensiveSql.company_name p = Some cid)
      by (intros j q Hin; apply (Hids j q); now right).
    destruct (ComprehensiveSql.is_named (ComprehensiveSql.company_name p)) eqn:Hn.
    + destruct (Hids i p (or_introl eq_refl) Hn) as [cid Hcid].
      rewrite Hcid. destruct (IH (next + 1) Hrest) as (H1 & H2 & H3).
      cbv zeta in *. cbn [map enumerate fst ComprehensiveSql.association_id ComprehensiveSql.problem_id].
      split; [now rewrite H1|split; [now rewrite H2|]].
      constructor.
      * exists p. cbn. split; [now left|auto].
      * eapply Forall_impl; [exact H3|]. cbn.
        intros a (q & Hin & Hq). exists q. split; [now right|exact Hq].
    + destruct (IH next Hrest) as (H1 & H2 & H3). cbv zeta in *.
      split; [exact H1|split; [exact H2|]].
      eapply Forall_impl; [exact H3|]. cbn.
      intros a (q & Hin & Hq). exists q. split; [now right|exact Hq].
Qed.

(** X23. The three tables of [generate_comprehensive_sql] fit together.
    The companies and the problems are numbered from 1 without a
    repetition, and no company is inserted twice.  The association rows
    are numbered 1, 2, 3 and so on; there is one for each problem whose
    company name is neither empty nor ["null"], in the order of the
    problem ids; and each row carries the id under which its problem was
    inserted, the frequency of that problem, and the id under which the
    company of that problem was inserted. *)
Theorem X23_associations_refer_to_inserted_rows :
  forall data : ComprehensiveSql.pages,
    let problems := enumerate 1 (ComprehensiveSql.sorted_problems data) in
    let companies := ComprehensiveSql.numbered_companies data in
    let rows := ComprehensiveSql.associations data in
    NoDup (map fst problems)
    /\ NoDup (map fst companies)
    /\ NoDup (map snd companies)
    /\ map ComprehensiveSql.association_id rows = map fst (enumerate 1 rows)
    /\ map ComprehensiveSql.problem_id rows
       = map fst (List.filter
                    (fun ip => ComprehensiveSql.is_named (ComprehensiveSql.company_name (snd ip)))
                    problems)
    /\ Forall (fun a => exists p,
                   In (ComprehensiveSql.problem_id a, p) problems
                   /\ ComprehensiveSql.frequency_score a = ComprehensiveSql.value p
                   /\ In (ComprehensiveSql.company_id a, ComprehensiveSql.company_name p) companies)
              rows.
Proof.
  intros data problems companies rows. subst problems companies rows.
  split; [apply enumerate_ids_distinct|].
  split; [apply enumerate_ids_distinct|].
  split; [apply numbered_companies_distinct|].
  unfold ComprehensiveSql.associations.
  destruct (associate_rows (ComprehensiveSql.company_id_map data) 1
              (enumerate 1 (ComprehensiveSql.sorted_problems data))) as (H1 & H2 & H3).
  - intros i p Hin Hn.
    destruct (proj2 (numbered_companies_names data (ComprehensiveSql.company_name p)))
      as [cid Hcid].
    + exists p. split; [|split; [reflexivity|exact Hn]].
      apply enumerate_in in Hin as [_ Hnth].
      apply nth_error_In in Hnth.
      apply (Permutation_in _ (sort_desc_permutation _ _) Hnth).
    + exists cid. now apply company_id_map_lookup.
  - split; [exact H1|split; [exact H2|]].
    eapply Forall_impl; [exact H3|]. cbn.
    intros a (p & Hin & _ & Hf & Hc). exists p.
    split; [exact Hin|split; [exact Hf|]].
    now apply company_id_map_lookup.
Qed.

Lemma foldl_max_spec (x : Z) (xs : list Z) :
  In (foldl Z.max x xs) (x :: xs)
  /\ Forall (fun v => v <= foldl Z.max x xs) (x :: xs).
Proof.
  revert x. induction xs as [|y xs IH]; intros x.
  - cbn. split; [now left|repeat constructor; lia].
  - cbn [foldl]. destruct (IH (Z.max x y)) as [Hin Hall]. split.
    + destruct Hin as [Heq|Hin]; [|right; now right].
      rewrite <- Heq. destruct (Z.max_spec x y) as [[_ ->]|[_ ->]];
        [right; now left|now left].
    + apply Forall_cons in Hall as [Hm Hall].
      constructor; [lia|constructor; [lia|exact Hall]].
Qed.

Lemma foldl_min_spec (x : Z) (xs : list Z) :
  In (foldl Z.min x xs) (x :: xs)
  /\ Forall (fun v => foldl Z.min x xs <= v) (x :: xs).
Proof.
  revert x. induction xs as [|y xs IH]; intros x.
  - cbn. split; [now left|repeat constructor; lia].
  - cbn [foldl]. destruct (IH (Z.min x y)) as [Hin Hall]. split.
    + destruct Hin as [Heq|Hin]; [|right; now right].
      rewrite <- Heq. destruct (Z.min_spec x y) as [[_ ->]|[_ ->]];
        [now left|right; now left].
    + apply Forall_cons in Hall as [Hm Hall].
      constructor; [lia|constructor; [lia|exact Hall]].
Qed.

(** The ends of a list in descending order hold its largest and its
    smallest key. *)
Lemma descending_ends {A : Type} (key : A -> Z) (l : list A) (a b : A) :
  StronglySorted (key_descends key) l ->
  head l = Some a -> last l = Some b ->
  Forall (fun x => key b <= key x <= key a) l.
Proof.
  intros Hs. revert a b.
  induction Hs as [|x l Hs IH Hall]; intros a b Ha Hb; [constructor|].
  cbn in Ha. injection Ha as <-.
  destruct l as [|y l].
  - cbn in Hb. injection Hb as <-. repeat constructor; lia.
  - change (last (x :: y :: l)) with (last (y :: l)) in Hb.
    specialize (IH y b eq_refl Hb).
    assert (Hbx : key b <= key x).
    { rewrite last_lookup in Hb. apply list_elem_of_lookup_2 in Hb.
      apply list_elem_of_In in Hb. rewrite List.Forall_forall in Hall.
      apply (Hall b Hb). }
    constructor; [lia|].
    rewrite List.Forall_forall in Hall, IH |- *. intros z Hz.
    specialize (Hall z Hz). specialize (IH z Hz).
    unfold key_descends in Hall. lia.
Qed.

Lemma extremes_of_sorted (problems : list ComprehensiveSql.problem) (hi lo : Z) :
  ComprehensiveSql.py_max_of (map ComprehensiveSql.value problems) = Some hi ->
  ComprehensiveSql.py_min_of (map ComprehensiveSql.value problems) = Some lo ->
  exists first final,
    head (sort_desc ComprehensiveSql.value problems) = Some first
    /\ last (sort_desc ComprehensiveSql.value problems) = Some final
    /\ ComprehensiveSql.value first = hi /\ ComprehensiveSql.value final = lo.
Proof.
  intros Hhi Hlo.
  pose proof (sort_desc_permutation ComprehensiveSql.value problems) as Hperm.
  pose proof (sort_desc_sorted ComprehensiveSql.value problems) as Hsorted.
  destruct problems as [|p rest]; [discriminate|].
  cbn [map ComprehensiveSql.py_max_of ComprehensiveSql.py_min_of] in Hhi, Hlo.
  injection Hhi as <-. injection Hlo as <-.
  destruct (foldl_max_spec (ComprehensiveSql.value p) (map ComprehensiveSql.value rest)) as [Hin1 Hall1].
  destruct (foldl_min_spec (ComprehensiveSql.value p) (map ComprehensiveSql.value rest)) as [Hin2 Hall2].
  change (ComprehensiveSql.value p :: map ComprehensiveSql.value rest)
    with (map ComprehensiveSql.value (p :: rest)) in Hin1, Hin2, Hall1, Hall2.
  set (sorted := sort_desc ComprehensiveSql.value (p :: rest)) in *.
  assert (Hne : sorted <> []).
  { intros He. rewrite He in Hperm. now apply Permutation_nil_cons in Hperm. }
  destruct (head sorted) as [first|] eqn:Hf;
    [|destruct sorted; [contradiction|discriminate]].
  destruct (last sorted) as [final|] eqn:Hl;
    [|apply last_None in Hl; contradiction].
  exists first, final. split; [reflexivity|split; [reflexivity|]].
  pose proof (descending_ends ComprehensiveSql.value sorted first final Hsorted Hf Hl)
    as Hends.
  rewrite List.Forall_forall in Hends, Hall1, Hall2.
  assert (Hfirst : In first (p :: rest)).
  { apply (Permutation_in _ Hperm). rewrite head_lookup in Hf.
    apply list_elem_of_In. now apply list_elem_of_lookup_2 in Hf. }
  assert (Hfinal : In final (p :: rest)).
  { apply (Permutation_in _ Hperm). rewrite last_lookup in Hl.
    apply list_elem_of_In. now apply list_elem_of_lookup_2 in Hl. }
  apply in_map_iff in Hin1 as (q1 & Hq1 & Hq1in).
  apply in_map_iff in Hin2 as (q2 & Hq2 & Hq2in).
  pose proof (Hends q1 (Permutation_in _ (Permutation_sym Hperm) Hq1in)).
  pose proof (Hends q2 (Permutation_in _ (Permutation_sym Hperm) Hq2in)).
  pose proof (Hall1 _ (in_map ComprehensiveSql.value _ _ Hfirst)).
  pose proof (Hall2 _ (in_map ComprehensiveSql.value _ _ Hfinal)).
  lia.
Qed.

(** X24. [generate_comprehensive_sql] raises exactly when the data holds
    no record.  Otherwise the problems are inserted in descending order of
    frequency, none lost and none added, and the summary agrees with that
    order: the highest frequency it names is that of the problem with id
    1, the lowest that of the problem with the last id.  The text has one
    statement per problem, per company and per association around its 29
    fixed lines. *)
Theorem X24_summary_agrees_with_order :
  forall data : ComprehensiveSql.pages,
    let sorted := ComprehensiveSql.sorted_problems data in
    Permutation sorted (ComprehensiveSql.all_problems data)
    /\ StronglySorted (key_descends ComprehensiveSql.value) sorted
    /\ match ComprehensiveSql.generate_comprehensive_sql_lines data with
       | None => ComprehensiveSql.all_problems data = []
       | Some lines =>
           exists first final body,
             head sorted = Some first
             /\ last sorted = Some final
             /\ lines
                = (body
                     ++ [ ("-- Summary: "
                             ++ str_int (Z.of_nat (length sorted))
                             ++ " problems, "
                             ++ str_int
                                  (Z.of_nat
                                     (length (ComprehensiveSql.numbered_companies data)))
                             ++ " companies")%string;
                          ("-- Frequency range: "
                             ++ str_int (ComprehensiveSql.value first)
                             ++ " (highest) to "
                             ++ str_int (ComprehensiveSql.value final)
                             ++ " (lowest)")%string;
                          "-- Problems sorted by frequency for optimal FSRS algorithm training"%string ])%list
             /\ length lines
                = (29 + length sorted
                   + length (ComprehensiveSql.numbered_companies data)
                   + length (ComprehensiveSql.associations data))%nat
       end.
Proof.
  intros data sorted. subst sorted. unfold ComprehensiveSql.sorted_problems.
  split; [apply sort_desc_permutation|].
  split; [apply sort_desc_sorted|].
  unfold ComprehensiveSql.generate_comprehensive_sql_lines.
  destruct (ComprehensiveSql.py_max_of _) as [hi|] eqn:Hhi.
  - destruct (ComprehensiveSql.py_min_of _) as [lo|] eqn:Hlo.
    + destruct (extremes_of_sorted _ hi lo Hhi Hlo)
        as (first & final & Hf & Hl & <- & <-).
      exists first, final. eexists.
      split; [exact Hf|split; [exact Hl|split]].
      * rewrite sort_desc_length.
        replace (length (ComprehensiveSql.numbered_companies data))
          with (size (ComprehensiveSql.companies data)); [reflexivity|].
        unfold ComprehensiveSql.numbered_companies.
        rewrite enumerate_length, sorted_strings_permutation.
        reflexivity.
      * rewrite !length_app, !length_map, enumerate_length.
        cbn [length ComprehensiveSql.header]. unfold ComprehensiveSql.sorted_problems. lia.
    + destruct (ComprehensiveSql.all_problems data); [discriminate|discriminate].
  - destruct (ComprehensiveSql.all_problems data); [reflexivity|discriminate].
Qed.

(** X25. A title without a backslash is written by
    [generate_comprehensive_sql] so that no quote is left to end the
    string literal, and reading the escapes back gives the title as it
    was. *)
Theorem X25_title_quotes_escaped :
  forall t : string,
    contains (String backslash EmptyString) t = false ->
    quote_ends (ComprehensiveSql.escape_title t) = false
    /\ read_escapes (ComprehensiveSql.escape_title t) = t.
Proof.
  unfold ComprehensiveSql.escape_title.
  induction t as [|a t IH]; intros Hc; [split; reflexivity|].
  cbn [contains String.prefix] in Hc.
  destruct (ascii_dec backslash a) as [Heq|Hne].
  - destruct t; discriminate.
  - cbn [orb] in Hc. destruct (IH Hc) as [Hq Hr].
    assert (Hb : Ascii.eqb a backslash = false)
      by (apply Ascii.eqb_neq; congruence).
    cbn [replace_char]. destruct (Ascii.eqb_spec a "'") as [->|Hq'].
    + cbv [String.append].
      fold (replace_char "'" (String (ascii_of_nat 92) "'") t).
      cbn [quote_ends read_escapes]. 
      change (Ascii.eqb (ascii_of_nat 92) backslash) with true.
      cbn iota. rewrite Hq, Hr. split; reflexivity.
    + cbn [quote_ends read_escapes]. rewrite Hb.
      apply Ascii.eqb_neq in Hq'. rewrite Hq', Hq, Hr. split; reflexivity.
Qed.

(** A title with a quote. *)
Lemma X25_title_quotes_escaped_witness :
  quote_ends (ComprehensiveSql.escape_title "Kids' Game") = false
  /\ read_escapes (ComprehensiveSql.escape_title "Kids' Game") = "Kids' Game"%string.
Proof.
  apply (X25_title_quotes_escaped "Kids' Game"). reflexivity.
Defined.
